(** * shop-sim-ai: the funnel orchestrator [runAnalysis]

    A shallow embedding of [runAnalysis] (the mystery-shopper run over a
    store's purchase funnel) and of the keyword classifiers it applies to
    the page agent's observations, followed by the properties of the
    result it returns.

    Modelling choices.
    - JavaScript strings are [string]s holding the UTF-8 bytes of the text;
      [includes] is substring search, which on well-formed text agrees with
      the search over UTF-16 code units.
    - JavaScript numbers that the code uses as integers (scores, counts,
      milliseconds) are [Z].
    - A thrown value is [Thrown]; the code only ever looks at whether it is
      an [Error] and at its [message].
    - The page agent (Stagehand, its Playwright page, the clock and the
      settle delays) is a state machine over an arbitrary world type, see
      [Stagehand]. *)

From Stdlib Require Import String Ascii List ZArith NArith Bool Lia.
Import ListNotations.
Local Open Scope string_scope.
Local Open Scope Z_scope.

(* ===================================================================== *)
(** ** Strings *)

Module Js.

(** [s.startsWith(p)]. *)
Fixpoint startsWith (s p : string) : bool :=
  match p, s with
  | EmptyString, _ => true
  | String a p', String b s' => Ascii.eqb a b && startsWith s' p'
  | String _ _, EmptyString => false
  end.

(** [s.includes(x)]. *)
Fixpoint includes (s x : string) : bool :=
  startsWith s x ||
  match s with
  | EmptyString => false
  | String _ t => includes t x
  end.

(** The double-quote character, as it appears in JSON text. *)
Definition dquote : ascii := ascii_of_nat 34.

(** [quoted s] is the text [s] between two double quotes. *)
Definition quoted (s : string) : string :=
  String dquote (s ++ String dquote EmptyString).

(** Lower-casing of one byte of the ASCII range. *)
Definition lower_ascii (c : ascii) : ascii :=
  let n := nat_of_ascii c in
  if (Nat.leb 65 n && Nat.leb n 90)%bool then ascii_of_nat (n + 32) else c.

Definition is_digit (c : ascii) : bool :=
  let n := nat_of_ascii c in (Nat.leb 48 n && Nat.leb n 57)%bool.

Definition digit_value (c : ascii) : Z := Z.of_nat (nat_of_ascii c) - 48.

(** [p] (lower-case ASCII) is a prefix of [s] up to ASCII case: how a
    regular expression with the [i] flag reads a literal made of ASCII
    letters. *)
Fixpoint prefix_ci (p s : string) : bool :=
  match p, s with
  | EmptyString, _ => true
  | String a p', String b s' => Ascii.eqb a (lower_ascii b) && prefix_ci p' s'
  | String _ _, EmptyString => false
  end.

(** Drop a maximal run of white space (what a starred [\s] consumes):
    the ASCII characters 9-13 and 32, and the UTF-8 encodings of U+00A0,
    U+1680, U+2000-U+200A, U+2028, U+2029, U+202F, U+205F, U+3000 and
    U+FEFF. *)
Definition ws1 (a : ascii) : bool :=
  let n := nat_of_ascii a in
  ((Nat.leb 9 n && Nat.leb n 13) || Nat.eqb n 32)%bool.

Definition ws2 (a b : ascii) : bool :=
  (Nat.eqb (nat_of_ascii a) 194 && Nat.eqb (nat_of_ascii b) 160)%bool.

Definition ws3 (a b c : ascii) : bool :=
  let x := nat_of_ascii a in
  let y := nat_of_ascii b in
  let z := nat_of_ascii c in
  ((Nat.eqb x 225 && Nat.eqb y 154 && Nat.eqb z 128)
   || (Nat.eqb x 226 && Nat.eqb y 128
       && ((Nat.leb 128 z && Nat.leb z 138) || Nat.eqb z 168
           || Nat.eqb z 169 || Nat.eqb z 175))
   || (Nat.eqb x 226 && Nat.eqb y 129 && Nat.eqb z 159)
   || (Nat.eqb x 227 && Nat.eqb y 128 && Nat.eqb z 128)
   || (Nat.eqb x 239 && Nat.eqb y 187 && Nat.eqb z 191))%bool.

Fixpoint skip_ws (s : string) : string :=
  match s with
  | EmptyString => s
  | String a t =>
      if ws1 a then skip_ws t
      else
        match t with
        | EmptyString => s
        | String b u =>
            if ws2 a b then skip_ws u
            else
              match u with
              | EmptyString => s
              | String c v => if ws3 a b c then skip_ws v else s
              end
        end
  end.

(** A maximal run of decimal digits at the head of [s], read as a number
    ([parseInt] of the run), with the rest of the text. *)
Fixpoint digits_from (acc : Z) (s : string) : Z * string :=
  match s with
  | String c t => if is_digit c then digits_from (10 * acc + digit_value c) t
                  else (acc, s)
  | EmptyString => (acc, s)
  end.

(** The field-count pattern of the checkout analysis, case-insensitive:
    one or more digits (the first group), optional white space, an optional
    [form] with optional white space, then [field] and an optional [s].
    Does it match at the head of [s]?  The value of its first group when
    it does.  The digits are taken greedily; giving one back leaves a digit
    where the pattern needs white space or a letter, so no shorter run can
    match. *)
Definition field_match_here (s : string) : option Z :=
  match s with
  | String c _ =>
      if is_digit c then
        let '(n, rest) := digits_from 0 s in
        let rest := skip_ws rest in
        let rest := if prefix_ci "form" rest
                    then skip_ws (String.substring 4 (String.length rest - 4) rest)
                    else rest in
        if prefix_ci "field" rest then Some n else None
      else None
  | EmptyString => None
  end.

(** [s.match] of the field-count pattern: the leftmost match, reduced to
    [parseInt] of its first group. *)
Fixpoint field_match (s : string) : option Z :=
  match field_match_here s with
  | Some n => Some n
  | None =>
      match s with
      | String _ t => field_match t
      | EmptyString => None
      end
  end.

(** The string operations of the runtime whose result depends on Unicode
    tables or on the number formatting of the engine.  The development is
    parametric in them. *)
Record Builtins : Type := {
  toLowerCase : string -> string;          (* s.toLowerCase() *)
  substring_0_200 : string -> string;      (* s.substring(0, 200) *)
  numberToString : Z -> string             (* `${n}` *)
}.

(** An instance that is exact on ASCII text. *)
Fixpoint ascii_lower (s : string) : string :=
  match s with
  | EmptyString => EmptyString
  | String c t => String (lower_ascii c) (ascii_lower t)
  end.

Definition digit_char (d : Z) : ascii := ascii_of_nat (Z.to_nat d + 48).

Fixpoint show_nat_digits (fuel : nat) (n : Z) (acc : string) : string :=
  match fuel with
  | O => acc
  | S fuel' =>
      let acc' := String (digit_char (n mod 10)) acc in
      if n / 10 =? 0 then acc' else show_nat_digits fuel' (n / 10) acc'
  end.

Definition show_Z (n : Z) : string :=
  if n <? 0 then "-" ++ show_nat_digits (Z.to_nat (- n)) (- n) EmptyString
  else show_nat_digits (S (Z.to_nat n)) n EmptyString.

Definition ascii_builtins : Builtins := {|
  toLowerCase := ascii_lower;
  substring_0_200 := String.substring 0 200;
  numberToString := show_Z
|}.

End Js.

Import Js.

(* ===================================================================== *)
(** ** The data model (the exported interfaces) *)

Inductive Category : Type := critical | warning | suggestion | positive.

Definition Category_eqb (a b : Category) : bool :=
  match a, b with
  | critical, critical | warning, warning
  | suggestion, suggestion | positive, positive => true
  | _, _ => false
  end.

Record Finding : Type := mkFinding {
  id : string;
  category : Category;
  title : string;
  description : string;
  evidence : string;
  recommendation : string
}.

(** A timeline entry.  [timestamp] is the clock reading whose ISO
    rendering the code stores; [screenshot] is never set. *)
Record TimelineEvent : Type := mkEvent {
  timestamp : Z;
  action : string;
  url : string;
  success : bool
}.

Inductive Status : Type := completed | failed.

Record Metrics : Type := mkMetrics {
  add_to_cart_success : bool;
  time_to_add_to_cart_seconds : option Z;
  checkout_reached : bool;
  checkout_form_filled : bool;
  drop_off_step : option string
}.

Record AnalysisResult : Type := mkResult {
  run_id : string;
  store_url : string;
  status : Status;
  score : Z;
  metrics : Metrics;
  findings : list Finding;
  timeline : list TimelineEvent;
  session_url : option string;
  error : option string
}.

(** What a [throw] carries: an [Error] with its message, or anything else. *)
Inductive Thrown : Type :=
| ErrorObject (message : string)
| OtherValue.

(** [e instanceof Error ? e.message : 'Unknown error'] *)
Definition error_message (e : Thrown) : string :=
  match e with
  | ErrorObject m => m
  | OtherValue => "Unknown error"
  end.

(* ===================================================================== *)
(** ** The findings a run can report *)

(** The findings with a fixed text, in the order of the source. *)

Definition homepage_no_search : Finding := {|
  id := "homepage-no-search";
  category := warning;
  title := "Search Not Prominently Visible";
  description := "The search functionality is not clearly visible on the homepage";
  evidence := "Search bar/icon not easily found during homepage analysis";
  recommendation :=
    "Add a prominent search bar in the header to help users find products quickly"
|}.

Definition homepage_navigation_unclear : Finding := {|
  id := "homepage-navigation-unclear";
  category := warning;
  title := "Navigation Could Be Clearer";
  description := "The navigation menu or page layout may be confusing to users";
  evidence := "Navigation described as unclear or cluttered during analysis";
  recommendation := "Simplify the navigation menu and ensure clear visual hierarchy"
|}.

Definition homepage_products_hidden : Finding := {|
  id := "homepage-products-hidden";
  category := suggestion;
  title := "Products Not Immediately Visible";
  description := "Users may have difficulty finding products from the homepage";
  evidence := "Products or shop section not prominently displayed";
  recommendation :=
    "Feature popular products on the homepage or make the shop section more prominent"
|}.

Definition homepage_intrusive_popups : Finding := {|
  id := "homepage-intrusive-popups";
  category := warning;
  title := "Intrusive Popups Detected";
  description := "Popups or overlays may be disrupting the user experience";
  evidence := "Intrusive popup/overlay detected on homepage";
  recommendation :=
    "Delay popups or make them less intrusive to improve first impression"
|}.

Definition product_price_unclear : Finding := {|
  id := "product-price-unclear";
  category := critical;
  title := "Product Price Not Clear";
  description := "The product price is not prominently displayed";
  evidence := "Price visibility issue detected on product page";
  recommendation :=
    "Display the price in a larger font near the product title and add-to-cart button"
|}.

Definition product_images_poor : Finding := {|
  id := "product-images-poor";
  category := warning;
  title := "Product Images Could Be Better";
  description := "Product images may not be high quality or zoomable";
  evidence := "Image quality or zoom functionality issues detected";
  recommendation := "Use high-resolution product images with zoom functionality"
|}.

Definition product_atc_not_prominent : Finding := {|
  id := "product-atc-not-prominent";
  category := warning;
  title := "Add to Cart Button Not Prominent";
  description := "The add to cart button may not stand out enough";
  evidence := "Add to cart button prominence issue detected";
  recommendation := "Make the add to cart button larger with a contrasting color"
|}.

Definition product_no_reviews : Finding := {|
  id := "product-no-reviews";
  category := suggestion;
  title := "No Reviews/Ratings Visible";
  description := "Product reviews or ratings are not displayed";
  evidence := "No customer reviews or ratings found on product page";
  recommendation :=
    "Display customer reviews and ratings to build trust and help purchase decisions"
|}.

Definition product_no_stock_info : Finding := {|
  id := "product-no-stock-info";
  category := suggestion;
  title := "Stock Availability Not Shown";
  description := "Product stock/availability information is not visible";
  evidence := "No stock availability indicator found on product page";
  recommendation :=
    "Show stock availability to create urgency and prevent cart abandonment"
|}.

Definition product_no_shipping_info : Finding := {|
  id := "product-no-shipping-info";
  category := suggestion;
  title := "No Shipping Info on Product Page";
  description := "Shipping/delivery information is not visible on the product page";
  evidence := "No shipping information found before add to cart";
  recommendation :=
    "Display estimated delivery time and shipping cost on the product page"
|}.

Definition cart_no_feedback : Finding := {|
  id := "cart-no-feedback";
  category := warning;
  title := "No Clear Add-to-Cart Feedback";
  description := "Users may not realize the item was added to cart";
  evidence := "No clear visual feedback detected after adding to cart";
  recommendation :=
    "Add a clear confirmation popup, animation, or notification when items are added to cart"
|}.

Definition cart_no_shipping_threshold : Finding := {|
  id := "cart-no-shipping-threshold";
  category := suggestion;
  title := "No Free Shipping Threshold Message";
  description :=
    "Missing opportunity to encourage larger orders with free shipping incentive";
  evidence := ("No " ++ quoted "Add X more for free shipping" ++ " message detected");
  recommendation :=
    "Display how much more the customer needs to spend for free shipping"
|}.

Definition cart_no_upsell : Finding := {|
  id := "cart-no-upsell";
  category := suggestion;
  title := "No Upsell After Add to Cart";
  description := "Missing opportunity to increase order value with product suggestions";
  evidence := "No product recommendations shown after adding to cart";
  recommendation :=
    ("Show " ++ quoted "Frequently bought together" ++ " or related products after add to cart")
|}.

Definition cart_checkout_unclear : Finding := {|
  id := "cart-checkout-unclear";
  category := warning;
  title := "Checkout Button Not Prominent";
  description := "Users may have difficulty finding how to proceed to checkout";
  evidence := "Checkout button or path not prominently displayed";
  recommendation := "Make the checkout button more visible with contrasting colors"
|}.

Definition no_discount_field : Finding := {|
  id := "no-discount-field";
  category := suggestion;
  title := "No Discount Code Field Visible";
  description := "The checkout page does not prominently display a discount code field";
  evidence := "Discount/coupon field not found during checkout analysis";
  recommendation :=
    "Add a visible discount code field to encourage conversions and allow marketing campaigns"
|}.

Definition no_upsell : Finding := {|
  id := "no-upsell";
  category := suggestion;
  title := "No Upsell/Cross-sell at Checkout";
  description := "The checkout page does not show product recommendations";
  evidence := "No upsell or cross-sell suggestions found at checkout";
  recommendation :=
    ("Add " ++ quoted "Frequently bought together" ++ " or "
     ++ quoted "You might also like" ++ " sections to increase average order value")
|}.

Definition no_trust_badges : Finding := {|
  id := "no-trust-badges";
  category := warning;
  title := "No Trust Badges Visible";
  description := "Security and trust indicators are not prominently displayed";
  evidence := "No trust badges or security indicators found on checkout page";
  recommendation :=
    "Add SSL badges, payment provider logos, and security seals to increase buyer confidence"
|}.

Definition no_free_shipping_threshold : Finding := {|
  id := "no-free-shipping-threshold";
  category := suggestion;
  title := "No Free Shipping Incentive";
  description := ("No " ++ quoted "Add X more for free shipping" ++ " message found");
  evidence := "Free shipping threshold messaging not detected";
  recommendation :=
    ("Display " ++ quoted "Add X TL more for free shipping" ++ " to encourage larger orders")
|}.

Definition checkout_no_guest : Finding := {|
  id := "checkout-no-guest";
  category := warning;
  title := "Guest Checkout Not Available";
  description := "Users are required to create an account or log in to checkout";
  evidence := "Login/account required before checkout completion";
  recommendation :=
    "Offer guest checkout option to reduce friction and cart abandonment"
|}.

Definition checkout_no_progress : Finding := {|
  id := "checkout-no-progress";
  category := suggestion;
  title := "No Progress Indicator";
  description := "Checkout does not show progress through the checkout steps";
  evidence := "No progress indicator or step tracker found";
  recommendation :=
    ("Add a progress bar or step indicator (e.g., " ++ quoted "Step 2 of 3"
     ++ ") to reduce anxiety")
|}.

Definition checkout_unclear_shipping : Finding := {|
  id := "checkout-unclear-shipping";
  category := warning;
  title := "Shipping Costs Not Clear";
  description := "Shipping costs are not clearly displayed before checkout completion";
  evidence := "Shipping cost visibility issue detected";
  recommendation :=
    "Display shipping costs clearly and early to prevent surprise costs at checkout"
|}.

Definition checkout_has_errors : Finding := {|
  id := "checkout-has-errors";
  category := critical;
  title := "Form Validation Errors Present";
  description := "Error messages are visible on the checkout form";
  evidence := "Validation errors detected during checkout process";
  recommendation :=
    "Review form validation and ensure error messages are helpful and actionable"
|}.

Definition successful_add_to_cart : Finding := {|
  id := "successful-add-to-cart";
  category := positive;
  title := "Add to Cart Works";
  description := "Products can be successfully added to the shopping cart";
  evidence := "Successfully added a product to cart during analysis";
  recommendation := "Continue maintaining this core functionality"
|}.

Definition successful_checkout_reach : Finding := {|
  id := "successful-checkout-reach";
  category := positive;
  title := "Checkout Flow Accessible";
  description := "Users can navigate from product to checkout successfully";
  evidence := "Checkout page reached during analysis";
  recommendation := "The checkout funnel is working - focus on optimization"
|}.

Definition successful_form_fill : Finding := {|
  id := "successful-form-fill";
  category := positive;
  title := "Checkout Form Functional";
  description := "The checkout form accepts customer information correctly";
  evidence := "Form fields were successfully filled during analysis";
  recommendation := "Form is usable - consider optimizing for speed"
|}.

(** The findings whose text quotes what the run saw. *)

Definition no_products (e : Thrown) : Finding := {|
  id := "no-products";
  category := critical;
  title := "Could not find products";
  description := "Unable to locate any clickable products on the page";
  evidence := "Error: " ++ error_message e;
  recommendation :=
    "Ensure products are clearly visible and clickable on the homepage or add a shop/products link"
|}.

Definition add_to_cart_size_required (js : Builtins) (finalErrorStr : string)
    : Finding := {|
  id := "add-to-cart-size-required";
  category := warning;
  title := "Size Selection UX Issue";
  description :=
    "Product requires size selection but the options may not be obvious or easy to select";
  evidence := "Error: " ++ substring_0_200 js finalErrorStr;
  recommendation :=
    "Make size/variant options more prominent and clearly indicate when selection is required before adding to cart"
|}.

Definition add_to_cart_out_of_stock (js : Builtins) (finalErrorStr : string)
    : Finding := {|
  id := "add-to-cart-out-of-stock";
  category := warning;
  title := "Product Out of Stock";
  description := "The selected product appears to be out of stock";
  evidence := "Error: " ++ substring_0_200 js finalErrorStr;
  recommendation :=
    "Show stock availability clearly and suggest similar in-stock products"
|}.

Definition add_to_cart_login_required (js : Builtins) (finalErrorStr : string)
    : Finding := {|
  id := "add-to-cart-login-required";
  category := critical;
  title := "Login Required to Add to Cart";
  description := "Users must be logged in to add items to cart";
  evidence := "Error: " ++ substring_0_200 js finalErrorStr;
  recommendation := "Allow guest users to add items to cart without logging in"
|}.

Definition add_to_cart_stayed_empty (js : Builtins)
    (cartCheckStr finalErrorStr : string) : Finding := {|
  id := "add-to-cart-failed";
  category := critical;
  title := "Add to Cart Failed";
  description := "Clicked add to cart but the cart remained empty";
  evidence := "Cart check: " ++ cartCheckStr ++ ", Error check: "
              ++ substring_0_200 js finalErrorStr;
  recommendation :=
    "Verify the add to cart button is functional and provides clear feedback"
|}.

Definition add_to_cart_failed (e : Thrown) : Finding := {|
  id := "add-to-cart-failed";
  category := critical;
  title := "Add to Cart Failed";
  description := "Could not add the product to cart";
  evidence := "Error: " ++ error_message e;
  recommendation := "Ensure the Add to Cart button is clearly visible and functional"
|}.

Definition checkout_too_many_fields (js : Builtins) (fieldCount : Z) : Finding := {|
  id := "checkout-too-many-fields";
  category := suggestion;
  title := "Too Many Form Fields";
  description := "Checkout form has " ++ numberToString js fieldCount
                 ++ " fields which may cause abandonment";
  evidence := numberToString js fieldCount
              ++ " form fields detected during checkout analysis";
  recommendation :=
    "Reduce form fields to essential information only (aim for 6-8 fields max)"
|}.

Definition checkout_form_issues (formError : Thrown) : Finding := {|
  id := "checkout-form-issues";
  category := warning;
  title := "Checkout Form Difficulties";
  description := "The AI agent had difficulty filling out the checkout form";
  evidence := "Error: " ++ error_message formError;
  recommendation :=
    "Simplify checkout form, reduce required fields, and ensure clear labels"
|}.

Definition checkout_failed (e : Thrown) : Finding := {|
  id := "checkout-failed";
  category := critical;
  title := "Could not reach checkout";
  description := "Failed to navigate to checkout after adding to cart";
  evidence := "Error: " ++ error_message e;
  recommendation := "Ensure checkout flow is accessible and intuitive"
|}.

Definition fast_add_to_cart (js : Builtins) (timeToAddToCart : Z) : Finding := {|
  id := "fast-add-to-cart";
  category := positive;
  title := "Fast Add-to-Cart Experience";
  description := "Product was added to cart in " ++ numberToString js timeToAddToCart
                 ++ " seconds";
  evidence := "Time from page load to cart: " ++ numberToString js timeToAddToCart
              ++ "s";
  recommendation := "Keep maintaining this smooth experience"
|}.

Definition analysis_failed (e : Thrown) : Finding := {|
  id := "analysis-failed";
  category := critical;
  title := "Analysis Failed";
  description := "The analysis could not be completed";
  evidence := error_message e;
  recommendation := "Check if the store URL is accessible"
|}.

(* ===================================================================== *)
(** ** The keyword classifiers *)

Definition when (b : bool) (f : Finding) : list Finding :=
  if b then [f] else [].

Definition count_category (c : Category) (fs : list Finding) : Z :=
  Z.of_nat (List.length (filter (fun f => Category_eqb (category f) c) fs)).

Definition has_id (i : string) (fs : list Finding) : bool :=
  existsb (fun f => String.eqb (id f) i) fs.

(** The homepage rules, applied to the lower-cased serialised observation
    [homepageStr]. *)
Definition homepage_findings (homepageStr : string) : list Finding :=
  when ((negb (includes homepageStr "search")
         || includes homepageStr "no search"
         || includes homepageStr "not visible")
        && (negb (includes homepageStr "search bar")
            && negb (includes homepageStr "search icon")))
       homepage_no_search
  ++ when (includes homepageStr "confusing" || includes homepageStr "cluttered"
           || includes homepageStr "unclear" || includes homepageStr "difficult")
       homepage_navigation_unclear
  ++ when (includes homepageStr "hard to find" || includes homepageStr "not easy"
           || includes homepageStr "difficult to locate")
       homepage_products_hidden
  ++ when ((includes homepageStr "popup" || includes homepageStr "overlay"
            || includes homepageStr "modal")
           && (includes homepageStr "annoying" || includes homepageStr "intrusive"
               || includes homepageStr "blocking"))
       homepage_intrusive_popups.

(** The cart check: does the lower-cased serialised observation say that
    the cart holds something? *)
Definition hasItems (cartCheckStr : string) : bool :=
  negb (includes cartCheckStr (quoted "0"))
  && negb (includes cartCheckStr "0 item")
  && negb (includes cartCheckStr "empty")
  && negb (includes cartCheckStr "no item")
  && (includes cartCheckStr "1" || includes cartCheckStr "item"
      || includes cartCheckStr "added" || includes cartCheckStr "eklendi"
      || includes cartCheckStr "success").

(** The cart check as the specification words it: any occurrence of the
    digit 0 counts as evidence of an empty cart. *)
Definition hasItems_spec (cartCheckStr : string) : bool :=
  negb (includes cartCheckStr "0" || includes cartCheckStr "0 item"
        || includes cartCheckStr "empty" || includes cartCheckStr "no item")
  && (includes cartCheckStr "1" || includes cartCheckStr "item"
      || includes cartCheckStr "added" || includes cartCheckStr "eklendi"
      || includes cartCheckStr "success").

(** The product-page rules, applied to the lower-cased serialised
    observation [productStr]. *)
Definition product_page_findings (productStr : string) : list Finding :=
  when (includes productStr "price"
        && (includes productStr "not clear" || includes productStr "hard to find"
            || includes productStr "not visible"))
       product_price_unclear
  ++ when (includes productStr "image"
           && (includes productStr "blurry" || includes productStr "low quality"
               || includes productStr "small" || includes productStr "not zoomable"))
       product_images_poor
  ++ when (includes productStr "add to cart"
           && (includes productStr "not prominent" || includes productStr "hard to find"
               || includes productStr "small"))
       product_atc_not_prominent
  ++ (if negb (includes productStr "review") && negb (includes productStr "rating")
         && negb (includes productStr "star")
      then [product_no_reviews]
      else if includes productStr "no review" || includes productStr "no rating"
      then [product_no_reviews]
      else [])
  ++ when (negb (includes productStr "stock") && negb (includes productStr "availability")
           && negb (includes productStr "stok"))
       product_no_stock_info
  ++ when (negb (includes productStr "shipping") && negb (includes productStr "delivery")
           && negb (includes productStr "kargo") && negb (includes productStr "teslimat"))
       product_no_shipping_info.

(** The probe for a variant-required message after the first add-to-cart
    attempt. *)
Definition needsVariantSelection (errorCheckStr : string) : bool :=
  includes errorCheckStr "beden" || includes errorCheckStr "size"
  || includes errorCheckStr "seç" || includes errorCheckStr "select"
  || includes errorCheckStr "variant" || includes errorCheckStr "renk"
  || includes errorCheckStr "color" || includes errorCheckStr "required"
  || includes errorCheckStr "zorunlu" || includes errorCheckStr "lütfen".

(** The second probe, after the explicit size selection. *)
Definition stillSizeError (secondErrorStr : string) : bool :=
  includes secondErrorStr "beden" || includes secondErrorStr "size"
  || includes secondErrorStr "error".

(** The cart-experience rules, applied to the lower-cased serialised
    observation [cartExpStr]. *)
Definition cart_experience_findings (cartExpStr : string) : list Finding :=
  when (negb (includes cartExpStr "feedback") && negb (includes cartExpStr "notification")
        && negb (includes cartExpStr "popup") && negb (includes cartExpStr "animation")
        && negb (includes cartExpStr "confirmation"))
       cart_no_feedback
  ++ when (negb (includes cartExpStr "free shipping")
           && negb (includes cartExpStr "ücretsiz kargo")
           && negb (includes cartExpStr "shipping threshold"))
       cart_no_shipping_threshold
  ++ when (negb (includes cartExpStr "upsell") && negb (includes cartExpStr "cross-sell")
           && negb (includes cartExpStr "also like") && negb (includes cartExpStr "recommend")
           && negb (includes cartExpStr "related"))
       cart_no_upsell
  ++ when (includes cartExpStr "checkout"
           && (includes cartExpStr "not clear" || includes cartExpStr "hard to find"
               || includes cartExpStr "hidden"))
       cart_checkout_unclear.

Section Classifiers.

Variable js : Builtins.

(** The diagnosis when the cart stayed empty: one finding, chosen by the
    first family of keywords found in the lower-cased serialised
    observation [finalErrorStr]. *)
Definition add_to_cart_diagnosis (cartCheckStr finalErrorStr : string) : Finding :=
  if includes finalErrorStr "beden" || includes finalErrorStr "size"
     || includes finalErrorStr "variant"
  then add_to_cart_size_required js finalErrorStr
  else if includes finalErrorStr "stock" || includes finalErrorStr "stok"
          || includes finalErrorStr "tükendi"
  then add_to_cart_out_of_stock js finalErrorStr
  else if includes finalErrorStr "login" || includes finalErrorStr "giriş"
          || includes finalErrorStr "üye"
  then add_to_cart_login_required js finalErrorStr
  else add_to_cart_stayed_empty js cartCheckStr finalErrorStr.

(** The checkout-page rules, applied to the serialised observation
    [analysisStr]: every rule reads its lower-cased form, except the field
    count, which is matched on the text as it is. *)
Definition checkout_findings (analysisStr : string) : list Finding :=
  let analysisLower := toLowerCase js analysisStr in
  when (negb (includes analysisLower "discount") && negb (includes analysisLower "coupon"))
       no_discount_field
  ++ when (negb (includes analysisLower "upsell") && negb (includes analysisLower "cross-sell")
           && negb (includes analysisLower "related")
           && negb (includes analysisLower "recommend"))
       no_upsell
  ++ when (negb (includes analysisLower "trust") && negb (includes analysisLower "security")
           && negb (includes analysisLower "ssl") && negb (includes analysisLower "secure"))
       no_trust_badges
  ++ when (negb (includes analysisLower "free shipping")
           && negb (includes analysisLower "ücretsiz kargo"))
       no_free_shipping_threshold
  ++ when (includes analysisLower "login required"
           || (includes analysisLower "login" && negb (includes analysisLower "guest"))
           || includes analysisLower "account required"
           || includes analysisLower "sign in required")
       checkout_no_guest
  ++ match field_match analysisStr with
     | Some fieldCount =>
         when (8 <? fieldCount) (checkout_too_many_fields js fieldCount)
     | None => []
     end
  ++ when (negb (includes analysisLower "progress") && negb (includes analysisLower "step")
           && negb (includes analysisLower "indicator")
           && negb (includes analysisLower "adım"))
       checkout_no_progress
  ++ when ((negb (includes analysisLower "shipping cost")
            && negb (includes analysisLower "delivery cost")
            && negb (includes analysisLower "kargo ücreti")
            && (includes analysisLower "shipping" || includes analysisLower "kargo"))
           && (includes analysisLower "not displayed" || includes analysisLower "not visible"
               || includes analysisLower "hidden" || includes analysisLower "unclear"))
       checkout_unclear_shipping
  ++ when ((includes analysisLower "error" && negb (includes analysisLower "no error"))
           && (includes analysisLower "error message"
               || includes analysisLower "validation error"))
       checkout_has_errors.

End Classifiers.

(* ===================================================================== *)
(** ** The scoring model *)

(** The score computed at the end of a run that went through the stages:
    lines "Calculate score" to "Ensure score is between 0-100". *)
Definition compute_score (addToCartSuccess checkoutReached checkoutFormFilled : bool)
    (fs : list Finding) : Z :=
  let score := 0 in
  let score := if addToCartSuccess then score + 20 else score in
  let score := if checkoutReached then score + 20 else score in
  let score := if checkoutFormFilled then score + 20 else score in
  let uxScore := 40 in
  let uxScore := uxScore - count_category critical fs * 15 in
  let uxScore := uxScore - count_category warning fs * 8 in
  let uxScore := uxScore - count_category suggestion fs * 5 in
  let score := score + Z.max 0 uxScore in
  Z.max 0 (Z.min 100 score).

(** The score as the specification words it: a funnel component worth 20
    per stage reached, plus a quality component of 40 reduced by 15, 8 and
    5 per critical, warning and suggestion finding and floored at 0, the
    sum clamped to the range 0..100. *)
Definition b2z (b : bool) : Z := if b then 1 else 0.

Definition funnel_component (atc co filled : bool) : Z :=
  20 * b2z atc + 20 * b2z co + 20 * b2z filled.

Definition ux_component (fs : list Finding) : Z :=
  Z.max 0 (40 - 15 * count_category critical fs - 8 * count_category warning fs
           - 5 * count_category suggestion fs).

Definition clamp (lo hi x : Z) : Z := Z.max lo (Z.min hi x).

Definition spec_score (atc co filled : bool) (fs : list Finding) : Z :=
  clamp 0 100 (funnel_component atc co filled + ux_component fs).

(** [timeline.some(t => t.action.includes('Filled checkout form'))] *)
Definition checkoutFormFilled_of (tl : list TimelineEvent) : bool :=
  existsb (fun t => includes (action t) "Filled checkout form") tl.

(* ===================================================================== *)
(** ** The page agent *)

(** The observation requests of the run, one constructor per call of
    [stagehand.extract], in the order of the source; each stands for the
    literal prompt of that call. *)
Inductive ExtractPrompt : Type :=
| AskHomepageUx            (* "Analyze this homepage/landing page ..." *)
| AskInitialPage           (* "Look at the page. Are there any products with PRICES ..." *)
| AskIsProductPage         (* "Is this a product detail page ... Respond with YES or NO." *)
| AskProductPageUx         (* "Analyze this product page ..." *)
| AskVariantError          (* "Is there any error message or warning visible ..." *)
| AskVariantErrorAgain     (* "Is there still an error message about size ..." *)
| AskCartState             (* "Check the shopping cart icon or cart indicator ..." *)
| AskCartExperience        (* "Analyze the add-to-cart experience ..." *)
| AskWhyNotAdded           (* "Why couldn't the item be added to cart? ..." *)
| AskCartPage              (* "What page are we on? Is there a checkout button ..." *)
| AskLoginOrGuest          (* "Is there a login form or guest checkout option ..." *)
| AskAddressModal          (* "Is there a modal or popup open for address entry? ..." *)
| AskCheckoutUx.           (* "Analyze this checkout page and provide insights ..." *)

(** The instructions of the run, one constructor per call of
    [stagehand.act], in the order of the source. *)
Inductive ActInstruction : Type :=
| GoToProductsSection      (* "Navigate to the products/shop section ..." *)
| ClickDropdownCategory    (* "A dropdown menu should be open. ..." *)
| ClickProduct             (* "Find and click on a specific PRODUCT ..." *)
| ClickProductAgain        (* "Find and click on any product card that shows a price. ..." *)
| SelectVariantAndAdd      (* "On this product page, do the following in order ..." *)
| SelectFirstSize          (* "There is an error saying you need to select a size ..." *)
| ClickAddToCartAgain      (* "Now click the Add to Cart ... button again." *)
| SelectSizeFromDropdown   (* "The size selection might be a dropdown menu. ..." *)
| OpenCartOrCheckout       (* "Look for and click the cart icon ..." *)
| ProceedToCheckout        (* "Click the Checkout, Proceed to Checkout ..." *)
| ContinueAsGuest          (* "If there is a guest checkout option ..." *)
| FillContact              (* "Fill in contact information fields if visible ..." *)
| FillName                 (* "Fill in name fields if visible ..." *)
| FillAddress              (* "Fill in address fields if visible ..." *)
| SaveAddressModal         (* "Click the Save, Kaydet, Confirm ..." *)
| SelectShipping           (* "If there are shipping method options visible ..." *)
| ContinueToPayment.       (* "Look for a Continue to payment ... DO NOT click any final ..." *)

(** The capability [runAnalysis] drives, as a state machine over a world
    [W]: every call may change the world, and the calls that can throw
    return a [Thrown] on the left.

    [sh_extract] yields the observation as [JSON.stringify] renders it;
    an observation that cannot be rendered (the next expression of the
    source then throws inside the same [try] block) counts as a throw of
    the call. *)
Record Stagehand (W : Type) : Type := {
  sh_new : W -> (Thrown + unit) * W;          (* import(...) and new Stagehand({...}) *)
  sh_init : W -> (Thrown + unit) * W;         (* stagehand.init() *)
  sh_browserbaseSessionID : W -> option string;
  sh_first_page : W -> (Thrown + bool) * W;   (* context.pages()[0]: is there one? *)
  page_goto : string -> W -> (Thrown + unit) * W;
  page_url : W -> string;
  sh_extract : ExtractPrompt -> W -> (Thrown + string) * W;
  sh_act : ActInstruction -> W -> (Thrown + unit) * W;
  sh_close : W -> (Thrown + unit) * W;        (* stagehand.close() *)
  date_now : W -> Z * W;                      (* Date.now(), new Date() *)
  settle : Z -> W -> W                        (* the setTimeout pauses, in ms *)
}.

Arguments sh_new {W}.
Arguments sh_init {W}.
Arguments sh_browserbaseSessionID {W}.
Arguments sh_first_page {W}.
Arguments page_goto {W}.
Arguments page_url {W}.
Arguments sh_extract {W}.
Arguments sh_act {W}.
Arguments sh_close {W}.
Arguments date_now {W}.
Arguments settle {W}.

(* ===================================================================== *)
(** ** The state of a run *)

(** The local variables of [runAnalysis], the world, and one ghost
    counter: [closes], the number of calls of [stagehand.close()] so far. *)
Module St.

Record t (W : Type) : Type := mk {
  world : W;
  closes : nat;
  timeline : list TimelineEvent;
  findings : list Finding;
  addToCartSuccess : bool;
  checkoutReached : bool;
  dropOffStep : option string;
  timeToAddToCart : option Z;
  sessionUrl : option string;
  startTime : Z;
  addToCartTime : option Z;
  currentUrl : string
}.

Arguments mk {W}.
Arguments world {W}.
Arguments closes {W}.
Arguments timeline {W}.
Arguments findings {W}.
Arguments addToCartSuccess {W}.
Arguments checkoutReached {W}.
Arguments dropOffStep {W}.
Arguments timeToAddToCart {W}.
Arguments sessionUrl {W}.
Arguments startTime {W}.
Arguments addToCartTime {W}.
Arguments currentUrl {W}.

Section Updates.
Context {W : Type}.

(** The variables as [runAnalysis] declares them, [startTime] read. *)
Definition initial (w : W) (start : Z) : t W :=
  mk w 0%nat [] [] false false None None None start None "".

Definition with_world (w : W) (s : t W) : t W :=
  mk w (closes s) (timeline s) (findings s) (addToCartSuccess s)
     (checkoutReached s) (dropOffStep s) (timeToAddToCart s) (sessionUrl s)
     (startTime s) (addToCartTime s) (currentUrl s).

Definition count_close (s : t W) : t W :=
  mk (world s) (S (closes s)) (timeline s) (findings s) (addToCartSuccess s)
     (checkoutReached s) (dropOffStep s) (timeToAddToCart s) (sessionUrl s)
     (startTime s) (addToCartTime s) (currentUrl s).

Definition push_timeline (ev : TimelineEvent) (s : t W) : t W :=
  mk (world s) (closes s) (timeline s ++ [ev]) (findings s) (addToCartSuccess s)
     (checkoutReached s) (dropOffStep s) (timeToAddToCart s) (sessionUrl s)
     (startTime s) (addToCartTime s) (currentUrl s).

Definition push_findings (fs : list Finding) (s : t W) : t W :=
  mk (world s) (closes s) (timeline s) (findings s ++ fs) (addToCartSuccess s)
     (checkoutReached s) (dropOffStep s) (timeToAddToCart s) (sessionUrl s)
     (startTime s) (addToCartTime s) (currentUrl s).

Definition set_addToCart (now : Z) (seconds : Z) (s : t W) : t W :=
  mk (world s) (closes s) (timeline s) (findings s) true
     (checkoutReached s) (dropOffStep s) (Some seconds) (sessionUrl s)
     (startTime s) (Some now) (currentUrl s).

Definition set_checkoutReached (b : bool) (s : t W) : t W :=
  mk (world s) (closes s) (timeline s) (findings s) (addToCartSuccess s)
     b (dropOffStep s) (timeToAddToCart s) (sessionUrl s)
     (startTime s) (addToCartTime s) (currentUrl s).

Definition set_dropOffStep (step : string) (s : t W) : t W :=
  mk (world s) (closes s) (timeline s) (findings s) (addToCartSuccess s)
     (checkoutReached s) (Some step) (timeToAddToCart s) (sessionUrl s)
     (startTime s) (addToCartTime s) (currentUrl s).

Definition set_sessionUrl (u : string) (s : t W) : t W :=
  mk (world s) (closes s) (timeline s) (findings s) (addToCartSuccess s)
     (checkoutReached s) (dropOffStep s) (timeToAddToCart s) (Some u)
     (startTime s) (addToCartTime s) (currentUrl s).

Definition set_currentUrl (u : string) (s : t W) : t W :=
  mk (world s) (closes s) (timeline s) (findings s) (addToCartSuccess s)
     (checkoutReached s) (dropOffStep s) (timeToAddToCart s) (sessionUrl s)
     (startTime s) (addToCartTime s) u.

End Updates.
End St.

(** [Math.round(ms / 1000)] for an integer [ms]: the nearest integer,
    halves upwards. *)
Definition round_seconds (ms : Z) : Z := (ms + 500) / 1000.

(** Truthiness of a nullable string and of a nullable number. *)
Definition truthy_string (o : option string) : bool :=
  match o with
  | Some s => negb (String.eqb s "")
  | None => false
  end.

Definition truthy_number (o : option Z) : bool :=
  match o with
  | Some n => negb (n =? 0)
  | None => false
  end.

(* ===================================================================== *)
(** ** Computations that mutate the run state and may throw *)

Section Run.

Context {W : Type}.
Variable js : Builtins.
Variable sh : Stagehand W.
Variables storeUrl runId : string.

(** A computation runs from a state to a value or a thrown value, and a
    state: what was assigned before a [throw] stays assigned. *)
Definition M (A : Type) : Type := St.t W -> (Thrown + A) * St.t W.

Definition ret {A} (a : A) : M A := fun s => (inr a, s).

Definition throw {A} (e : Thrown) : M A := fun s => (inl e, s).

Definition bind {A B} (m : M A) (k : A -> M B) : M B :=
  fun s =>
    match m s with
    | (inr a, s') => k a s'
    | (inl e, s') => (inl e, s')
    end.

(** [try { m } catch (e) { h e }] *)
Definition try_catch {A} (m : M A) (h : Thrown -> M A) : M A :=
  fun s =>
    match m s with
    | (inr a, s') => (inr a, s')
    | (inl e, s') => h e s'
    end.

Definition get : M (St.t W) := fun s => (inr s, s).

Definition modify (f : St.t W -> St.t W) : M unit := fun s => (inr tt, f s).

Definition whenM (b : bool) (m : M unit) : M unit := if b then m else ret tt.

Notation "x <- m ;; k" := (bind m (fun x => k))
  (at level 61, m at next level, right associativity).
Notation "m ;; k" := (bind m (fun _ => k))
  (at level 61, right associativity).

(** *** The calls on the agent *)

Definition call {A} (f : W -> (Thrown + A) * W) : M A :=
  fun s => let (r, w) := f (St.world s) in (r, St.with_world w s).

Definition new_Stagehand : M unit := call (sh_new sh).
Definition init : M unit := call (sh_init sh).
Definition first_page : M bool := call (sh_first_page sh).
Definition goto (u : string) : M unit := call (page_goto sh u).
Definition extract (p : ExtractPrompt) : M string := call (sh_extract sh p).
Definition act (i : ActInstruction) : M unit := call (sh_act sh i).

Definition close : M unit :=
  fun s => let (r, w) := sh_close sh (St.world s) in
           (r, St.with_world w (St.count_close s)).

Definition now : M Z :=
  fun s => let (t, w) := date_now sh (St.world s) in (inr t, St.with_world w s).

Definition wait (ms : Z) : M unit :=
  modify (fun s => St.with_world (settle sh ms (St.world s)) s).

(** [page.url()] *)
Definition pageUrl : M string := fun s => (inr (page_url sh (St.world s)), s).

(** the variable [currentUrl] *)
Definition currentUrl : M string := fun s => (inr (St.currentUrl s), s).

(** [currentUrl = page.url()] *)
Definition refreshCurrentUrl : M unit :=
  u <- pageUrl ;; modify (St.set_currentUrl u).

(** [timeline.push({ timestamp: new Date().toISOString(), action, url,
    success: true })], [url] being read after the clock. *)
Definition record (action : string) (url : M string) : M unit :=
  t <- now ;;
  u <- url ;;
  modify (St.push_timeline (mkEvent t action u true)).

Definition report (fs : list Finding) : M unit := modify (St.push_findings fs).

(** *** Step 1: open the session and the store *)

Definition navigate : M unit :=
  init ;;
  s <- get ;;
  match sh_browserbaseSessionID sh (St.world s) with
  | Some sessionId =>
      whenM (negb (String.eqb sessionId ""))
        (modify (St.set_sessionUrl ("https://browserbase.com/sessions/" ++ sessionId)))
  | None => ret tt
  end ;;
  page <- first_page ;;
  (if page then ret tt
   else throw (ErrorObject "Could not get page from stagehand.context.pages()")) ;;
  goto storeUrl ;;
  wait 2000 ;;
  refreshCurrentUrl ;;
  record "Navigate to store" currentUrl.

(** *** Homepage analysis: best effort *)

Definition homepage_analysis : M unit :=
  try_catch
    (homepageAnalysis <- extract AskHomepageUx ;;
     let homepageStr := toLowerCase js homepageAnalysis in
     report (homepage_findings homepageStr) ;;
     record "Analyzed homepage UX" currentUrl)
    (fun _ => ret tt).

(** *** Step 2: product discovery, with the product-page analysis *)

Definition product_page_analysis : M unit :=
  try_catch
    (productPageAnalysis <- extract AskProductPageUx ;;
     let productStr := toLowerCase js productPageAnalysis in
     report (product_page_findings productStr) ;;
     record "Analyzed product page UX" currentUrl)
    (fun _ => ret tt).

Definition find_product : M unit :=
  initialPageCheck <- extract AskInitialPage ;;
  let initialCheckStr := toLowerCase js initialPageCheck in
  whenM (includes initialCheckStr "homepage" || includes initialCheckStr "navigate"
         || negb (includes initialCheckStr "price"))
    (act GoToProductsSection ;;
     wait 2000 ;;
     refreshCurrentUrl ;;
     url <- currentUrl ;;
     whenM (String.eqb url storeUrl || String.eqb url (storeUrl ++ "/"))
       (act ClickDropdownCategory ;;
        wait 2000 ;;
        refreshCurrentUrl)) ;;
  act ClickProduct ;;
  wait 2000 ;;
  refreshCurrentUrl ;;
  pageCheck <- extract AskIsProductPage ;;
  let pageCheckStr := toLowerCase js pageCheck in
  whenM (negb (includes pageCheckStr "yes"))
    (act ClickProductAgain ;;
     wait 2000 ;;
     refreshCurrentUrl) ;;
  record "Navigated to product page" currentUrl ;;
  product_page_analysis.

Definition product_discovery : M unit :=
  record "Looking for products" currentUrl ;;
  try_catch find_product
    (fun e =>
       report [no_products e] ;;
       modify (St.set_dropOffStep "product_discovery")).

(** *** Step 3: add to cart *)

Definition cart_experience_analysis : M unit :=
  try_catch
    (cartExperienceAnalysis <- extract AskCartExperience ;;
     let cartExpStr := toLowerCase js cartExperienceAnalysis in
     report (cart_experience_findings cartExpStr) ;;
     record "Analyzed cart experience" currentUrl)
    (fun _ => ret tt).

(** The escalating retries when the page asks for a size or variant. *)
Definition variant_retries : M unit :=
  record "Detected size/variant selection required" pageUrl ;;
  act SelectFirstSize ;;
  wait 1500 ;;
  act ClickAddToCartAgain ;;
  wait 2000 ;;
  secondErrorCheck <- extract AskVariantErrorAgain ;;
  let secondErrorStr := toLowerCase js secondErrorCheck in
  whenM (stillSizeError secondErrorStr)
    (act SelectSizeFromDropdown ;;
     wait 2000).

Definition try_add_to_cart : M unit :=
  act SelectVariantAndAdd ;;
  wait 2000 ;;
  errorCheck <- extract AskVariantError ;;
  let errorCheckStr := toLowerCase js errorCheck in
  whenM (needsVariantSelection errorCheckStr) variant_retries ;;
  wait 1500 ;;
  refreshCurrentUrl ;;
  cartCheck <- extract AskCartState ;;
  let cartCheckStr := toLowerCase js cartCheck in
  if hasItems cartCheckStr then
    addToCartTime <- now ;;
    s <- get ;;
    modify (St.set_addToCart addToCartTime
              (round_seconds (addToCartTime - St.startTime s))) ;;
    record "Added product to cart" currentUrl ;;
    cart_experience_analysis
  else
    finalErrorCheck <- extract AskWhyNotAdded ;;
    let finalErrorStr := toLowerCase js finalErrorCheck in
    report [add_to_cart_diagnosis js cartCheckStr finalErrorStr] ;;
    modify (St.set_dropOffStep "add_to_cart").

Definition add_to_cart : M unit :=
  s <- get ;;
  whenM (negb (truthy_string (St.dropOffStep s)))
    (record "Looking for Add to Cart button" currentUrl ;;
     try_catch try_add_to_cart
       (fun e =>
          report [add_to_cart_failed e] ;;
          modify (St.set_dropOffStep "add_to_cart"))).

(** *** Steps 4 to 7: cart, checkout, the checkout form *)

Definition fill_checkout_form : M unit :=
  loginCheck <- extract AskLoginOrGuest ;;
  let loginCheckStr := toLowerCase js loginCheck in
  whenM (includes loginCheckStr "login" || includes loginCheckStr "guest")
    (act ContinueAsGuest ;;
     wait 2000) ;;
  record "Handling login/guest checkout" pageUrl ;;
  act FillContact ;;
  wait 1500 ;;
  record "Filled contact information" pageUrl ;;
  act FillName ;;
  wait 1500 ;;
  record "Filled name fields" pageUrl ;;
  act FillAddress ;;
  wait 2000 ;;
  record "Filled address fields" pageUrl ;;
  modalCheck <- extract AskAddressModal ;;
  let modalCheckStr := toLowerCase js modalCheck in
  whenM (includes modalCheckStr "modal" || includes modalCheckStr "popup"
         || includes modalCheckStr "kaydet" || includes modalCheckStr "save")
    (act SaveAddressModal ;;
     wait 2000 ;;
     record "Saved address from modal" pageUrl) ;;
  act SelectShipping ;;
  wait 1500 ;;
  record "Selected shipping method" pageUrl ;;
  act ContinueToPayment ;;
  wait 2000 ;;
  refreshCurrentUrl ;;
  record "Filled checkout form with dummy data" currentUrl ;;
  analysisStr <- extract AskCheckoutUx ;;
  report (checkout_findings js analysisStr) ;;
  record "Analyzed checkout page for UX issues" currentUrl.

Definition reach_checkout : M unit :=
  act OpenCartOrCheckout ;;
  wait 2000 ;;
  refreshCurrentUrl ;;
  record "Clicked cart/checkout button" currentUrl ;;
  cartPageInfo <- extract AskCartPage ;;
  let cartInfoStr := toLowerCase js cartPageInfo in
  whenM (includes cartInfoStr "cart" || includes cartInfoStr "sepet")
    (act ProceedToCheckout ;;
     wait 2000 ;;
     refreshCurrentUrl ;;
     record "Proceeded to checkout from cart" currentUrl) ;;
  modify (St.set_checkoutReached true) ;;
  record "Filling checkout form" currentUrl ;;
  try_catch fill_checkout_form
    (fun formError => report [checkout_form_issues formError]).

Definition checkout : M unit :=
  s <- get ;;
  whenM (St.addToCartSuccess s && negb (truthy_string (St.dropOffStep s)))
    (record "Navigating to cart/checkout" currentUrl ;;
     try_catch reach_checkout
       (fun e =>
          modify (St.set_dropOffStep "checkout_navigation") ;;
          report [checkout_failed e])).

(** The stages after the store is open: each catches what it throws. *)
Definition stages : M unit :=
  homepage_analysis ;;
  product_discovery ;;
  add_to_cart ;;
  checkout.

(** *** Scoring, the positive findings, closing, the completed result *)

Definition positive_findings (s : St.t W) (checkoutFormFilled : bool) : list Finding :=
  (if St.addToCartSuccess s then
     successful_add_to_cart
     :: match St.timeToAddToCart s with
        | Some timeToAddToCart =>
            when (truthy_number (St.timeToAddToCart s) && (timeToAddToCart <? 30))
              (fast_add_to_cart js timeToAddToCart)
        | None => []
        end
   else [])
  ++ when (St.checkoutReached s) successful_checkout_reach
  ++ when checkoutFormFilled successful_form_fill.

(** The object returned after the stages, from the variables [s]. *)
Definition completed_result (score : Z) (checkoutFormFilled : bool) (s : St.t W)
    : AnalysisResult :=
  {| run_id := runId;
     store_url := storeUrl;
     status := completed;
     score := score;
     metrics := {| add_to_cart_success := St.addToCartSuccess s;
                   time_to_add_to_cart_seconds := St.timeToAddToCart s;
                   checkout_reached := St.checkoutReached s;
                   checkout_form_filled := checkoutFormFilled;
                   drop_off_step := St.dropOffStep s |};
     findings := St.findings s;
     timeline := St.timeline s;
     session_url := St.sessionUrl s;
     error := None |}.

Definition finish : M AnalysisResult :=
  s <- get ;;
  let checkoutFormFilled := checkoutFormFilled_of (St.timeline s) in
  let score :=
    compute_score (St.addToCartSuccess s) (St.checkoutReached s)
      checkoutFormFilled (St.findings s) in
  report (positive_findings s checkoutFormFilled) ;;
  close ;;
  s <- get ;;
  ret (completed_result score checkoutFormFilled s).

(** The variables after [finish], up to the world: the positive findings
    are appended and [close] has been called once more. *)
Definition scored (s : St.t W) : St.t W :=
  St.count_close
    (St.push_findings
       (positive_findings s (checkoutFormFilled_of (St.timeline s))) s).

(** The score [finish] computes from the variables [s]. *)
Definition score_at (s : St.t W) : Z :=
  compute_score (St.addToCartSuccess s) (St.checkoutReached s)
    (checkoutFormFilled_of (St.timeline s)) (St.findings s).

(** *** The outermost [catch] *)

(** The object returned by the outermost [catch], from what was thrown
    and the variables [s]. *)
Definition failed_result (e : Thrown) (s : St.t W) : AnalysisResult :=
  {| run_id := runId;
     store_url := storeUrl;
     status := failed;
     score := 0;
     metrics := {| add_to_cart_success := false;
                   time_to_add_to_cart_seconds := None;
                   checkout_reached := false;
                   checkout_form_filled := false;
                   drop_off_step := Some "initialization" |};
     findings := [analysis_failed e];
     timeline := St.timeline s;
     session_url := St.sessionUrl s;
     error := Some (error_message e) |}.

Definition on_failure (e : Thrown) : M AnalysisResult :=
  try_catch close (fun _ => ret tt) ;;
  s <- get ;;
  ret (failed_result e s).

(** The body of the outermost [try]. *)
Definition pipeline : M AnalysisResult :=
  navigate ;;
  stages ;;
  finish.

End Run.

(** How the promise of [runAnalysis] settles. *)
Inductive Outcome : Type :=
| Resolved (result : AnalysisResult)
| Rejected (reason : Thrown).

(** The start of [runAnalysis]: [startTime] is read, then the agent is
    constructed, outside the [try]. *)
Definition construct {W : Type} (sh : Stagehand W) (w : W)
    : (Thrown + unit) * St.t W :=
  let (startTime, w) := date_now sh w in
  new_Stagehand sh (St.initial w startTime).

(** [runAnalysis(storeUrl, runId)] from the world [w]: how its promise
    settles, and the state the run ends in. *)
Definition runAnalysis {W : Type} (js : Builtins) (sh : Stagehand W)
    (storeUrl runId : string) (w : W) : Outcome * St.t W :=
  match construct sh w with
  | (inl e, s) => (Rejected e, s)
  | (inr _, s) =>
      match try_catch (pipeline js sh storeUrl runId)
                      (on_failure sh storeUrl runId) s with
      | (inr result, s) => (Resolved result, s)
      | (inl e, s) => (Rejected e, s)
      end
  end.

(** The run up to the [try] block of product discovery. *)
Definition reach_discovery {W : Type} (js : Builtins) (sh : Stagehand W)
    (storeUrl : string) : M unit :=
  bind (navigate sh storeUrl) (fun _ =>
  bind (homepage_analysis js sh) (fun _ =>
  record sh "Looking for products" currentUrl)).

(* ===================================================================== *)
(** ** Scripted agents, for running the model on concrete inputs *)

(** A scripted agent answers each request by a fixed table; its world is
    the clock in milliseconds, which the settle pauses advance. *)
Record Script : Type := {
  on_new : Thrown + unit;
  on_init : Thrown + unit;
  session_id : option string;
  on_first_page : Thrown + bool;
  on_goto : Thrown + unit;
  url_shown : string;
  on_extract : ExtractPrompt -> Thrown + string;
  on_act : ActInstruction -> Thrown + unit;
  on_close : Thrown + unit
}.

Definition scripted (sc : Script) : Stagehand Z := {|
  sh_new := fun w => (on_new sc, w);
  sh_init := fun w => (on_init sc, w);
  sh_browserbaseSessionID := fun _ => session_id sc;
  sh_first_page := fun w => (on_first_page sc, w);
  page_goto := fun _ w => (on_goto sc, w);
  page_url := fun _ => url_shown sc;
  sh_extract := fun p w => (on_extract sc p, w);
  sh_act := fun i w => (on_act sc i, w);
  sh_close := fun w => (on_close sc, w);
  date_now := fun w => (w, w);
  settle := fun ms w => w + ms
|}.

(** A store on which every step works and no rule fires. *)
Definition smooth_answers (p : ExtractPrompt) : Thrown + string :=
  inr match p with
      | AskHomepageUx => "search bar is visible, navigation is clear"
      | AskInitialPage => "products with a price are shown"
      | AskIsProductPage => "yes"
      | AskProductPageUx => "price is clear, reviews shown, in stock, shipping info shown"
      | AskVariantError => "nothing"
      | AskVariantErrorAgain => "nothing"
      | AskCartState => "1 item in the cart"
      | AskCartExperience => "feedback popup shown, free shipping message, upsell shown"
      | AskWhyNotAdded => "nothing"
      | AskCartPage => "checkout page"
      | AskLoginOrGuest => "none"
      | AskAddressModal => "none"
      | AskCheckoutUx =>
          "discount field, upsell, trust badges, free shipping, progress bar, 5 fields"
      end.

Definition store (new init close : Thrown + unit)
    (answers : ExtractPrompt -> Thrown + string) : Script := {|
  on_new := new;
  on_init := init;
  session_id := Some "abc";
  on_first_page := inr true;
  on_goto := inr tt;
  url_shown := "https://shop.example/p/1";
  on_extract := answers;
  on_act := fun _ => inr tt;
  on_close := close
|}.

Definition smooth_store : Script := store (inr tt) (inr tt) (inr tt) smooth_answers.

(** The agent cannot be constructed. *)
Definition no_agent : Script :=
  store (inl (ErrorObject "missing API key")) (inr tt) (inr tt) smooth_answers.

(** The session cannot be opened. *)
Definition no_session : Script :=
  store (inr tt) (inl (ErrorObject "session refused")) (inr tt) smooth_answers.

(** The first observation of product discovery fails. *)
Definition no_products_store : Script :=
  store (inr tt) (inr tt) (inr tt)
    (fun p => match p with
              | AskInitialPage => inl (ErrorObject "page did not respond")
              | _ => smooth_answers p
              end).

(** The checkout is reached, then the first observation of the form
    filling fails. *)
Definition form_blocked_store : Script :=
  store (inr tt) (inr tt) (inr tt)
    (fun p => match p with
              | AskLoginOrGuest => inl (ErrorObject "page did not respond")
              | _ => smooth_answers p
              end).

(** Every stage works, and [close] throws. *)
Definition close_fails_store : Script :=
  store (inr tt) (inr tt) (inl (ErrorObject "session already gone")) smooth_answers.

(** The run of a scripted agent, from time 0. *)
Abbreviation run sc :=
  (runAnalysis ascii_builtins (scripted sc) "https://shop.example" "run-1" 0).

(* ===================================================================== *)
(** ** What holds of the variables between the stages *)

Section Stages.

Context {W : Type}.
Implicit Types s : St.t W.

(** No timeline entry says that the checkout form was filled. *)
Definition no_form_yet s : Prop := checkoutFormFilled_of (St.timeline s) = false.

(** The seconds to add-to-cart are set together with the success flag,
    from the clock reading kept in [addToCartTime]. *)
Definition timing_ok s : Prop :=
  if St.addToCartSuccess s
  then exists t, St.addToCartTime s = Some t
                 /\ St.timeToAddToCart s = Some (round_seconds (t - St.startTime s))
  else St.timeToAddToCart s = None.

(** A drop-off step, once set, is a non-empty text. *)
Definition dropped s : Prop := truthy_string (St.dropOffStep s) = true.

(** Before product discovery. *)
Definition Fresh s : Prop :=
  St.addToCartSuccess s = false /\ St.checkoutReached s = false
  /\ St.dropOffStep s = None /\ St.timeToAddToCart s = None /\ no_form_yet s.

(** After product discovery. *)
Definition Discovered s : Prop :=
  St.addToCartSuccess s = false /\ St.checkoutReached s = false
  /\ St.timeToAddToCart s = None /\ no_form_yet s
  /\ (St.dropOffStep s = None \/ dropped s).

(** After the add-to-cart stage. *)
Definition Added s : Prop :=
  St.checkoutReached s = false /\ no_form_yet s /\ timing_ok s
  /\ (if St.addToCartSuccess s then St.dropOffStep s = None else dropped s).

(** After the checkout stage. *)
Definition Done s : Prop :=
  timing_ok s
  /\ ((St.checkoutReached s = true /\ St.dropOffStep s = None
       /\ St.addToCartSuccess s = true)
      \/ (St.checkoutReached s = false /\ dropped s /\ no_form_yet s)).

(** No critical finding and no [no-products] finding so far. *)
Definition is_critical (f : Finding) : bool := Category_eqb (category f) critical.

Definition is_no_products (f : Finding) : bool := String.eqb (id f) "no-products".

Definition quiet s : Prop :=
  filter is_critical (St.findings s) = []
  /\ filter is_no_products (St.findings s) = [].

(** The variables that only the outermost level touches. *)
Definition same_session s s' : Prop :=
  St.closes s' = St.closes s /\ St.startTime s' = St.startTime s
  /\ St.sessionUrl s' = St.sessionUrl s.

End Stages.

(* ===================================================================== *)
(** ** The order of findings and of timeline entries *)

(** [l] is [r] with some elements left out, the order kept. *)
Inductive Subseq {A : Type} : list A -> list A -> Prop :=
| Subseq_nil : Subseq [] []
| Subseq_skip (x : A) (l r : list A) : Subseq l r -> Subseq l (x :: r)
| Subseq_take (x : A) (l r : list A) : Subseq l r -> Subseq (x :: l) (x :: r).

(** The same on texts, as a test: the leftmost embedding is looked for. *)
Fixpoint subseqb (l r : list string) : bool :=
  match r with
  | [] => match l with [] => true | _ :: _ => false end
  | y :: r' =>
      match l with
      | [] => true
      | x :: l' => if String.eqb x y then subseqb l' r' else subseqb l r'
      end
  end.

(** No text occurs twice. *)
Fixpoint distinctb (l : list string) : bool :=
  match l with
  | [] => true
  | x :: l' => negb (existsb (String.eqb x) l') && distinctb l'
  end.

(** The ids of the findings, per rule set, in the order the source pushes
    them. *)
Definition homepage_ids : list string :=
  map id [homepage_no_search; homepage_navigation_unclear;
          homepage_products_hidden; homepage_intrusive_popups].

Definition product_page_ids : list string :=
  map id [product_price_unclear; product_images_poor; product_atc_not_prominent;
          product_no_reviews; product_no_stock_info; product_no_shipping_info].

Definition cart_experience_ids : list string :=
  map id [cart_no_feedback; cart_no_shipping_threshold; cart_no_upsell;
          cart_checkout_unclear].

(** The findings of a cart that stayed empty, and of an add-to-cart that
    threw: one of them at most is reported. *)
Definition add_to_cart_problem_ids : list string :=
  ["add-to-cart-size-required"; "add-to-cart-out-of-stock";
   "add-to-cart-login-required"; "add-to-cart-failed"].

Definition checkout_ids : list string :=
  map id [no_discount_field; no_upsell; no_trust_badges;
          no_free_shipping_threshold; checkout_no_guest]
  ++ ["checkout-too-many-fields"]
  ++ map id [checkout_no_progress; checkout_unclear_shipping; checkout_has_errors].

Definition positive_ids : list string :=
  ["successful-add-to-cart"; "fast-add-to-cart"; "successful-checkout-reach";
   "successful-form-fill"].

(** Per stage. *)
Definition discovery_ids : list string := product_page_ids ++ ["no-products"].

Definition add_to_cart_ids : list string :=
  cart_experience_ids ++ add_to_cart_problem_ids.

Definition checkout_stage_ids : list string :=
  checkout_ids ++ ["checkout-form-issues"; "checkout-failed"].

Definition stage_finding_ids : list string :=
  homepage_ids ++ discovery_ids ++ add_to_cart_ids ++ checkout_stage_ids.

Definition finding_ids_in_order : list string :=
  stage_finding_ids ++ positive_ids ++ ["analysis-failed"].

(** The actions of the timeline, per stage, in the order the source
    pushes them. *)
Definition navigate_actions : list string := ["Navigate to store"].

Definition homepage_actions : list string := ["Analyzed homepage UX"].

Definition discovery_actions : list string :=
  ["Looking for products"; "Navigated to product page"; "Analyzed product page UX"].

Definition add_to_cart_actions : list string :=
  ["Looking for Add to Cart button"; "Detected size/variant selection required";
   "Added product to cart"; "Analyzed cart experience"].

Definition checkout_actions : list string :=
  ["Navigating to cart/checkout"; "Clicked cart/checkout button";
   "Proceeded to checkout from cart"; "Filling checkout form";
   "Handling login/guest checkout"; "Filled contact information";
   "Filled name fields"; "Filled address fields"; "Saved address from modal";
   "Selected shipping method"; "Filled checkout form with dummy data";
   "Analyzed checkout page for UX issues"].

Definition stage_actions : list string :=
  homepage_actions ++ discovery_actions ++ add_to_cart_actions ++ checkout_actions.

Definition timeline_actions_in_order : list string :=
  navigate_actions ++ stage_actions.

Section Order.

Context {W : Type}.
Implicit Types s : St.t W.

(** From [s] to [s'] the findings and the timeline were only appended to:
    findings whose ids follow [ids], and entries marked successful whose
    actions follow [actions]. *)
Definition grows (ids actions : list string) s s' : Prop :=
  exists fs tl,
    St.findings s' = (St.findings s ++ fs)%list
    /\ St.timeline s' = (St.timeline s ++ tl)%list
    /\ Subseq (map id fs) ids
    /\ Subseq (map action tl) actions
    /\ Forall (fun ev => success ev = true) tl.

End Order.

(** The finding that goes with a drop-off step. *)
Definition blames (step : string) (f : Finding) : Prop :=
  (step = "initialization" /\ id f = "analysis-failed" /\ category f = critical)
  \/ (step = "product_discovery" /\ id f = "no-products" /\ category f = critical)
  \/ (step = "add_to_cart" /\ In (id f) add_to_cart_problem_ids
      /\ (category f = critical \/ category f = warning))
  \/ (step = "checkout_navigation" /\ id f = "checkout-failed"
      /\ category f = critical).

Section DropOff.

Context {W : Type}.
Implicit Types s : St.t W.

(** A drop-off step comes with the finding it is blamed on, and the
    product is in the cart exactly when the drop-off is at the checkout. *)
Definition explained s : Prop :=
  match St.dropOffStep s with
  | None => True
  | Some step =>
      exists f, In f (St.findings s) /\ blames step f
                /\ St.addToCartSuccess s = String.eqb step "checkout_navigation"
  end.

End DropOff.

(* ===================================================================== *)
(** ** Counting the calls on the agent *)

(** What a run has asked of the agent so far: the calls of [act], the
    calls of [extract], and the milliseconds of the fixed pauses. *)
Record Calls : Type := mkCalls {
  acts : N;
  extracts : N;
  pauses : N
}.

Definition no_calls : Calls := mkCalls 0 0 0.

Definition one_act (c : Calls) : Calls := mkCalls (acts c + 1) (extracts c) (pauses c).

Definition one_extract (c : Calls) : Calls :=
  mkCalls (acts c) (extracts c + 1) (pauses c).

Definition one_pause (ms : Z) (c : Calls) : Calls :=
  mkCalls (acts c) (extracts c) (pauses c + Z.to_N ms).

(** A call on the agent, counted by [bump]. *)
Definition counted {W A : Type} (bump : Calls -> Calls) (f : W -> (Thrown + A) * W)
    (wc : W * Calls) : (Thrown + A) * (W * Calls) :=
  let (r, w) := f (fst wc) in (r, (w, bump (snd wc))).

(** The agent [sh], with a count kept beside its world: it answers as
    [sh] does. *)
Definition counting {W : Type} (sh : Stagehand W) : Stagehand (W * Calls) := {|
  sh_new := counted (fun c => c) (sh_new sh);
  sh_init := counted (fun c => c) (sh_init sh);
  sh_browserbaseSessionID := fun wc => sh_browserbaseSessionID sh (fst wc);
  sh_first_page := counted (fun c => c) (sh_first_page sh);
  page_goto := fun u => counted (fun c => c) (page_goto sh u);
  page_url := fun wc => page_url sh (fst wc);
  sh_extract := fun p => counted one_extract (sh_extract sh p);
  sh_act := fun i => counted one_act (sh_act sh i);
  sh_close := counted (fun c => c) (sh_close sh);
  date_now := fun wc => let (t, w) := date_now sh (fst wc) in (t, (w, snd wc));
  settle := fun ms wc => (settle sh ms (fst wc), one_pause ms (snd wc))
|}.

(** The variables of a run on a counting agent, the count dropped. *)
Definition erase {W : Type} (s : St.t (W * Calls)) : St.t W :=
  St.mk (fst (St.world s)) (St.closes s) (St.timeline s) (St.findings s)
    (St.addToCartSuccess s) (St.checkoutReached s) (St.dropOffStep s)
    (St.timeToAddToCart s) (St.sessionUrl s) (St.startTime s)
    (St.addToCartTime s) (St.currentUrl s).

(** The computation [m'], on a counting agent, does what [m] does on the
    agent itself. *)
Definition mirrors {W A : Type} (m' : St.t (W * Calls) -> (Thrown + A) * St.t (W * Calls))
    (m : St.t W -> (Thrown + A) * St.t W) : Prop :=
  forall s, m (erase s) = (fst (m' s), erase (snd (m' s))).

(** Budgets add up along a sequence and are the larger one of two
    branches. *)
Definition plus (k1 k2 : Calls) : Calls :=
  mkCalls (acts k1 + acts k2) (extracts k1 + extracts k2) (pauses k1 + pauses k2).

Definition larger (k1 k2 : Calls) : Calls :=
  mkCalls (N.max (acts k1) (acts k2)) (N.max (extracts k1) (extracts k2))
    (N.max (pauses k1) (pauses k2)).

(** From count [c] to count [c'] at most [k] was added. *)
Definition within (k c c' : Calls) : Prop :=
  (acts c' <= acts c + acts k)%N
  /\ (extracts c' <= extracts c + extracts k)%N
  /\ (pauses c' <= pauses c + pauses k)%N.

(** The computation [m], on a counting agent, adds at most [k] to the
    count, however it ends. *)
Definition costs {W A : Type} (m : M A) (k : Calls) : Prop :=
  forall s : St.t (W * Calls),
    within k (snd (St.world s)) (snd (St.world (snd (m s)))).

(** A store on which every optional step of the run is taken: the first
    page shows no product, the menu click leaves the page where it was,
    the first click does not open a product, a size is asked for twice,
    the cart page comes before the checkout, which offers a guest
    checkout and saves the address in a modal. *)
Definition busy_store : Script := {|
  on_new := inr tt;
  on_init := inr tt;
  session_id := Some "abc";
  on_first_page := inr true;
  on_goto := inr tt;
  url_shown := "https://shop.example";
  on_extract := fun p =>
    match p with
    | AskInitialPage => inr "this is the homepage"
    | AskIsProductPage => inr "no"
    | AskVariantError => inr "please select a size"
    | AskVariantErrorAgain => inr "size is still missing"
    | AskCartPage => inr "this is the cart page"
    | AskLoginOrGuest => inr "guest checkout offered"
    | AskAddressModal => inr "a modal asks to save the address"
    | _ => smooth_answers p
    end;
  on_act := fun _ => inr tt;
  on_close := inr tt
|}.

(** The first observation of product discovery fails, and so does
    [close]. *)
Definition no_products_close_fails_store : Script :=
  store (inr tt) (inr tt) (inl (ErrorObject "session already gone"))
    (fun p => match p with
              | AskInitialPage => inl (ErrorObject "page did not respond")
              | _ => smooth_answers p
              end).

(** The form is filled, then the observation of the checkout page
    fails. *)
Definition checkout_ux_blocked_store : Script :=
  store (inr tt) (inr tt) (inr tt)
    (fun p => match p with
              | AskCheckoutUx => inl (ErrorObject "page did not respond")
              | _ => smooth_answers p
              end).

(** The store on which every step works, read on a clock that is set
    back: each pause of the run ends earlier than it began. *)
Definition clock_steps_back : Stagehand Z := {|
  sh_new := sh_new (scripted smooth_store);
  sh_init := sh_init (scripted smooth_store);
  sh_browserbaseSessionID := sh_browserbaseSessionID (scripted smooth_store);
  sh_first_page := sh_first_page (scripted smooth_store);
  page_goto := page_goto (scripted smooth_store);
  page_url := page_url (scripted smooth_store);
  sh_extract := sh_extract (scripted smooth_store);
  sh_act := sh_act (scripted smooth_store);
  sh_close := sh_close (scripted smooth_store);
  date_now := date_now (scripted smooth_store);
  settle := fun ms w => w - ms
|}.

(* ===================================================================== *)
(** ** The first version of [runAnalysis] *)

(** [src/lib/agent.ts]: the run opens the store, clicks a product, adds
    it to the cart and goes to the checkout; its result has no
    [checkout_form_filled]. *)
Module V1.

(** The instructions of the run, one constructor per call of
    [stagehand.act], in the order of the source. *)
Inductive Instruction : Type :=
| NavigateTo (storeUrl : string)   (* `Navigate to ${storeUrl}` *)
| ClickProduct                     (* 'Find and click on any product that can be purchased. ...' *)
| ClickAddToCart                   (* 'Click the "Add to Cart" button, ...' *)
| GoToCheckout.                    (* 'Go to the shopping cart or checkout. ...' *)

(** The page agent over a world [W]; [ag_extract] is the one observation
    of the run ('What page are we on? ...'), as its [JSON.stringify]
    text. *)
Record Agent (W : Type) : Type := {
  ag_new : W -> (Thrown + unit) * W;          (* import(...) and new Stagehand({...}) *)
  ag_init : W -> (Thrown + unit) * W;         (* stagehand.init() *)
  ag_browserbaseSessionID : W -> option string;
  ag_act : Instruction -> W -> (Thrown + unit) * W;
  ag_extract : W -> (Thrown + string) * W;
  ag_close : W -> (Thrown + unit) * W;        (* stagehand.close() *)
  ag_date_now : W -> Z * W                    (* Date.now(), new Date() *)
}.

Arguments ag_new {W}.
Arguments ag_init {W}.
Arguments ag_browserbaseSessionID {W}.
Arguments ag_act {W}.
Arguments ag_extract {W}.
Arguments ag_close {W}.
Arguments ag_date_now {W}.

Record Metrics : Type := mkMetrics {
  add_to_cart_success : bool;
  time_to_add_to_cart_seconds : option Z;
  checkout_reached : bool;
  drop_off_step : option string
}.

Record AnalysisResult : Type := mkResult {
  run_id : string;
  store_url : string;
  status : Status;
  score : Z;
  metrics : Metrics;
  findings : list Finding;
  timeline : list TimelineEvent;
  session_url : option string;
  error : option string
}.

(** The findings that this version words differently. *)
Definition checkout_nav_unclear (pageInfoStr : string) : Finding := {|
  id := "checkout-nav-unclear";
  category := warning;
  title := "Checkout Navigation Unclear";
  description := "Difficult to navigate from product to checkout";
  evidence := "Page info: " ++ pageInfoStr;
  recommendation :=
    "Add clear " ++ quoted "Proceed to Checkout" ++ " or cart buttons after adding items"
|}.

Definition fast_add_to_cart (js : Builtins) (timeToAddToCart : Z) : Finding := {|
  id := "fast-add-to-cart";
  category := suggestion;
  title := "Good Add-to-Cart Speed";
  description :=
    "Product was added to cart in " ++ numberToString js timeToAddToCart ++ " seconds";
  evidence := "Time: " ++ numberToString js timeToAddToCart ++ "s";
  recommendation := "Keep maintaining this smooth experience"
|}.

(** The score: lines "Calculate score". *)
Definition compute_score (addToCartSuccess checkoutReached : bool)
    (fs : list Finding) : Z :=
  let score := 50 in
  let score := if addToCartSuccess then score + 25 else score in
  let score := if checkoutReached then score + 25 else score in
  let score := score - count_category critical fs * 15 in
  let score := score - count_category warning fs * 5 in
  Z.max 0 (Z.min 100 score).

Definition isCheckout (pageInfoStr : string) : bool :=
  includes pageInfoStr "checkout" || includes pageInfoStr "cart"
  || includes pageInfoStr "shipping" || includes pageInfoStr "payment".

Section Run.

Context {W : Type}.
Variable js : Builtins.
Variable ag : Agent W.
Variables storeUrl runId : string.

Notation "x <- m ;; k" := (bind (W := W) m (fun x => k))
  (at level 61, m at next level, right associativity).
Notation "m ;; k" := (bind (W := W) m (fun _ => k))
  (at level 61, right associativity).

Definition new_Stagehand : M unit := call (ag_new ag).
Definition init : M unit := call (ag_init ag).
Definition act (i : Instruction) : M unit := call (ag_act ag i).
Definition extract : M string := call (ag_extract ag).

Definition close : M unit :=
  fun s => let (r, w) := ag_close ag (St.world s) in
           (r, St.with_world w (St.count_close s)).

Definition now : M Z :=
  fun s => let (t, w) := ag_date_now ag (St.world s) in (inr t, St.with_world w s).

(** [timeline.push({ timestamp: new Date().toISOString(), action,
    url: storeUrl, success: true })] *)
Definition record (action : string) : M unit :=
  t <- now ;;
  modify (St.push_timeline (mkEvent t action storeUrl true)).

(** *** Step 1: open the session and the store *)

Definition navigate : M unit :=
  init ;;
  s <- get ;;
  match ag_browserbaseSessionID ag (St.world s) with
  | Some sessionId =>
      whenM (negb (String.eqb sessionId ""))
        (modify (St.set_sessionUrl ("https://browserbase.com/sessions/" ++ sessionId)))
  | None => ret tt
  end ;;
  record "Navigate to store" ;;
  act (NavigateTo storeUrl).

(** *** Step 2: a product *)

Definition product_discovery : M unit :=
  record "Looking for products" ;;
  try_catch
    (act ClickProduct ;;
     record "Clicked on a product")
    (fun e =>
       report [no_products e] ;;
       modify (St.set_dropOffStep "product_discovery")).

(** *** Step 3: add to cart *)

Definition add_to_cart : M unit :=
  s <- get ;;
  whenM (negb (truthy_string (St.dropOffStep s)))
    (record "Looking for Add to Cart button" ;;
     try_catch
       (act ClickAddToCart ;;
        addToCartTime <- now ;;
        s <- get ;;
        modify (St.set_addToCart addToCartTime
                  (round_seconds (addToCartTime - St.startTime s))) ;;
        record "Added product to cart")
       (fun e =>
          report [add_to_cart_failed e] ;;
          modify (St.set_dropOffStep "add_to_cart"))).

(** *** Step 4: the checkout *)

Definition checkout : M unit :=
  s <- get ;;
  whenM (St.addToCartSuccess s && negb (truthy_string (St.dropOffStep s)))
    (record "Navigating to checkout" ;;
     try_catch
       (act GoToCheckout ;;
        pageInfo <- extract ;;
        let pageInfoStr := toLowerCase js pageInfo in
        if isCheckout pageInfoStr then
          modify (St.set_checkoutReached true) ;;
          record "Reached checkout/cart page"
        else
          modify (St.set_dropOffStep "checkout_navigation") ;;
          report [checkout_nav_unclear pageInfoStr])
       (fun e =>
          modify (St.set_dropOffStep "checkout_navigation") ;;
          report [checkout_failed e])).

(** *** Scoring, closing, the completed result *)

Definition completed_result (score : Z) (s : St.t W) : AnalysisResult :=
  {| run_id := runId;
     store_url := storeUrl;
     status := completed;
     score := score;
     metrics := {| add_to_cart_success := St.addToCartSuccess s;
                   time_to_add_to_cart_seconds := St.timeToAddToCart s;
                   checkout_reached := St.checkoutReached s;
                   drop_off_step := St.dropOffStep s |};
     findings := St.findings s;
     timeline := St.timeline s;
     session_url := St.sessionUrl s;
     error := None |}.

Definition finish : M AnalysisResult :=
  s <- get ;;
  let score :=
    compute_score (St.addToCartSuccess s) (St.checkoutReached s) (St.findings s) in
  match St.timeToAddToCart s with
  | Some timeToAddToCart =>
      whenM (St.addToCartSuccess s && truthy_number (St.timeToAddToCart s)
             && (timeToAddToCart <? 30))
        (report [fast_add_to_cart js timeToAddToCart])
  | None => ret tt
  end ;;
  close ;;
  s <- get ;;
  ret (completed_result score s).

(** *** The outermost [catch] *)

Definition failed_result (e : Thrown) (s : St.t W) : AnalysisResult :=
  {| run_id := runId;
     store_url := storeUrl;
     status := failed;
     score := 0;
     metrics := {| add_to_cart_success := false;
                   time_to_add_to_cart_seconds := None;
                   checkout_reached := false;
                   drop_off_step := Some "initialization" |};
     findings := [analysis_failed e];
     timeline := St.timeline s;
     session_url := St.sessionUrl s;
     error := Some (error_message e) |}.

Definition on_failure (e : Thrown) : M AnalysisResult :=
  try_catch close (fun _ => ret tt) ;;
  s <- get ;;
  ret (failed_result e s).

(** The body of the outermost [try]. *)
Definition pipeline : M AnalysisResult :=
  navigate ;;
  product_discovery ;;
  add_to_cart ;;
  checkout ;;
  finish.

End Run.

(** How the promise of this [runAnalysis] settles. *)
Inductive Outcome : Type :=
| Resolved (result : AnalysisResult)
| Rejected (reason : Thrown).

(** [runAnalysis(storeUrl, runId)] from the world [w]: [startTime] is
    read and the agent constructed outside the [try]. *)
Definition runAnalysis {W : Type} (js : Builtins) (ag : Agent W)
    (storeUrl runId : string) (w : W) : Outcome * St.t W :=
  let (startTime, w) := ag_date_now ag w in
  match new_Stagehand ag (St.initial w startTime) with
  | (inl e, s) => (Rejected e, s)
  | (inr _, s) =>
      match try_catch (pipeline js ag storeUrl runId)
                      (on_failure ag storeUrl runId) s with
      | (inr result, s) => (Resolved result, s)
      | (inl e, s) => (Rejected e, s)
      end
  end.

(** The completed results there are: the drop-off step, add-to-cart
    success, checkout reached, the score, and the ids of the problems
    found. *)
Definition rows : list (option string * bool * bool * Z * list string) :=
  [ (Some "product_discovery", false, false, 35, ["no-products"]);
    (Some "add_to_cart", false, false, 35, ["add-to-cart-failed"]);
    (Some "checkout_navigation", true, false, 70, ["checkout-nav-unclear"]);
    (Some "checkout_navigation", true, false, 60, ["checkout-failed"]);
    (None, true, true, 100, []) ].

(** [r] is one of them: its findings are the problems of its row, then
    [fast-add-to-cart] when the seconds to add-to-cart are below 30 and
    not 0. *)
Definition classified (js : Builtins) (r : AnalysisResult) : Prop :=
  exists problems,
    In (drop_off_step (metrics r), add_to_cart_success (metrics r),
        checkout_reached (metrics r), score r, map id problems) rows
    /\ findings r
       = (problems
          ++ match time_to_add_to_cart_seconds (metrics r) with
             | Some seconds =>
                 when (add_to_cart_success (metrics r)
                       && truthy_number (Some seconds) && (seconds <? 30))
                   (fast_add_to_cart js seconds)
             | None => []
             end)%list.

(** The row of the variables [s], at scoring. *)
Definition row_of {W : Type} (s : St.t W)
    : option string * bool * bool * Z * list string :=
  (St.dropOffStep s, St.addToCartSuccess s, St.checkoutReached s,
   compute_score (St.addToCartSuccess s) (St.checkoutReached s) (St.findings s),
   map id (St.findings s)).

(** The actions of the timeline, in the order the source pushes them. *)
Definition timeline_actions_in_order : list string :=
  ["Navigate to store"; "Looking for products"; "Clicked on a product";
   "Looking for Add to Cart button"; "Added product to cart";
   "Navigating to checkout"; "Reached checkout/cart page"].

(** A timeline in that order, every entry at the URL of the store and
    marked successful. *)
Definition timeline_ok (storeUrl : string) (tl : list TimelineEvent) : Prop :=
  Subseq (map action tl) timeline_actions_in_order
  /\ Forall (fun ev => url ev = storeUrl /\ success ev = true) tl.

(** An agent that answers from a script; its world is the clock. *)
Record Script : Type := {
  on_new : Thrown + unit;
  on_init : Thrown + unit;
  session_id : option string;
  on_act : Instruction -> Thrown + unit;
  on_extract : Thrown + string;
  on_close : Thrown + unit;
  act_takes : Z                               (* the milliseconds of a call of [act] *)
}.

Definition scripted (sc : Script) : Agent Z := {|
  ag_new := fun w => (on_new sc, w);
  ag_init := fun w => (on_init sc, w);
  ag_browserbaseSessionID := fun _ => session_id sc;
  ag_act := fun i w => (on_act sc i, w + act_takes sc);
  ag_extract := fun w => (on_extract sc, w);
  ag_close := fun w => (on_close sc, w);
  ag_date_now := fun w => (w, w)
|}.

(** Every step works and the checkout is reached. *)
Definition smooth_store : Script := {|
  on_new := inr tt;
  on_init := inr tt;
  session_id := Some "abc";
  on_act := fun _ => inr tt;
  on_extract := inr "This is the checkout page";
  on_close := inr tt;
  act_takes := 4000
|}.

(** The product is added to the cart, and the page reached after it is
    not recognised. *)
Definition lost_store : Script := {|
  on_new := inr tt;
  on_init := inr tt;
  session_id := None;
  on_act := fun _ => inr tt;
  on_extract := inr "This is a product page";
  on_close := inr tt;
  act_takes := 20000
|}.

(** Every step works, and [close] throws. *)
Definition close_fails_store : Script := {|
  on_new := inr tt;
  on_init := inr tt;
  session_id := Some "abc";
  on_act := fun _ => inr tt;
  on_extract := inr "This is the checkout page";
  on_close := inl (ErrorObject "session already gone");
  act_takes := 4000
|}.

End V1.

(** The run of a scripted agent of the first version, from time 0. *)
Abbreviation run1 sc :=
  (V1.runAnalysis ascii_builtins (V1.scripted sc) "https://shop.example" "run-1" 0).

(* ===================================================================== *)
(** ** The registry of runs and its two routes *)

(** An entry of [resultsStore]. *)
Record Stored : Type := mkStored {
  stored_status : string;
  stored_result : option AnalysisResult
}.

(** [resultsStore], a [Map] from run ids to entries, used through [get]
    and [set] only: the entries, one per key. *)
Definition ResultsStore : Type := list (string * Stored).

Definition store_get (store : ResultsStore) (runId : string) : option Stored :=
  match find (fun entry => String.eqb (fst entry) runId) store with
  | Some entry => Some (snd entry)
  | None => None
  end.

Definition store_set (runId : string) (v : Stored) (store : ResultsStore)
    : ResultsStore :=
  (runId, v) :: filter (fun entry => negb (String.eqb (fst entry) runId)) store.

(** The status of a result, as the text of its JSON rendering. *)
Definition status_text (st : Status) : string :=
  match st with
  | completed => "completed"
  | failed => "failed"
  end.

(** The JSON bodies the routes answer with.  [PolledBody] is the object
    [{ run_id, status, ...stored.result }]: its [run_id] and [status] as
    they stand after the spread, and the result spread into it. *)
Inductive Body : Type :=
| ErrorBody (error : string)
| StartedBody (run_id store_url status : string)
| RunningBody (run_id status : string)
| PolledBody (run_id status : string) (spread : option AnalysisResult).

Record Response : Type := mkResponse {
  http_status : Z;
  body : Body
}.

(** The body of a start request: one that [request.json()] rejects or
    that cannot be destructured ([null]), or one whose [store_url], when
    there is one, is a text. *)
Inductive StartRequest : Type :=
| Unreadable
| Json (store_url : option string).

(** A run started in the background: [runAnalysis(store_url, runId)]. *)
Record Job : Type := mkJob {
  job_store_url : string;
  job_run_id : string
}.

Section Routes.

(** [new URL(text)] does not throw. *)
Variable url_parses : string -> bool.

(** The start route, given the id [randomUUID()] yields: the response,
    the registry, and the run started in the background if any. *)
Definition POST (uuid : string) (request : StartRequest) (store : ResultsStore)
    : Response * ResultsStore * option Job :=
  match request with
  | Unreadable =>
      (mkResponse 500 (ErrorBody "Failed to start analysis"), store, None)
  | Json store_url =>
      match store_url with
      | Some url =>
          if negb (truthy_string store_url) then
            (mkResponse 400 (ErrorBody "Store URL is required"), store, None)
          else if negb (url_parses url) then
            (mkResponse 400 (ErrorBody "Invalid URL format"), store, None)
          else
            let runId := uuid in
            let store := store_set runId (mkStored "running" None) store in
            (mkResponse 200 (StartedBody runId url "running"), store,
             Some (mkJob url runId))
      | None =>
          (mkResponse 400 (ErrorBody "Store URL is required"), store, None)
      end
  end.

(** What the [catch] callback of the start route reads off the rejection:
    [String(error)], and [error.message] when [error] is not an [Error]
    ([None] when reading it throws, as on [null]; [Some None] when it is
    undefined). *)
Record ErrorView : Type := {
  error_String : Thrown -> string;
  other_message : option (option string)
}.

Variable view : ErrorView.

Definition read_message (error : Thrown) : option (option string) :=
  match error with
  | ErrorObject m => Some (Some m)
  | OtherValue => other_message view
  end.

(** The result the [catch] callback stores, from [error.message]. *)
Definition rejected_result (job : Job) (error : Thrown) (message : option string)
    : AnalysisResult :=
  {| run_id := job_run_id job;
     store_url := job_store_url job;
     status := failed;
     score := 0;
     metrics := {| add_to_cart_success := false;
                   time_to_add_to_cart_seconds := None;
                   checkout_reached := false;
                   checkout_form_filled := false;
                   drop_off_step := Some "initialization" |};
     findings :=
       [{| id := "error";
           category := critical;
           title := "Analysis Error";
           description := if truthy_string message
                          then match message with Some m => m | None => "" end
                          else "Unknown error occurred";
           evidence := error_String view error;
           recommendation := "Try again or contact support" |}];
     timeline := [];
     session_url := None;
     error := message |}.

(** The callbacks on the promise of a job: [.then] stores the result
    under status [completed]; [.catch] stores a failed result, unless
    reading the message throws, which leaves the registry as it was. *)
Definition on_settled (job : Job) (outcome : Outcome) (store : ResultsStore)
    : ResultsStore :=
  match outcome with
  | Resolved result =>
      store_set (job_run_id job) (mkStored "completed" (Some result)) store
  | Rejected error =>
      match read_message error with
      | Some message =>
          store_set (job_run_id job)
            (mkStored "failed" (Some (rejected_result job error message))) store
      | None => store
      end
  end.

End Routes.

(** A rendering of what was thrown, for the examples: [String(error)] of an
    [Error] is its name and message, and the other values thrown have no
    [message]. *)
Definition plain_view : ErrorView := {|
  error_String := fun error =>
    match error with
    | ErrorObject m => "Error: " ++ m
    | OtherValue => "[object Object]"
    end;
  other_message := Some None
|}.

(** The cart is still empty after the click on add to cart. *)
Definition cart_stays_empty_store : Script :=
  store (inr tt) (inr tt) (inr tt)
    (fun p => match p with
              | AskCartState => inr "the cart is empty"
              | AskWhyNotAdded => inr "the product is out of stock"
              | _ => smooth_answers p
              end).


(** [{ run_id: runId, status: stored.status, ...stored.result }]: the keys
    of the result, spread last, win. *)
Definition polled (runId : string) (stored : Stored) : Body :=
  match stored_result stored with
  | Some result =>
      PolledBody (run_id result) (status_text (status result)) (Some result)
  | None => PolledBody runId (stored_status stored) None
  end.

(** The poll route. *)
Definition GET (runId : string) (store : ResultsStore) : Response :=
  match store_get store runId with
  | None => mkResponse 404 (ErrorBody "Run not found")
  | Some stored =>
      if String.eqb (stored_status stored) "running"
      then mkResponse 200 (RunningBody runId "running")
      else mkResponse 200 (polled runId stored)
  end.

(* ===================================================================== *)
(** ** The pages *)

(** *** The home page: [handleSubmit] *)

Inductive Submission : Type :=
| ShowError (message : string)       (* setError(...), nothing sent *)
| Send (request : StartRequest).     (* fetch('/api/run/start', ...) *)

Definition with_scheme (storeUrl : string) : string :=
  if negb (startsWith storeUrl "http://") && negb (startsWith storeUrl "https://")
  then "https://" ++ storeUrl
  else storeUrl.

(** Up to the request: the input is checked, given a scheme, parsed. *)
Definition handleSubmit (url_parses : string -> bool) (storeUrl : string)
    : Submission :=
  if String.eqb storeUrl "" then ShowError "Please enter a store URL"
  else
    let url := with_scheme storeUrl in
    if url_parses url then Send (Json (Some url))
    else ShowError "Please enter a valid URL".

(** What the pages read in a body. *)
Definition body_run_id (data : Body) : option string :=
  match data with
  | ErrorBody _ => None
  | StartedBody run_id _ _ => Some run_id
  | RunningBody run_id _ => Some run_id
  | PolledBody run_id _ _ => Some run_id
  end.

Definition body_status (data : Body) : option string :=
  match data with
  | ErrorBody _ => None
  | StartedBody _ _ status => Some status
  | RunningBody _ status => Some status
  | PolledBody _ status _ => Some status
  end.

Definition body_error (data : Body) : option string :=
  match data with
  | ErrorBody error => Some error
  | PolledBody _ _ (Some result) => error result
  | _ => None
  end.

Definition body_score (data : Body) : option Z :=
  match data with
  | PolledBody _ _ (Some result) => Some (score result)
  | _ => None
  end.

(** After the request: an error is shown, or the page of the run is
    opened.  [None] is a [fetch] that failed. *)
Inductive AfterSubmit : Type :=
| Shown (message : string)
| Opened (path : string).

Definition after_response (response : option Response) : AfterSubmit :=
  match response with
  | None => Shown "Failed to connect to server. Please try again."
  | Some response =>
      let data := body response in
      if negb ((200 <=? http_status response) && (http_status response <=? 299))
      then Shown (if truthy_string (body_error data)
                  then match body_error data with Some m => m | None => "" end
                  else "Failed to start analysis")
      else Opened ("/run/" ++ match body_run_id data with
                              | Some run_id => run_id
                              | None => "undefined"
                              end)
  end.

(** *** The page of a run *)

(** [data.status !== 'running'] stops the polling. *)
Definition keeps_polling (data : Body) : bool :=
  match body_status data with
  | Some status => String.eqb status "running"
  | None => false
  end.

Inductive Colour : Type := green | yellow | red.

(** The colour of the score: [(score ?? 0) >= 70], [>= 40], else. *)
Definition score_colour (score : option Z) : Colour :=
  let n := match score with Some n => n | None => 0 end in
  if 70 <=? n then green else if 40 <=? n then yellow else red.

(** The colour of a finding: red, yellow, green for anything else. *)
Definition finding_colour (f : Finding) : Colour :=
  match category f with
  | critical => red
  | warning => yellow
  | _ => green
  end.

(** The dot of a timeline entry. *)
Definition event_colour (ev : TimelineEvent) : Colour :=
  if success ev then green else red.

Inductive View : Type :=
| AnalysisInProgress
| AnalysisFailed (message : string)
| AnalysisComplete (colour : Colour).

(** The view rendered for what was polled last, if anything. *)
Definition render (result : option Body) : View :=
  match result with
  | None => AnalysisInProgress
  | Some data =>
      if match body_status data with
         | Some status => String.eqb status "running"
         | None => false
         end
      then AnalysisInProgress
      else if match body_status data with
              | Some status => String.eqb status "failed"
              | None => false
              end
              && truthy_string (body_error data)
      then AnalysisFailed (match body_error data with Some m => m | None => "" end)
      else AnalysisComplete (score_colour (body_score data))
  end.

(* ===================================================================== *)
(** ** Reasoning about computations *)

(** [wp m Q s]: running [m] from [s] ends, normally or by a throw, in an
    outcome and a state that satisfy [Q]. *)
Definition wp {W A : Type} (m : M A) (Q : Thrown + A -> St.t W -> Prop)
    (s : St.t W) : Prop :=
  Q (fst (m s)) (snd (m s)).

(** [m] returns normally, in a state satisfying [Q]. *)
Definition returns {W A : Type} (Q : St.t W -> Prop) : Thrown + A -> St.t W -> Prop :=
  fun r s => match r with inr _ => Q s | inl _ => False end.

Section Logic.

Context {W : Type}.
Implicit Types s : St.t W.

Lemma wp_run {A} (m : M A) (Q : Thrown + A -> St.t W -> Prop) s r s' :
  m s = (r, s') -> wp m Q s -> Q r s'.
Proof. unfold wp. intros ->. exact (fun H => H). Qed.

Lemma wp_mono {A} (m : M A) (Q Q' : Thrown + A -> St.t W -> Prop) s :
  wp m Q s -> (forall r s', Q r s' -> Q' r s') -> wp m Q' s.
Proof. unfold wp. auto. Qed.

Lemma wp_ret {A} (a : A) (Q : Thrown + A -> St.t W -> Prop) s :
  Q (inr a) s -> wp (ret a) Q s.
Proof. exact (fun H => H). Qed.

Lemma wp_throw {A} e (Q : Thrown + A -> St.t W -> Prop) s :
  Q (inl e) s -> wp (throw e) Q s.
Proof. exact (fun H => H). Qed.

Lemma wp_bind {A B} (m : M A) (k : A -> M B) (Q : Thrown + B -> St.t W -> Prop) s :
  wp m (fun r s' => match r with
                    | inr a => wp (k a) Q s'
                    | inl e => Q (inl e) s'
                    end) s ->
  wp (bind m k) Q s.
Proof. unfold wp, bind. destruct (m s) as [[e | a] s']; exact (fun H => H). Qed.

Lemma wp_try_catch {A} (m : M A) (h : Thrown -> M A)
    (Q : Thrown + A -> St.t W -> Prop) s :
  wp m (fun r s' => match r with
                    | inr a => Q (inr a) s'
                    | inl e => wp (h e) Q s'
                    end) s ->
  wp (try_catch m h) Q s.
Proof. unfold wp, try_catch. destruct (m s) as [[e | a] s']; exact (fun H => H). Qed.

Lemma wp_get (Q : Thrown + St.t W -> St.t W -> Prop) s :
  Q (inr s) s -> wp get Q s.
Proof. exact (fun H => H). Qed.

Lemma wp_modify (f : St.t W -> St.t W) (Q : Thrown + unit -> St.t W -> Prop) s :
  Q (inr tt) (f s) -> wp (modify f) Q s.
Proof. exact (fun H => H). Qed.

Lemma wp_whenM (b : bool) (m : M unit) (Q : Thrown + unit -> St.t W -> Prop) s :
  (b = true -> wp m Q s) -> (b = false -> Q (inr tt) s) -> wp (whenM b m) Q s.
Proof. destruct b; intros H1 H2; [apply H1 | apply H2]; reflexivity. Qed.

Lemma wp_call {A} (f : W -> (Thrown + A) * W) (Q : Thrown + A -> St.t W -> Prop) s :
  (forall r w, Q r (St.with_world w s)) -> wp (call f) Q s.
Proof. unfold wp, call. destruct (f (St.world s)) as [r w]. intros H. apply H. Qed.

Lemma wp_currentUrl (Q : Thrown + string -> St.t W -> Prop) s :
  Q (inr (St.currentUrl s)) s -> wp currentUrl Q s.
Proof. exact (fun H => H). Qed.

Variable sh : Stagehand W.

Lemma wp_pageUrl (Q : Thrown + string -> St.t W -> Prop) s :
  Q (inr (page_url sh (St.world s))) s -> wp (pageUrl sh) Q s.
Proof. exact (fun H => H). Qed.

Lemma wp_close (Q : Thrown + unit -> St.t W -> Prop) s :
  (forall r w, Q r (St.with_world w (St.count_close s))) -> wp (close sh) Q s.
Proof. unfold wp, close. destruct (sh_close sh (St.world s)) as [r w]. intros H. apply H. Qed.

Lemma wp_now (Q : Thrown + Z -> St.t W -> Prop) s :
  (forall t w, Q (inr t) (St.with_world w s)) -> wp (now sh) Q s.
Proof. unfold wp, now. destruct (date_now sh (St.world s)) as [t w]. intros H. apply H. Qed.

Lemma wp_wait ms (Q : Thrown + unit -> St.t W -> Prop) s :
  (forall w, Q (inr tt) (St.with_world w s)) -> wp (wait sh ms) Q s.
Proof. intros H. apply wp_modify, H. Qed.

Lemma wp_refreshCurrentUrl (Q : Thrown + unit -> St.t W -> Prop) s :
  (forall u, Q (inr tt) (St.set_currentUrl u s)) -> wp (refreshCurrentUrl sh) Q s.
Proof. intros H. apply H. Qed.

Lemma wp_record_currentUrl a (Q : Thrown + unit -> St.t W -> Prop) s :
  (forall t w u, Q (inr tt) (St.push_timeline (mkEvent t a u true) (St.with_world w s))) ->
  wp (record sh a currentUrl) Q s.
Proof.
  intros H. unfold record. apply wp_bind, wp_now. intros t w. apply H.
Qed.

Lemma wp_record_pageUrl a (Q : Thrown + unit -> St.t W -> Prop) s :
  (forall t w u, Q (inr tt) (St.push_timeline (mkEvent t a u true) (St.with_world w s))) ->
  wp (record sh a (pageUrl sh)) Q s.
Proof.
  intros H. unfold record. apply wp_bind, wp_now. intros t w. apply H.
Qed.

End Logic.

(* ===================================================================== *)
(** ** The stages, one by one *)

Ltac st_simpl :=
  cbn [St.world St.closes St.timeline St.findings St.addToCartSuccess
       St.checkoutReached St.dropOffStep St.timeToAddToCart St.sessionUrl
       St.startTime St.addToCartTime St.currentUrl
       St.with_world St.count_close St.push_timeline St.push_findings
       St.set_addToCart St.set_checkoutReached St.set_dropOffStep
       St.set_sessionUrl St.set_currentUrl St.initial] in *.

Ltac wp_step :=
  lazymatch goal with
  | |- wp (bind _ _) _ _ => apply wp_bind
  | |- wp (ret _) _ _ => apply wp_ret
  | |- wp (throw _) _ _ => apply wp_throw
  | |- wp get _ _ => apply wp_get
  | |- wp (modify _) _ _ => apply wp_modify
  | |- wp (report _) _ _ => apply wp_modify
  | |- wp (try_catch _ _) _ _ => apply wp_try_catch
  | |- wp (whenM _ _) _ _ =>
      st_simpl; cbn [truthy_string negb andb];
      apply wp_whenM; (let H := fresh in intros H; try discriminate H)
  | |- wp (act _ _) _ _ => apply wp_call; intros [? | []] ?
  | |- wp (extract _ _) _ _ => apply wp_call; intros [? | ?] ?
  | |- wp (init _) _ _ => apply wp_call; intros [? | []] ?
  | |- wp (goto _ _) _ _ => apply wp_call; intros [? | []] ?
  | |- wp (first_page _) _ _ => apply wp_call; intros [? | []] ?
  | |- wp (close _) _ _ => apply wp_close; intros [? | []] ?
  | |- wp (now _) _ _ => apply wp_now; intros ? ?
  | |- wp (wait _ _) _ _ => apply wp_wait; intros ?
  | |- wp (refreshCurrentUrl _) _ _ => apply wp_refreshCurrentUrl; intros ?
  | |- wp (record _ _ currentUrl) _ _ => apply wp_record_currentUrl; intros ? ? ?
  | |- wp (record _ _ (pageUrl _)) _ _ => apply wp_record_pageUrl; intros ? ? ?
  | |- wp currentUrl _ _ => apply wp_currentUrl
  | |- wp (pageUrl _) _ _ => apply wp_pageUrl
  | |- wp (if ?b then _ else _) _ _ => destruct b eqn:?
  | |- wp (match ?o with Some _ => _ | None => _ end) _ _ => destruct o eqn:?
  end; cbv beta iota.

Lemma checkoutFormFilled_of_push tl t a u b :
  includes a "Filled checkout form" = false ->
  checkoutFormFilled_of (tl ++ [mkEvent t a u b]) = checkoutFormFilled_of tl.
Proof.
  intros H. unfold checkoutFormFilled_of. rewrite existsb_app. simpl.
  rewrite H. now rewrite !orb_false_r.
Qed.

Lemma checkoutFormFilled_of_filled tl t u b :
  checkoutFormFilled_of (tl ++ [mkEvent t "Filled checkout form with dummy data" u b])
  = true.
Proof.
  unfold checkoutFormFilled_of. rewrite existsb_app.
  apply orb_true_iff. right. reflexivity.
Qed.

(** Closing a leaf: the state is a stack of updates over [s]. *)
Ltac push_ok :=
  repeat (rewrite checkoutFormFilled_of_push by (vm_compute; reflexivity)).

Ltac leaf :=
  unfold returns, Fresh, Discovered, Added, Done, same_session, no_form_yet,
    timing_ok, dropped in *;
  st_simpl; push_ok;
  try rewrite checkoutFormFilled_of_filled;
  try solve [intuition (eauto; try reflexivity; try congruence)].

(** Name the variables of the state, so that the flags compute. *)
Ltac open_state s H :=
  destruct s as [?w ?c ?tl ?fs ?atc ?co ?dos ?secs ?su ?st ?at_ ?cu];
  unfold Fresh, Discovered, Added, Done, no_form_yet, timing_ok, dropped in H;
  st_simpl.

Ltac wp_auto := repeat wp_step; leaf.

Section StageLemmas.

Context {W : Type}.
Variable js : Builtins.
Variable sh : Stagehand W.
Variables storeUrl runId : string.
Implicit Types s : St.t W.

(** The homepage analysis never throws and leaves the flags alone. *)
Lemma homepage_analysis_spec s :
  Fresh s ->
  wp (homepage_analysis js sh) (returns (fun s' => Fresh s' /\ same_session s s')) s.
Proof.
  intros H. unfold homepage_analysis. wp_auto.
Qed.

(** Product discovery never throws: it ends with no drop-off, or with one
    recorded. *)
Lemma product_discovery_spec s :
  Fresh s ->
  wp (product_discovery js sh storeUrl)
     (returns (fun s' => Discovered s' /\ same_session s s')) s.
Proof.
  intros H. open_state s H. destruct H as (-> & -> & -> & -> & H).
  unfold product_discovery, find_product, product_page_analysis. wp_auto.
Qed.

(** The add-to-cart stage never throws: it ends with the product in the
    cart and the time taken, or with a drop-off. *)
Lemma add_to_cart_spec s :
  Discovered s ->
  wp (add_to_cart js sh) (returns (fun s' => Added s' /\ same_session s s')) s.
Proof.
  intros H. open_state s H. destruct H as (-> & -> & -> & H & Hd).
  unfold add_to_cart, try_add_to_cart, variant_retries, cart_experience_analysis.
  destruct Hd as [-> | Hd]; [| apply wp_bind, wp_get; cbv beta iota; st_simpl; rewrite Hd];
    wp_auto.
Qed.

(** Filling the form, or failing to, never sets a drop-off: once the
    checkout is reached the stage can only end normally. *)
Lemma checkout_spec s :
  Added s ->
  wp (checkout js sh) (returns (fun s' => Done s' /\ same_session s s')) s.
Proof.
  intros H. open_state s H. destruct H as (-> & H & Ht & Hd).
  unfold checkout, reach_checkout, fill_checkout_form.
  destruct atc.
  - subst dos. wp_auto.
  - apply wp_bind, wp_get; cbv beta iota. wp_auto.
Qed.

(** The stages after navigation never throw. *)
Lemma stages_spec s :
  Fresh s ->
  wp (stages js sh storeUrl) (returns (fun s' => Done s' /\ same_session s s')) s.
Proof.
  intros H. unfold stages.
  apply wp_bind. eapply wp_mono; [apply homepage_analysis_spec, H |].
  intros [e | []] s1; [intros [] | intros [H1 S1]].
  apply wp_bind. eapply wp_mono; [apply product_discovery_spec, H1 |].
  intros [e | []] s2; [intros [] | intros [H2 S2]].
  apply wp_bind. eapply wp_mono; [apply add_to_cart_spec, H2 |].
  intros [e | []] s3; [intros [] | intros [H3 S3]].
  eapply wp_mono; [apply checkout_spec, H3 |].
  intros [e | []] s4; [intros [] | intros [H4 S4]].
  split; [exact H4 |].
  unfold same_session in *. intuition congruence.
Qed.

(** Opening the store touches none of the funnel flags. *)
Lemma navigate_spec s :
  Fresh s ->
  wp (navigate sh storeUrl)
     (fun r s' => St.closes s' = St.closes s /\ St.startTime s' = St.startTime s
                  /\ match r with inr _ => Fresh s' | inl _ => True end) s.
Proof.
  intros H. open_state s H. destruct H as (-> & -> & -> & -> & H).
  unfold navigate. wp_auto.
Qed.


Lemma finish_spec s :
  wp (finish js sh storeUrl runId)
     (fun r s' =>
        (exists w, s' = St.with_world w (scored js s))
        /\ match r with
           | inr res =>
               res = completed_result storeUrl runId (score_at s)
                       (checkoutFormFilled_of (St.timeline s)) s'
           | inl _ => True
           end) s.
Proof.
  unfold finish. repeat wp_step; (split; [eexists; reflexivity | auto]).
Qed.

Lemma on_failure_spec e s :
  wp (on_failure sh storeUrl runId e)
     (fun r s' =>
        (exists w, s' = St.with_world w (St.count_close s))
        /\ r = inr (failed_result storeUrl runId e s')) s.
Proof.
  unfold on_failure. repeat wp_step; (split; [eexists; reflexivity | auto]).
Qed.

(** The body of the outermost [try]: when it returns, it returns what
    [finish] built from variables that satisfy [Done]. *)
Lemma pipeline_spec s :
  Fresh s ->
  wp (pipeline js sh storeUrl runId)
     (fun r s' =>
        match r with
        | inr res =>
            exists s2 w,
              Done s2 /\ St.closes s2 = St.closes s
              /\ St.startTime s2 = St.startTime s
              /\ s' = St.with_world w (scored js s2)
              /\ res = completed_result storeUrl runId (score_at s2)
                         (checkoutFormFilled_of (St.timeline s2)) s'
        | inl _ => True
        end) s.
Proof.
  intros H. unfold pipeline.
  apply wp_bind. eapply wp_mono; [apply navigate_spec, H |].
  intros [e | []] s1; [trivial | intros (C1 & T1 & H1)].
  apply wp_bind. eapply wp_mono; [apply stages_spec, H1 |].
  intros [e | []] s2; [intros [] | intros (H2 & C2 & T2 & _)].
  eapply wp_mono; [apply finish_spec |].
  intros [e | res] s3; [trivial | intros ([w ->] & ->)].
  exists s2, w. split; [exact H2 |]. repeat split; congruence.
Qed.

End StageLemmas.


(* ===================================================================== *)
(** ** The string model on concrete texts *)

Example includes_inside : includes "cart icon shows 0 items" "0 item" = true.
Proof. reflexivity. Qed.

Example includes_absent : includes "navigation is clear" "unclear" = false.
Proof. reflexivity. Qed.

Example includes_quoted_zero :
  includes ("{" ++ quoted "count" ++ ":" ++ quoted "0" ++ "}") (quoted "0") = true
  /\ includes ("{" ++ quoted "count" ++ ":" ++ quoted "10" ++ "}") (quoted "0") = false.
Proof. split; reflexivity. Qed.

Example field_match_plain : field_match "There are 12 form fields to fill" = Some 12.
Proof. reflexivity. Qed.

Example field_match_case : field_match "about 9Fields, all required" = Some 9.
Proof. reflexivity. Qed.

Example field_match_leftmost : field_match "step 2 of 3, then 10 fields and 4 fields" = Some 10.
Proof. reflexivity. Qed.

Example field_match_none : field_match "5 forms and 3 steps" = None.
Proof. reflexivity. Qed.

Example too_many_fields_fires :
  has_id "checkout-too-many-fields"
    (checkout_findings ascii_builtins "The page asks for 12 form fields") = true
  /\ has_id "checkout-too-many-fields"
       (checkout_findings ascii_builtins "The page asks for 8 form fields") = false.
Proof. split; reflexivity. Qed.

Example round_seconds_halves :
  round_seconds 499 = 0 /\ round_seconds 500 = 1 /\ round_seconds 1499 = 1
  /\ round_seconds 7500 = 8.
Proof. repeat split; reflexivity. Qed.

(* ===================================================================== *)
(** ** The classifiers on the scenarios of the specification *)

(** C4, as stated: an observation whose count contains the digit 0 without
    being 0 is accepted by the code, where the stated rule rejects it. *)
Lemma C4_counterexample :
  includes "cart badge shows 10, item added" "0" = true
  /\ hasItems "cart badge shows 10, item added" = true
  /\ hasItems_spec "cart badge shows 10, item added" = false.
Proof. repeat split; reflexivity. Qed.

(** C4, amended: the cart check holds exactly when none of the quoted
    zero (the text 0 between two double quotes), [0 item], [empty] and
    [no item] occurs and one of [1], [item], [added], [eklendi] and
    [success] occurs; the two observations of scenario B are classified as
    empty and as added, bare or serialised as JSON strings. *)
Theorem C4_hasItems :
  (forall s,
     hasItems s = true <->
     (includes s (quoted "0") = false /\ includes s "0 item" = false
      /\ includes s "empty" = false /\ includes s "no item" = false)
     /\ (includes s "1" = true \/ includes s "item" = true
         \/ includes s "added" = true \/ includes s "eklendi" = true
         \/ includes s "success" = true))
  /\ hasItems "cart icon shows 0 items, no success message" = false
  /\ hasItems "cart icon shows 1 item, sepete eklendi" = true
  /\ hasItems (quoted "cart icon shows 0 items, no success message") = false
  /\ hasItems (quoted "cart icon shows 1 item, sepete eklendi") = true.
Proof.
  split; [| repeat split; reflexivity].
  intros s. unfold hasItems.
  rewrite !andb_true_iff, !orb_true_iff, !negb_true_iff. tauto.
Qed.

(** C5, as stated: the homepage rules give no [homepage-no-search] finding
    on the observation of scenario A. *)
Lemma C5_counterexample :
  has_id "homepage-no-search"
    (homepage_findings "no search bar visible, navigation is clear") = false.
Proof. reflexivity. Qed.

(** C5, amended: on the observation of scenario A the homepage rules give
    no finding at all, since a text that names the [search bar] or the
    [search icon] is never flagged for search; the same observation without
    the word [bar] gives the [homepage-no-search] warning and no
    [homepage-navigation-unclear] finding. *)
Theorem C5_homepage_scenario :
  homepage_findings "no search bar visible, navigation is clear" = []
  /\ (forall s, includes s "search bar" = true \/ includes s "search icon" = true ->
                has_id "homepage-no-search" (homepage_findings s) = false)
  /\ homepage_findings "no search visible, navigation is clear"
     = [homepage_no_search]
  /\ has_id "homepage-navigation-unclear"
       (homepage_findings "no search visible, navigation is clear") = false.
Proof.
  split; [reflexivity |]. split; [| split; reflexivity].
  intros s H. unfold homepage_findings, has_id.
  assert (G : negb (includes s "search bar") && negb (includes s "search icon") = false).
  { destruct H as [-> | ->]; [reflexivity | apply andb_false_r]. }
  rewrite G, andb_false_r. cbn [when app].
  rewrite !existsb_app.
  repeat match goal with
         | |- context [when ?b ?f] => destruct b; cbn [when existsb]
         end; reflexivity.
Qed.

(* ===================================================================== *)
(** ** The scoring model *)

Lemma compute_score_spec atc co filled fs :
  compute_score atc co filled fs = spec_score atc co filled fs.
Proof.
  unfold compute_score, spec_score, clamp, funnel_component, ux_component, b2z.
  destruct atc, co, filled; lia.
Qed.

Lemma spec_score_range atc co filled fs : 0 <= spec_score atc co filled fs <= 100.
Proof. unfold spec_score, clamp. lia. Qed.

Lemma count_category_nonneg c fs : 0 <= count_category c fs.
Proof. unfold count_category. lia. Qed.

Lemma count_category_app c fs gs :
  count_category c (fs ++ gs) = count_category c fs + count_category c gs.
Proof.
  unfold count_category. rewrite filter_app, length_app. lia.
Qed.

Lemma count_category_positive c fs :
  c <> positive ->
  Forall (fun f => category f = positive) fs ->
  count_category c fs = 0.
Proof.
  intros Hc H. unfold count_category.
  induction H as [| f fs Hf _ IH]; [reflexivity |].
  cbn [filter]. rewrite Hf. destruct c; try contradiction; exact IH.
Qed.

Lemma spec_score_positive atc co filled fs gs :
  Forall (fun f => category f = positive) gs ->
  spec_score atc co filled (fs ++ gs) = spec_score atc co filled fs.
Proof.
  intros H. unfold spec_score, ux_component.
  rewrite !count_category_app.
  rewrite !(count_category_positive _ gs) by (try discriminate; exact H).
  now rewrite !Z.add_0_r.
Qed.

Lemma positive_findings_positive {W} js (s : St.t W) filled :
  Forall (fun f => category f = positive) (positive_findings js s filled).
Proof.
  unfold positive_findings.
  repeat (apply Forall_app; split).
  - destruct (St.addToCartSuccess s); [| constructor].
    constructor; [reflexivity |].
    destruct (St.timeToAddToCart s); [| constructor].
    unfold when. destruct (_ && _); repeat constructor.
  - unfold when. destruct (St.checkoutReached s); repeat constructor.
  - unfold when. destruct filled; repeat constructor.
Qed.

(* ===================================================================== *)
(** ** How a run ends *)

Section Results.

Context {W : Type}.
Variable js : Builtins.
Variable sh : Stagehand W.
Variables storeUrl runId : string.
Implicit Types s : St.t W.

Lemma construct_fresh (w : W) r s0 :
  construct sh w = (r, s0) -> Fresh s0 /\ St.closes s0 = 0%nat.
Proof.
  unfold construct, new_Stagehand, call.
  destruct (date_now sh w) as [t w1]. st_simpl.
  destruct (sh_new sh w1) as [r' w2]. intros [= <- <-].
  repeat split.
Qed.

(** The promise rejects only when the agent cannot be constructed. *)
Lemma runAnalysis_rejected (w : W) e s' :
  runAnalysis js sh storeUrl runId w = (Rejected e, s') ->
  construct sh w = (inl e, s').
Proof.
  unfold runAnalysis. destruct (construct sh w) as [[e0 | []] s0].
  - now intros [= -> ->].
  - unfold try_catch.
    destruct (pipeline js sh storeUrl runId s0) as [[e1 | res] s1].
    + pose proof (on_failure_spec sh storeUrl runId e1 s1) as H. unfold wp in H.
      destruct (on_failure sh storeUrl runId e1 s1) as [[e2 | res] s2];
        [destruct H as [_ H]; discriminate H | discriminate].
    + discriminate.
Qed.

(** A resolved promise carries either the object of the outermost
    [catch], or the object [finish] built after the stages. *)
Lemma runAnalysis_resolved (w : W) r s' :
  runAnalysis js sh storeUrl runId w = (Resolved r, s') ->
  exists s0,
    construct sh w = (inr tt, s0)
    /\ ((exists e s1,
           pipeline js sh storeUrl runId s0 = (inl e, s1)
           /\ (exists w', s' = St.with_world w' (St.count_close s1))
           /\ r = failed_result storeUrl runId e s1)
        \/ (exists s1 s2,
              navigate sh storeUrl s0 = (inr tt, s1)
              /\ stages js sh storeUrl s1 = (inr tt, s2)
              /\ finish js sh storeUrl runId s2 = (inr r, s')
              /\ Done s2 /\ St.closes s2 = 0%nat
              /\ (exists w', s' = St.with_world w' (scored js s2))
              /\ r = completed_result storeUrl runId (score_at s2)
                       (checkoutFormFilled_of (St.timeline s2)) (scored js s2))).
Proof.
  unfold runAnalysis. destruct (construct sh w) as [[e0 | []] s0] eqn:E0; [discriminate |].
  destruct (construct_fresh _ _ _ E0) as [F0 C0].
  intros R. exists s0. split; [reflexivity |].
  revert R. unfold try_catch.
  destruct (pipeline js sh storeUrl runId s0) as [[e1 | res] s1] eqn:E1.
  - pose proof (on_failure_spec sh storeUrl runId e1 s1) as H. unfold wp in H.
    destruct (on_failure sh storeUrl runId e1 s1) as [[e2 | res'] s2];
      [discriminate |].
    cbn [fst snd] in H. destruct H as [[w' ->] [= ->]]. intros [= <- <-].
    left. exists e1, s1. split; [reflexivity |]. split; [now exists w' | reflexivity].
  - intros [= <- <-]. right. revert E1. unfold pipeline, bind.
    pose proof (wp_run _ _ _ (fst (navigate sh storeUrl s0))
                  (snd (navigate sh storeUrl s0))
                  (surjective_pairing _) (navigate_spec sh storeUrl s0 F0)) as N.
    destruct (navigate sh storeUrl s0) as [[e | []] sa] eqn:EN; [discriminate |].
    cbn [fst snd] in N. destruct N as (C1 & _ & F1).
    pose proof (wp_run _ _ _ (fst (stages js sh storeUrl sa))
                  (snd (stages js sh storeUrl sa))
                  (surjective_pairing _) (stages_spec js sh storeUrl sa F1)) as S.
    destruct (stages js sh storeUrl sa) as [[e | []] sb] eqn:ES; [destruct S |].
    cbn [fst snd returns] in S. destruct S as (D2 & C2 & _).
    intros E. exists sa, sb.
    pose proof (wp_run _ _ _ _ _ E (finish_spec js sh storeUrl runId sb)) as F.
    cbn beta iota in F. destruct F as ([w' ->] & ->).
    split; [reflexivity |]. split; [exact ES |]. split; [exact E |].
    split; [exact D2 |]. split; [congruence |].
    split; [now exists w' | reflexivity].
Qed.

(** When the agent can be constructed the promise resolves. *)
Lemma runAnalysis_resolves (w : W) s0 :
  construct sh w = (inr tt, s0) ->
  exists r s', runAnalysis js sh storeUrl runId w = (Resolved r, s').
Proof.
  intros E.
  destruct (runAnalysis js sh storeUrl runId w) as [[r | e] s'] eqn:R.
  - now exists r, s'.
  - apply runAnalysis_rejected in R. congruence.
Qed.


Lemma init_throws_pipeline s0 e w' :
  sh_init sh (St.world s0) = (inl e, w') ->
  pipeline js sh storeUrl runId s0 = (inl e, St.with_world w' s0).
Proof.
  intros H. unfold pipeline, navigate, bind, init, call. now rewrite H.
Qed.

Lemma finish_throws s e s' :
  finish js sh storeUrl runId s = (inl e, s') ->
  exists w', sh_close sh (St.world s) = (inl e, w').
Proof.
  unfold finish, bind, get, report, modify, close. st_simpl.
  destruct (sh_close sh (St.world s)) as [[e' | []] w']; [| discriminate].
  intros [= -> _]. now exists w'.
Qed.

Lemma runAnalysis_failed (w : W) s0 e s1 :
  construct sh w = (inr tt, s0) ->
  pipeline js sh storeUrl runId s0 = (inl e, s1) ->
  exists w', runAnalysis js sh storeUrl runId w
             = (Resolved (failed_result storeUrl runId e s1),
                St.with_world w' (St.count_close s1)).
Proof.
  intros E0 E1. unfold runAnalysis, try_catch. rewrite E0, E1.
  pose proof (on_failure_spec sh storeUrl runId e s1) as H. unfold wp in H.
  destruct (on_failure sh storeUrl runId e s1) as [r s2].
  cbn [fst snd] in H. destruct H as [[w' ->] ->]. now exists w'.
Qed.

(** The score of the results.  Every score returned is within 0..100.
    When the run returns the object built after the stages (status
    [completed]), its score is the funnel component (20 for add-to-cart,
    20 for checkout reached, 20 for the form filled) plus the quality
    component (40 less 15, 8 and 5 per critical, warning and suggestion
    finding, floored at 0) clamped to 0..100, over the findings present
    when scoring is reached, and over the findings returned as well; with
    every stage completed and no critical, warning or suggestion finding it
    is at least 80. *)
Lemma score_of_completed_result (w : W) r s' :
  runAnalysis js sh storeUrl runId w = (Resolved r, s') ->
  0 <= score r <= 100
  /\ (status r = completed ->
      (exists s0 s1 s2,
         construct sh w = (inr tt, s0)
         /\ navigate sh storeUrl s0 = (inr tt, s1)
         /\ stages js sh storeUrl s1 = (inr tt, s2)
         /\ add_to_cart_success (metrics r) = St.addToCartSuccess s2
         /\ checkout_reached (metrics r) = St.checkoutReached s2
         /\ checkout_form_filled (metrics r) = checkoutFormFilled_of (St.timeline s2)
         /\ score r = spec_score (St.addToCartSuccess s2) (St.checkoutReached s2)
                        (checkoutFormFilled_of (St.timeline s2)) (St.findings s2))
      /\ score r = spec_score (add_to_cart_success (metrics r))
                     (checkout_reached (metrics r))
                     (checkout_form_filled (metrics r)) (findings r)
      /\ (add_to_cart_success (metrics r) = true ->
          checkout_reached (metrics r) = true ->
          checkout_form_filled (metrics r) = true ->
          count_category critical (findings r) = 0 ->
          count_category warning (findings r) = 0 ->
          count_category suggestion (findings r) = 0 ->
          80 <= score r)).
Proof.
  intros R. apply runAnalysis_resolved in R.
  destruct R as (s0 & E0 & [(e & s1 & _ & _ & ->) | (s1 & s2 & EN & ES & _ & _ & _ & _ & ->)]).
  - split; [cbn; lia | discriminate].
  - assert (S : score_at s2
                = spec_score (St.addToCartSuccess s2) (St.checkoutReached s2)
                    (checkoutFormFilled_of (St.timeline s2)) (St.findings s2))
      by apply compute_score_spec.
    cbn [score status metrics findings completed_result add_to_cart_success
         checkout_reached checkout_form_filled].
    unfold scored. st_simpl. rewrite S.
    split; [apply spec_score_range |]. intros _.
    split; [exists s0, s1, s2; repeat split; assumption |].
    pose proof (positive_findings_positive js s2
                  (checkoutFormFilled_of (St.timeline s2))) as P.
    rewrite spec_score_positive by exact P.
    split; [reflexivity |].
    rewrite !count_category_app.
    rewrite (count_category_positive critical _ ltac:(discriminate) P).
    rewrite (count_category_positive warning _ ltac:(discriminate) P).
    rewrite (count_category_positive suggestion _ ltac:(discriminate) P).
    rewrite !Z.add_0_r.
    intros -> -> -> Hc Hw Hs.
    unfold spec_score, clamp, funnel_component, b2z, ux_component.
    rewrite Hc, Hw, Hs. lia.
Qed.


(** C3, amended.  Once the agent is constructed, [runAnalysis] resolves
    whatever [init], [goto], [act], [extract] and [close] do; the status of
    the result is [completed] or [failed], and a failed result carries the
    message of what was thrown as its [error] and as the evidence of its
    one finding, [analysis-failed].  (Construction is outside the [try]: a
    constructor that throws rejects the promise.) *)
Theorem C3_resolves (w : W) s0 :
  construct sh w = (inr tt, s0) ->
  exists r s',
    runAnalysis js sh storeUrl runId w = (Resolved r, s')
    /\ (status r = failed ->
        exists e, error r = Some (error_message e)
                  /\ findings r = [analysis_failed e])
    /\ (status r = completed -> error r = None).
Proof.
  intros E0. destruct (runAnalysis_resolves w s0 E0) as (r & s' & R).
  exists r, s'. split; [exact R |].
  apply runAnalysis_resolved in R.
  destruct R as (s0' & _ & [(e & s1 & _ & _ & ->) | (s1 & s2 & _ & _ & _ & _ & _ & _ & ->)]).
  - split; [intros _; now exists e | discriminate].
  - split; [discriminate | reflexivity].
Qed.

(** C6.  If session initialization throws, or any exception escapes the
    body of the outermost [try], the run returns status [failed], score 0,
    all metrics false or null with [drop_off_step] "initialization", the
    single critical finding [analysis-failed], and the message of what was
    thrown as its [error]. *)
Theorem C6_top_level_failure (w : W) s0 e :
  construct sh w = (inr tt, s0) ->
  (exists w', sh_init sh (St.world s0) = (inl e, w'))
  \/ (exists s1, pipeline js sh storeUrl runId s0 = (inl e, s1)) ->
  exists r s',
    runAnalysis js sh storeUrl runId w = (Resolved r, s')
    /\ status r = failed
    /\ score r = 0
    /\ metrics r = mkMetrics false None false false (Some "initialization")
    /\ findings r = [analysis_failed e]
    /\ id (analysis_failed e) = "analysis-failed"
    /\ category (analysis_failed e) = critical
    /\ error r = Some (error_message e).
Proof.
  intros E0 H.
  assert (exists s1, pipeline js sh storeUrl runId s0 = (inl e, s1)) as [s1 E1].
  { destruct H as [[w' H] | H]; [| exact H].
    eexists. apply init_throws_pipeline, H. }
  destruct (runAnalysis_failed w s0 e s1 E0 E1) as [w' R].
  eexists _, _. split; [exact R |]. repeat split.
Qed.

(** C8.  In every result returned, the seconds to add-to-cart are set
    exactly when add-to-cart succeeded; and they are not negative, provided
    the clock read at add-to-cart is not behind the clock read at the start
    of the run. *)
Theorem C8_time_to_add_to_cart (w : W) r s' :
  runAnalysis js sh storeUrl runId w = (Resolved r, s') ->
  (time_to_add_to_cart_seconds (metrics r) <> None
   <-> add_to_cart_success (metrics r) = true)
  /\ ((forall t, St.addToCartTime s' = Some t -> St.startTime s' <= t) ->
      forall seconds,
        time_to_add_to_cart_seconds (metrics r) = Some seconds -> 0 <= seconds).
Proof.
  intros R. apply runAnalysis_resolved in R.
  destruct R as (s0 & E0 & [(e & s1 & _ & _ & ->) | (s1 & s2 & _ & _ & _ & D & _ & [w' ->] & ->)]).
  - cbn. split; [split; congruence | discriminate].
  - cbn [metrics completed_result time_to_add_to_cart_seconds add_to_cart_success].
    unfold scored. st_simpl.
    destruct D as [T _]. unfold timing_ok in T.
    destruct (St.addToCartSuccess s2).
    + destruct T as (t & Ht & ->). split; [split; congruence |].
      intros Hclock seconds [= <-]. specialize (Hclock t Ht).
      unfold round_seconds. apply Z.div_pos; lia.
    + rewrite T. split; [split; congruence | discriminate].
Qed.

(** C10.  Whenever an exception escapes the body of the outermost [try],
    whatever the stages had achieved by then, the failed result reports
    [drop_off_step] "initialization" and every funnel metric false or
    null, and its timeline is the timeline as it stood when the exception
    was thrown. *)
Theorem C10_failure_discards_progress (w : W) s0 e s1 :
  construct sh w = (inr tt, s0) ->
  pipeline js sh storeUrl runId s0 = (inl e, s1) ->
  exists r s',
    runAnalysis js sh storeUrl runId w = (Resolved r, s')
    /\ status r = failed
    /\ drop_off_step (metrics r) = Some "initialization"
    /\ add_to_cart_success (metrics r) = false
    /\ time_to_add_to_cart_seconds (metrics r) = None
    /\ checkout_reached (metrics r) = false
    /\ checkout_form_filled (metrics r) = false
    /\ timeline r = St.timeline s1.
Proof.
  intros E0 E1. destruct (runAnalysis_failed w s0 e s1 E0 E1) as [w' R].
  eexists _, _. split; [exact R |]. repeat split.
Qed.


Lemma homepage_findings_quiet str :
  filter is_critical (homepage_findings str) = []
  /\ filter is_no_products (homepage_findings str) = [].
Proof.
  unfold homepage_findings.
  repeat match goal with
         | |- context [when ?b ?f] => destruct b; cbn [when]
         end; split; reflexivity.
Qed.

(** Up to product discovery nothing critical has been found. *)
Lemma reach_discovery_spec s :
  Fresh s -> St.findings s = [] ->
  wp (reach_discovery js sh storeUrl)
     (fun r s' => match r with
                  | inr _ => Fresh s' /\ quiet s'
                  | inl _ => True
                  end) s.
Proof.
  intros H F. open_state s H. destruct H as (-> & -> & -> & -> & H). subst fs.
  unfold reach_discovery, navigate, homepage_analysis.
  repeat wp_step; try exact I;
    (split; [leaf | unfold quiet; st_simpl;
                    try apply homepage_findings_quiet; split; reflexivity]).
Qed.

(** When the search for a product throws, nothing was reported yet. *)
Lemma find_product_throws s :
  Fresh s ->
  wp (find_product js sh storeUrl)
     (fun r s' => match r with
                  | inl _ => Fresh s' /\ St.findings s' = St.findings s
                  | inr _ => True
                  end) s.
Proof.
  intros H. open_state s H. destruct H as (-> & -> & -> & -> & H).
  unfold find_product, product_page_analysis.
  repeat wp_step; try exact I; (split; [leaf | reflexivity]).
Qed.

(** The rest of the run after product discovery threw: the two gated
    stages are skipped, the score is computed, the session closed. *)
Lemma pipeline_after_discovery_throws s0 s3 e s4 w' :
  reach_discovery js sh storeUrl s0 = (inr tt, s3) ->
  find_product js sh storeUrl s3 = (inl e, s4) ->
  Fresh s4 ->
  sh_close sh (St.world s4) = (inr tt, w') ->
  let s5 := St.set_dropOffStep "product_discovery"
              (St.push_findings [no_products e] s4) in
  exists s',
    pipeline js sh storeUrl runId s0
    = (inr (completed_result storeUrl runId (score_at s5) false s5), s').
Proof.
  intros R F H C. eexists.
  unfold pipeline, stages, product_discovery, reach_discovery, bind, try_catch in *.
  destruct (navigate sh storeUrl s0) as [[? | []] s1]; [discriminate |].
  destruct (homepage_analysis js sh s1) as [[? | []] s2]; [discriminate |].
  rewrite R, F.
  open_state s4 H. destruct H as (-> & -> & -> & -> & H).
  unfold report, modify, add_to_cart, checkout, finish, bind, get, whenM, report,
    modify, close, ret, positive_findings, completed_result, score_at.
  st_simpl. change (truthy_string (Some "product_discovery")) with true.
  cbv beta iota delta [negb andb]. st_simpl.
  rewrite C, H. st_simpl. cbn [when app]. rewrite app_nil_r. reflexivity.
Qed.


(** An exception escapes the body of the outermost [try] only from
    opening the store, or from the [close] that follows scoring. *)
Lemma pipeline_throws_inv s0 e s1 :
  Fresh s0 ->
  pipeline js sh storeUrl runId s0 = (inl e, s1) ->
  (navigate sh storeUrl s0 = (inl e, s1) /\ St.closes s1 = St.closes s0)
  \/ (exists sa sb w',
        navigate sh storeUrl s0 = (inr tt, sa)
        /\ stages js sh storeUrl sa = (inr tt, sb)
        /\ sh_close sh (St.world sb) = (inl e, w')
        /\ St.closes s1 = S (St.closes s0)).
Proof.
  intros F0. unfold pipeline, bind.
  pose proof (wp_run _ _ _ (fst (navigate sh storeUrl s0))
                (snd (navigate sh storeUrl s0))
                (surjective_pairing _) (navigate_spec sh storeUrl s0 F0)) as N.
  destruct (navigate sh storeUrl s0) as [[e' | []] sa] eqn:EN; cbn [fst snd] in N.
  - intros [= -> ->]. left. split; [reflexivity | apply N].
  - destruct N as (C1 & _ & F1).
    pose proof (wp_run _ _ _ (fst (stages js sh storeUrl sa))
                  (snd (stages js sh storeUrl sa))
                  (surjective_pairing _) (stages_spec js sh storeUrl sa F1)) as S.
    destruct (stages js sh storeUrl sa) as [[e' | []] sb] eqn:ES; [destruct S |].
    cbn [fst snd returns] in S. destruct S as (_ & C2 & _).
    intros E. right.
    pose proof (wp_run _ _ _ _ _ E (finish_spec js sh storeUrl runId sb)) as F.
    cbn beta iota in F. destruct F as ([w1 ->] & _).
    destruct (finish_throws _ _ _ E) as [w' C].
    exists sa, sb, w'. repeat split; try assumption.
    unfold scored. st_simpl. congruence.
Qed.

(** [close] is called once on every path, or twice: when the call that
    follows scoring throws, the outermost [catch] calls it again. *)
Lemma close_calls (w : W) r s' :
  runAnalysis js sh storeUrl runId w = (Resolved r, s') ->
  St.closes s' = 1%nat
  \/ (St.closes s' = 2%nat /\ status r = failed
      /\ exists s0 sa sb e w',
           construct sh w = (inr tt, s0)
           /\ navigate sh storeUrl s0 = (inr tt, sa)
           /\ stages js sh storeUrl sa = (inr tt, sb)
           /\ sh_close sh (St.world sb) = (inl e, w')).
Proof.
  intros R. apply runAnalysis_resolved in R.
  destruct R as (s0 & E0 & [(e & s1 & E1 & [w' ->] & ->)
                            | (s1 & s2 & _ & _ & _ & _ & C2 & [w' ->] & ->)]).
  - destruct (construct_fresh _ _ _ E0) as [F0 C0].
    destruct (pipeline_throws_inv _ _ _ F0 E1) as [[_ C] | (sa & sb & w1 & EN & ES & EC & C)];
      st_simpl.
    + left. congruence.
    + right. split; [congruence |]. split; [reflexivity |].
      now exists s0, sa, sb, e, w1.
  - left. unfold scored. st_simpl. congruence.
Qed.

(** A drop-off at product discovery, when the session closes.  If the
    search for a product throws, at the first attempt or at the retry, and
    the session then closes, the run returns status [completed] with
    [drop_off_step] "product_discovery", add-to-cart not successful, and
    one critical finding, which is also the one finding with id
    [no-products].  In general no exception of a stage makes the status
    [failed]: a failed result comes from opening the store, or from the
    [close] that follows scoring. *)
Lemma stage_drop_off_when_session_closes (w : W) :
  (forall s0 s3 e s4 w',
     construct sh w = (inr tt, s0) ->
     reach_discovery js sh storeUrl s0 = (inr tt, s3) ->
     find_product js sh storeUrl s3 = (inl e, s4) ->
     sh_close sh (St.world s4) = (inr tt, w') ->
     exists r s',
       runAnalysis js sh storeUrl runId w = (Resolved r, s')
       /\ status r = completed
       /\ drop_off_step (metrics r) = Some "product_discovery"
       /\ add_to_cart_success (metrics r) = false
       /\ filter is_critical (findings r) = [no_products e]
       /\ filter is_no_products (findings r) = [no_products e])
  /\ (forall r s',
        runAnalysis js sh storeUrl runId w = (Resolved r, s') ->
        status r = failed ->
        exists s0,
          construct sh w = (inr tt, s0)
          /\ ((exists e s1, navigate sh storeUrl s0 = (inl e, s1))
              \/ (exists s1 s2 e w',
                    navigate sh storeUrl s0 = (inr tt, s1)
                    /\ stages js sh storeUrl s1 = (inr tt, s2)
                    /\ sh_close sh (St.world s2) = (inl e, w')))).
Proof.
  split.
  - intros s0 s3 e s4 w' E0 ER EF EC.
    destruct (construct_fresh _ _ _ E0) as [F0 _].
    assert (St.findings s0 = []) as N0.
    { revert E0. unfold construct, new_Stagehand, call.
      destruct (date_now sh w) as [t w1]. st_simpl.
      destruct (sh_new sh w1) as [r' w2]. now intros [= _ <-]. }
    pose proof (wp_run _ _ _ _ _ ER (reach_discovery_spec s0 F0 N0)) as [F3 [Q3 Q3']].
    pose proof (wp_run _ _ _ _ _ EF (find_product_throws s3 F3)) as [F4 N4].
    destruct (pipeline_after_discovery_throws s0 s3 e s4 w' ER EF F4 EC) as [s' EP].
    eexists _, s'. split.
    { unfold runAnalysis, try_catch. rewrite E0, EP. reflexivity. }
    cbn [status metrics findings completed_result drop_off_step add_to_cart_success].
    st_simpl. rewrite N4, !filter_app, Q3, Q3'.
    destruct F4 as (-> & _). repeat split.
  - intros r s' R Hf. apply runAnalysis_resolved in R.
    destruct R as (s0 & E0 & [(e & s1 & E1 & _ & ->) | (s1 & s2 & _ & _ & _ & _ & _ & _ & ->)]);
      [| discriminate].
    exists s0. split; [exact E0 |].
    destruct (construct_fresh _ _ _ E0) as [F0 _].
    destruct (pipeline_throws_inv _ _ _ F0 E1) as [[EN _] | (sa & sb & w1 & EN & ES & EC & _)].
    + left. now exists e, s1.
    + right. now exists sa, sb, e, w1.
Qed.


End Results.

(* ===================================================================== *)
(** ** A [close] that throws after scoring *)

Section CloseThrows.

Context {W : Type}.
Variable js : Builtins.
Variable sh : Stagehand W.
Variables storeUrl runId : string.
Implicit Types s : St.t W.

(** When the [close] that follows scoring throws, [finish] throws what it
    threw, after the positive findings were appended. *)
Lemma finish_close_throws s e w' :
  sh_close sh (St.world s) = (inl e, w') ->
  finish js sh storeUrl runId s = (inl e, St.with_world w' (scored js s)).
Proof.
  intros C. unfold finish, bind, get, report, modify, close, scored. st_simpl.
  now rewrite C.
Qed.

(** The run then returns the object of the outermost [catch]. *)
Lemma runAnalysis_close_throws (w : W) s0 s1 s2 e w' :
  construct sh w = (inr tt, s0) ->
  navigate sh storeUrl s0 = (inr tt, s1) ->
  stages js sh storeUrl s1 = (inr tt, s2) ->
  sh_close sh (St.world s2) = (inl e, w') ->
  exists s',
    runAnalysis js sh storeUrl runId w
    = (Resolved (failed_result storeUrl runId e (St.with_world w' (scored js s2))), s').
Proof.
  intros E0 EN ES EC.
  assert (pipeline js sh storeUrl runId s0
          = (inl e, St.with_world w' (scored js s2))) as EP.
  { unfold pipeline, bind. rewrite EN, ES. now apply finish_close_throws. }
  destruct (runAnalysis_failed js sh storeUrl runId w s0 e _ E0 EP) as [w2 R].
  eexists. exact R.
Qed.

(** C1.  The score computed when scoring is reached is the funnel part
    (20 for add-to-cart, 20 for the checkout reached, 20 for the form
    filled) plus the quality part (40 less 15, 8 and 5 per critical,
    warning and suggestion finding, floored at 0), clamped to 0..100; it is
    at least 80 when every stage was completed and no finding is critical,
    a warning or a suggestion.  But when the [close] that follows scoring
    throws, that score is dropped: the run returns a failed result with
    score 0. *)
Theorem C1_score_lost_when_close_throws (w : W) s0 s1 s2 e w' :
  construct sh w = (inr tt, s0) ->
  navigate sh storeUrl s0 = (inr tt, s1) ->
  stages js sh storeUrl s1 = (inr tt, s2) ->
  sh_close sh (St.world s2) = (inl e, w') ->
  let count (c : Category) :=
    Z.of_nat (List.length
                (filter (fun f => match category f, c with
                                  | critical, critical => true
                                  | warning, warning => true
                                  | suggestion, suggestion => true
                                  | _, _ => false
                                  end) (St.findings s2))) in
  score_at s2
  = Z.max 0 (Z.min 100
               ((if St.addToCartSuccess s2 then 20 else 0)
                + (if St.checkoutReached s2 then 20 else 0)
                + (if checkoutFormFilled_of (St.timeline s2) then 20 else 0)
                + Z.max 0 (40 - 15 * count critical - 8 * count warning
                           - 5 * count suggestion)))
  /\ (St.addToCartSuccess s2 = true -> St.checkoutReached s2 = true ->
      checkoutFormFilled_of (St.timeline s2) = true ->
      count critical = 0 -> count warning = 0 -> count suggestion = 0 ->
      80 <= score_at s2)
  /\ exists r s',
       runAnalysis js sh storeUrl runId w = (Resolved r, s')
       /\ status r = failed /\ score r = 0.
Proof.
  intros E0 EN ES EC count.
  assert (forall c, c <> positive -> count_category c (St.findings s2) = count c) as Hc.
  { intros c N. unfold count_category, count. f_equal. f_equal.
    apply filter_ext. intros f. destruct (category f), c; try reflexivity;
      contradiction. }
  assert (score_at s2
          = Z.max 0 (Z.min 100
               ((if St.addToCartSuccess s2 then 20 else 0)
                + (if St.checkoutReached s2 then 20 else 0)
                + (if checkoutFormFilled_of (St.timeline s2) then 20 else 0)
                + Z.max 0 (40 - 15 * count critical - 8 * count warning
                           - 5 * count suggestion)))) as S.
  { unfold score_at, compute_score.
    rewrite !Hc by discriminate.
    destruct (St.addToCartSuccess s2), (St.checkoutReached s2),
      (checkoutFormFilled_of (St.timeline s2)); lia. }
  split; [exact S |]. split.
  - rewrite S. intros -> -> -> -> -> ->. lia.
  - destruct (runAnalysis_close_throws w s0 s1 s2 e w' E0 EN ES EC) as [s' R].
    eexists _, s'. split; [exact R |]. split; reflexivity.
Qed.

(** C7.  When the search for a product throws, the drop-off at
    "product_discovery" and the finding [no-products] are recorded; but
    when the [close] that follows scoring then throws, they are dropped:
    the run returns a failed result with [drop_off_step] "initialization"
    and the one finding [analysis-failed], for what [close] threw. *)
Theorem C7_drop_off_lost_when_close_throws (w : W) s0 s3 e s4 e' w' :
  construct sh w = (inr tt, s0) ->
  reach_discovery js sh storeUrl s0 = (inr tt, s3) ->
  find_product js sh storeUrl s3 = (inl e, s4) ->
  sh_close sh (St.world s4) = (inl e', w') ->
  exists s1 s2 r s',
    navigate sh storeUrl s0 = (inr tt, s1)
    /\ stages js sh storeUrl s1 = (inr tt, s2)
    /\ St.dropOffStep s2 = Some "product_discovery"
    /\ filter is_no_products (St.findings s2) = [no_products e]
    /\ runAnalysis js sh storeUrl runId w = (Resolved r, s')
    /\ status r = failed
    /\ drop_off_step (metrics r) = Some "initialization"
    /\ findings r = [analysis_failed e']
    /\ score r = 0.
Proof.
  intros E0 ER EF EC.
  destruct (construct_fresh _ _ _ _ E0) as [F0 _].
  assert (St.findings s0 = []) as N0.
  { revert E0. unfold construct, new_Stagehand, call.
    destruct (date_now sh w) as [t w1]. st_simpl.
    destruct (sh_new sh w1) as [r' w2]. now intros [= _ <-]. }
  pose proof (wp_run _ _ _ _ _ ER (reach_discovery_spec js sh storeUrl s0 F0 N0))
    as [F3 [Q3 Q3']].
  pose proof (wp_run _ _ _ _ _ EF (find_product_throws js sh storeUrl s3 F3))
    as [F4 N4].
  set (s5 := St.set_dropOffStep "product_discovery"
               (St.push_findings [no_products e] s4)).
  assert (exists s1, navigate sh storeUrl s0 = (inr tt, s1)
                     /\ stages js sh storeUrl s1 = (inr tt, s5)) as (s1 & EN & ES).
  { revert ER. unfold reach_discovery, bind.
    destruct (navigate sh storeUrl s0) as [[? | []] s1]; [discriminate |].
    exists s1. split; [reflexivity |]. revert ER.
    unfold stages, product_discovery, bind, try_catch.
    destruct (homepage_analysis js sh s1) as [[? | []] sh1]; [discriminate |].
    intros ER. rewrite ER, EF.
    open_state s4 F4. destruct F4 as (-> & -> & -> & -> & H).
    unfold report, modify, add_to_cart, checkout, bind, get, whenM, ret.
    st_simpl. change (truthy_string (Some "product_discovery")) with true.
    cbv beta iota delta [negb andb]. reflexivity. }
  assert (sh_close sh (St.world s5) = (inl e', w')) as EC5 by exact EC.
  destruct (runAnalysis_close_throws w s0 s1 s5 e' w' E0 EN ES EC5) as [s' R].
  exists s1, s5. eexists _, s'.
  split; [exact EN |]. split; [exact ES |]. split; [reflexivity |].
  split.
  { unfold s5. st_simpl. rewrite filter_app, N4, Q3'. reflexivity. }
  split; [exact R |]. repeat split.
Qed.

End CloseThrows.

(* ===================================================================== *)
(** ** The properties on concrete runs *)

(** A run on a store where everything works and no rule fires reaches
    scoring, and scores 100. *)
Lemma score_of_completed_result_witness :
  exists r s',
    run smooth_store = (Resolved r, s')
    /\ status r = completed
    /\ 0 <= score r <= 100
    /\ 80 <= score r.
Proof.
  eexists ?[r], ?[s].
  assert (E : run smooth_store = (Resolved ?r, ?s)) by (vm_compute; reflexivity).
  split; [exact E |]. split; [reflexivity |].
  destruct (score_of_completed_result _ _ _ _ _ _ _ E) as (Hrange & Hc).
  split; [exact Hrange |].
  destruct (Hc eq_refl) as (_ & _ & H80).
  apply H80; reflexivity.
Defined.



(** C3, as stated: when the constructor of the agent throws, the promise
    rejects with what was thrown. *)
Lemma C3_counterexample :
  run no_agent
  = (Rejected (ErrorObject "missing API key"), St.initial 0 0)
  /\ ~ (forall sc, exists r s', run sc = (Resolved r, s')).
Proof.
  split; [reflexivity |].
  intros H. destruct (H no_agent) as (r & s' & E). discriminate E.
Qed.

Lemma C3_resolves_witness :
  exists s0 r s',
    construct (scripted no_session) 0 = (inr tt, s0)
    /\ run no_session = (Resolved r, s')
    /\ status r = failed
    /\ error r = Some "session refused".
Proof.
  pose (s0 := snd (construct (scripted no_session) 0)).
  assert (E0 : construct (scripted no_session) 0 = (inr tt, s0)) by reflexivity.
  destruct (C3_resolves ascii_builtins (scripted no_session)
              "https://shop.example" "run-1" 0 s0 E0) as (r & s' & R & _).
  exists s0, r, s'. split; [exact E0 |]. split; [exact R |].
  revert R. vm_compute. intros [= <- _]. split; reflexivity.
Defined.

Lemma C4_hasItems_witness :
  hasItems "cart icon shows 1 item, sepete eklendi" = true
  /\ includes "cart icon shows 1 item, sepete eklendi" (quoted "0") = false
  /\ includes "cart icon shows 1 item, sepete eklendi" "0 item" = false.
Proof.
  destruct C4_hasItems as (H & _).
  destruct (proj1 (H "cart icon shows 1 item, sepete eklendi") eq_refl)
    as ((H1 & H2 & _) & _).
  split; [reflexivity |]. split; assumption.
Defined.

Lemma C5_homepage_scenario_witness :
  includes "no search bar visible, navigation is clear" "search bar" = true
  /\ has_id "homepage-no-search"
       (homepage_findings "no search bar visible, navigation is clear") = false.
Proof.
  destruct C5_homepage_scenario as (_ & H & _).
  split; [reflexivity |]. apply H. left. reflexivity.
Defined.

Lemma C6_top_level_failure_witness :
  exists s0 w' r s',
    construct (scripted no_session) 0 = (inr tt, s0)
    /\ sh_init (scripted no_session) (St.world s0)
       = (inl (ErrorObject "session refused"), w')
    /\ run no_session = (Resolved r, s')
    /\ status r = failed /\ score r = 0
    /\ drop_off_step (metrics r) = Some "initialization"
    /\ error r = Some "session refused".
Proof.
  pose (s0 := snd (construct (scripted no_session) 0)).
  assert (E0 : construct (scripted no_session) 0 = (inr tt, s0)) by reflexivity.
  assert (E1 : sh_init (scripted no_session) (St.world s0)
               = (inl (ErrorObject "session refused"), 0)) by reflexivity.
  destruct (C6_top_level_failure ascii_builtins (scripted no_session)
              "https://shop.example" "run-1" 0 s0 _ E0
              (or_introl (ex_intro _ 0 E1)))
    as (r & s' & R & Hs & Hz & Hm & _ & _ & _ & He).
  exists s0, 0, r, s'. rewrite Hm. repeat split; assumption.
Defined.

Lemma stage_drop_off_when_session_closes_witness :
  exists s0 s3 e s4 w' r s',
    construct (scripted no_products_store) 0 = (inr tt, s0)
    /\ reach_discovery ascii_builtins (scripted no_products_store)
         "https://shop.example" s0 = (inr tt, s3)
    /\ find_product ascii_builtins (scripted no_products_store)
         "https://shop.example" s3 = (inl e, s4)
    /\ sh_close (scripted no_products_store) (St.world s4) = (inr tt, w')
    /\ run no_products_store = (Resolved r, s')
    /\ status r = completed
    /\ drop_off_step (metrics r) = Some "product_discovery"
    /\ findings r = [no_products (ErrorObject "page did not respond")].
Proof.
  pose (s0 := snd (construct (scripted no_products_store) 0)).
  pose (s3 := snd (reach_discovery ascii_builtins (scripted no_products_store)
                     "https://shop.example" s0)).
  pose (s4 := snd (find_product ascii_builtins (scripted no_products_store)
                     "https://shop.example" s3)).
  pose (e := ErrorObject "page did not respond").
  assert (E0 : construct (scripted no_products_store) 0 = (inr tt, s0))
    by reflexivity.
  assert (E1 : reach_discovery ascii_builtins (scripted no_products_store)
                 "https://shop.example" s0 = (inr tt, s3))
    by (vm_compute; reflexivity).
  assert (E2 : find_product ascii_builtins (scripted no_products_store)
                 "https://shop.example" s3 = (inl e, s4))
    by (vm_compute; reflexivity).
  assert (E3 : sh_close (scripted no_products_store) (St.world s4)
               = (inr tt, St.world s4))
    by reflexivity.
  destruct (stage_drop_off_when_session_closes ascii_builtins (scripted no_products_store)
              "https://shop.example" "run-1" 0) as (H & _).
  destruct (H s0 s3 e s4 (St.world s4) E0 E1 E2 E3) as (r & s' & R & Hs & Hd & _).
  exists s0, s3, e, s4, (St.world s4), r, s'. repeat split; try assumption.
  revert R. vm_compute. now intros [= <- _].
Defined.

Lemma C8_time_to_add_to_cart_witness :
  exists r s',
    run smooth_store = (Resolved r, s')
    /\ (forall t, St.addToCartTime s' = Some t -> St.startTime s' <= t)
    /\ add_to_cart_success (metrics r) = true
    /\ time_to_add_to_cart_seconds (metrics r) = Some 8
    /\ 0 <= 8.
Proof.
  eexists ?[r], ?[s].
  assert (E : run smooth_store = (Resolved ?r, ?s)) by (vm_compute; reflexivity).
  match type of E with
  | _ = (_, ?final) =>
      assert (C : forall t, St.addToCartTime final = Some t -> St.startTime final <= t)
        by (intros t [= <-]; vm_compute; discriminate)
  end.
  destruct (C8_time_to_add_to_cart _ _ _ _ _ _ _ E) as (Hiff & Hpos).
  split; [exact E |]. split; [exact C |].
  split; [apply Hiff; discriminate |].
  split; [reflexivity | exact (Hpos C 8 eq_refl)].
Defined.

(** C9.  On a store where every stage works and no rule fires, a [close]
    that throws is called twice, and turns the run that had scored 100
    into a failed result with score 0; with a [close] that returns, the
    same run is completed and [close] is called once. *)
Theorem C9_close_failure_masks_result :
  (exists r s',
     run close_fails_store = (Resolved r, s')
     /\ status r = failed /\ score r = 0
     /\ error r = Some "session already gone"
     /\ St.closes s' = 2%nat)
  /\ (exists r s',
        run smooth_store = (Resolved r, s')
        /\ status r = completed /\ score r = 100
        /\ St.closes s' = 1%nat).
Proof.
  split; eexists _, _; (split; [vm_compute; reflexivity |]); repeat split.
Qed.

(** A run whose add-to-cart and checkout succeeded and whose form was
    filled, failing at [close]: the result keeps the 18 timeline entries
    and reports none of the progress. *)
Lemma C10_failure_discards_progress_witness :
  exists s0 e s1 r s',
    construct (scripted close_fails_store) 0 = (inr tt, s0)
    /\ pipeline ascii_builtins (scripted close_fails_store)
         "https://shop.example" "run-1" s0 = (inl e, s1)
    /\ St.addToCartSuccess s1 = true
    /\ St.checkoutReached s1 = true
    /\ checkoutFormFilled_of (St.timeline s1) = true
    /\ run close_fails_store = (Resolved r, s')
    /\ drop_off_step (metrics r) = Some "initialization"
    /\ add_to_cart_success (metrics r) = false
    /\ checkout_reached (metrics r) = false
    /\ timeline r = St.timeline s1
    /\ List.length (timeline r) = 18%nat.
Proof.
  pose (s0 := snd (construct (scripted close_fails_store) 0)).
  pose (s1 := snd (pipeline ascii_builtins (scripted close_fails_store)
                     "https://shop.example" "run-1" s0)).
  pose (e := ErrorObject "session already gone").
  assert (E0 : construct (scripted close_fails_store) 0 = (inr tt, s0))
    by reflexivity.
  assert (E1 : pipeline ascii_builtins (scripted close_fails_store)
                 "https://shop.example" "run-1" s0 = (inl e, s1))
    by (vm_compute; reflexivity).
  destruct (C10_failure_discards_progress ascii_builtins (scripted close_fails_store)
              "https://shop.example" "run-1" 0 s0 e s1 E0 E1)
    as (r & s' & R & _ & Hd & Ha & _ & Hc & _ & Ht).
  exists s0, e, s1, r, s'.
  split; [exact E0 |]. split; [exact E1 |].
  split; [vm_compute; reflexivity |].
  split; [vm_compute; reflexivity |].
  split; [vm_compute; reflexivity |].
  split; [exact R |]. split; [exact Hd |]. split; [exact Ha |].
  split; [exact Hc |]. split; [exact Ht |].
  rewrite Ht. vm_compute. reflexivity.
Defined.

(** On a store where every stage works and no rule fires, scoring computes
    at least 80, and the [close] that throws leaves score 0. *)
Lemma C1_score_lost_when_close_throws_witness :
  exists s0 s1 s2 e w' r s',
    construct (scripted close_fails_store) 0 = (inr tt, s0)
    /\ navigate (scripted close_fails_store) "https://shop.example" s0 = (inr tt, s1)
    /\ stages ascii_builtins (scripted close_fails_store) "https://shop.example" s1
       = (inr tt, s2)
    /\ sh_close (scripted close_fails_store) (St.world s2) = (inl e, w')
    /\ St.addToCartSuccess s2 = true
    /\ St.checkoutReached s2 = true
    /\ checkoutFormFilled_of (St.timeline s2) = true
    /\ St.findings s2 = []
    /\ 80 <= score_at s2
    /\ run close_fails_store = (Resolved r, s')
    /\ status r = failed
    /\ score r = 0.
Proof.
  pose (s0 := snd (construct (scripted close_fails_store) 0)).
  pose (s1 := snd (navigate (scripted close_fails_store) "https://shop.example" s0)).
  pose (s2 := snd (stages ascii_builtins (scripted close_fails_store)
                     "https://shop.example" s1)).
  pose (e := ErrorObject "session already gone").
  assert (E0 : construct (scripted close_fails_store) 0 = (inr tt, s0)) by reflexivity.
  assert (EN : navigate (scripted close_fails_store) "https://shop.example" s0
               = (inr tt, s1)) by (vm_compute; reflexivity).
  assert (ES : stages ascii_builtins (scripted close_fails_store)
                 "https://shop.example" s1 = (inr tt, s2)) by (vm_compute; reflexivity).
  assert (EC : sh_close (scripted close_fails_store) (St.world s2)
               = (inl e, St.world s2)) by (vm_compute; reflexivity).
  pose proof (C1_score_lost_when_close_throws ascii_builtins
                (scripted close_fails_store) "https://shop.example" "run-1"
                0 s0 s1 s2 e (St.world s2) E0 EN ES EC) as H.
  cbv zeta in H. destruct H as (_ & H80 & r & s' & R & Hst & Hsc).
  exists s0, s1, s2, e, (St.world s2), r, s'.
  split; [exact E0 |]. split; [exact EN |]. split; [exact ES |]. split; [exact EC |].
  split; [vm_compute; reflexivity |].
  split; [vm_compute; reflexivity |].
  split; [vm_compute; reflexivity |].
  split; [vm_compute; reflexivity |].
  split.
  { apply H80; vm_compute; reflexivity. }
  split; [exact R |]. split; [exact Hst | exact Hsc].
Defined.

(** On a store whose first observation of product discovery fails and
    whose [close] throws, the drop-off is recorded and the run returns the
    failed result. *)
Lemma C7_drop_off_lost_when_close_throws_witness :
  exists s0 s3 e s4 e' w' (s2 : St.t Z) r s',
    construct (scripted no_products_close_fails_store) 0 = (inr tt, s0)
    /\ reach_discovery ascii_builtins (scripted no_products_close_fails_store)
         "https://shop.example" s0 = (inr tt, s3)
    /\ find_product ascii_builtins (scripted no_products_close_fails_store)
         "https://shop.example" s3 = (inl e, s4)
    /\ sh_close (scripted no_products_close_fails_store) (St.world s4) = (inl e', w')
    /\ St.dropOffStep s2 = Some "product_discovery"
    /\ run no_products_close_fails_store = (Resolved r, s')
    /\ status r = failed
    /\ drop_off_step (metrics r) = Some "initialization"
    /\ findings r = [analysis_failed e'].
Proof.
  pose (s0 := snd (construct (scripted no_products_close_fails_store) 0)).
  pose (s3 := snd (reach_discovery ascii_builtins
                     (scripted no_products_close_fails_store)
                     "https://shop.example" s0)).
  pose (s4 := snd (find_product ascii_builtins
                     (scripted no_products_close_fails_store)
                     "https://shop.example" s3)).
  pose (e := ErrorObject "page did not respond").
  pose (e' := ErrorObject "session already gone").
  assert (E0 : construct (scripted no_products_close_fails_store) 0 = (inr tt, s0))
    by reflexivity.
  assert (ER : reach_discovery ascii_builtins (scripted no_products_close_fails_store)
                 "https://shop.example" s0 = (inr tt, s3)) by (vm_compute; reflexivity).
  assert (EF : find_product ascii_builtins (scripted no_products_close_fails_store)
                 "https://shop.example" s3 = (inl e, s4)) by (vm_compute; reflexivity).
  assert (EC : sh_close (scripted no_products_close_fails_store) (St.world s4)
               = (inl e', St.world s4)) by (vm_compute; reflexivity).
  destruct (C7_drop_off_lost_when_close_throws ascii_builtins
              (scripted no_products_close_fails_store) "https://shop.example" "run-1"
              0 s0 s3 e s4 e' (St.world s4) E0 ER EF EC)
    as (s1 & s2 & r & s' & _ & _ & Hd & _ & R & Hst & Hdo & Hf & _).
  exists s0, s3, e, s4, e', (St.world s4), s2, r, s'.
  split; [exact E0 |]. split; [exact ER |]. split; [exact EF |]. split; [exact EC |].
  split; [exact Hd |]. split; [exact R |]. split; [exact Hst |].
  split; [exact Hdo | exact Hf].
Defined.

(** C8, as stated: on a clock that is set back during the run, the
    product is added to the cart and the seconds to add-to-cart are
    negative. *)
Lemma C8_counterexample :
  exists r s',
    runAnalysis ascii_builtins clock_steps_back "https://shop.example" "run-1" 0
    = (Resolved r, s')
    /\ add_to_cart_success (metrics r) = true
    /\ time_to_add_to_cart_seconds (metrics r) = Some (-7)
    /\ ~ (forall seconds,
            time_to_add_to_cart_seconds (metrics r) = Some seconds -> 0 <= seconds).
Proof.
  eexists _, _. split; [vm_compute; reflexivity |].
  split; [reflexivity |]. split; [reflexivity |].
  intros H. specialize (H (-7) eq_refl). lia.
Qed.

(** The form is filled and recorded, then the observation of the checkout
    page throws: the form counts as filled, with the warning of the form
    filling that failed. *)
Example form_filled_then_observation_fails :
  exists r s',
    run checkout_ux_blocked_store = (Resolved r, s')
    /\ status r = completed
    /\ checkout_form_filled (metrics r) = true
    /\ drop_off_step (metrics r) = None
    /\ has_id "checkout-form-issues" (findings r) = true.
Proof.
  eexists _, _. split; [vm_compute; reflexivity |]. repeat split.
Qed.

(* ===================================================================== *)
(** ** Subsequences *)

Section SubseqFacts.

Context {A : Type}.
Implicit Types l r : list A.

Lemma Subseq_nil_l r : Subseq [] r.
Proof. induction r; constructor; assumption. Qed.

Lemma Subseq_refl l : Subseq l l.
Proof. induction l; constructor; assumption. Qed.

Lemma Subseq_app l1 r1 l2 r2 :
  Subseq l1 r1 -> Subseq l2 r2 -> Subseq (l1 ++ l2) (r1 ++ r2).
Proof.
  intros H1 H2. induction H1; cbn [app]; try constructor; assumption.
Qed.

Lemma Subseq_app_l l r r' : Subseq l r -> Subseq l (r ++ r').
Proof.
  intros H. rewrite <- (app_nil_r l). apply Subseq_app; [exact H | apply Subseq_nil_l].
Qed.

Lemma Subseq_app_r l r r' : Subseq l r -> Subseq l (r' ++ r).
Proof.
  intros H. change l with ([] ++ l)%list. apply Subseq_app; [apply Subseq_nil_l | exact H].
Qed.

Lemma Subseq_trans l m r : Subseq l m -> Subseq m r -> Subseq l r.
Proof.
  intros H1 H2. revert l H1.
  induction H2 as [| y m r _ IH | y m r _ IH]; intros l H1.
  - exact H1.
  - apply Subseq_skip. auto.
  - inversion H1; subst; [apply Subseq_skip | apply Subseq_take]; auto.
Qed.

Lemma Subseq_In l r x : Subseq l r -> In x l -> In x r.
Proof.
  induction 1 as [| y l r _ IH | y l r _ IH]; cbn [In]; intuition.
Qed.

Lemma Subseq_NoDup l r : Subseq l r -> NoDup r -> NoDup l.
Proof.
  induction 1 as [| y l r H IH | y l r H IH]; intros N.
  - constructor.
  - inversion N; subst. auto.
  - inversion N as [| ? ? Hy Nr]; subst. constructor; [| auto].
    intros Hin. apply Hy. eapply Subseq_In; eauto.
Qed.

End SubseqFacts.

Lemma subseqb_sound l r : subseqb l r = true -> Subseq l r.
Proof.
  revert l. induction r as [| y r IH]; intros [| x l]; cbn [subseqb]; intros H.
  - constructor.
  - discriminate.
  - apply Subseq_nil_l.
  - destruct (String.eqb_spec x y) as [-> | _].
    + apply Subseq_take, IH, H.
    + apply Subseq_skip, IH, H.
Qed.

Lemma distinctb_sound l : distinctb l = true -> NoDup l.
Proof.
  induction l as [| x l IH]; cbn [distinctb]; intros H; constructor.
  - apply andb_true_iff in H. destruct H as [H _].
    intros Hin. apply negb_true_iff in H.
    assert (existsb (String.eqb x) l = true) as E; [| congruence].
    apply existsb_exists. exists x. split; [exact Hin | apply String.eqb_refl].
  - apply IH. apply andb_true_iff in H. apply H.
Qed.

Lemma finding_ids_distinct : NoDup finding_ids_in_order.
Proof. apply distinctb_sound. vm_compute. reflexivity. Qed.

Lemma timeline_actions_distinct : NoDup timeline_actions_in_order.
Proof. apply distinctb_sound. vm_compute. reflexivity. Qed.

(* ===================================================================== *)
(** ** The rule sets report their findings in a fixed order *)

Lemma when_ids b f (l : list Finding) r :
  Subseq (map id l) r -> Subseq (map id (when b f ++ l)) (id f :: r).
Proof.
  intros H. destruct b; cbn [when app map]; constructor; exact H.
Qed.

Lemma when_id b f r : Subseq (map id (when b f)) (id f :: r).
Proof.
  destruct b; cbn [when map]; constructor; apply Subseq_nil_l.
Qed.

Lemma segment_ids (x l : list Finding) i r :
  Subseq (map id x) [i] -> Subseq (map id l) r ->
  Subseq (map id (x ++ l)) (i :: r).
Proof.
  intros Hx Hl. rewrite map_app. apply (Subseq_app _ [i] _ r Hx Hl).
Qed.

Ltac rules_in_order :=
  repeat lazymatch goal with
  | |- Subseq (map id (when ?b ?f ++ ?l)) _ => apply (when_ids b f l)
  | |- Subseq (map id (when ?b ?f)) _ => apply (when_id b f)
  | |- Subseq (map id (?x ++ ?l)) _ => apply (segment_ids x l)
  end.

Lemma homepage_findings_ids str :
  Subseq (map id (homepage_findings str)) homepage_ids.
Proof. unfold homepage_findings. rules_in_order. Qed.

Lemma product_page_findings_ids str :
  Subseq (map id (product_page_findings str)) product_page_ids.
Proof.
  unfold product_page_findings. rules_in_order.
  repeat match goal with
         | |- context [if ?b then _ else _] => destruct b
         end; apply subseqb_sound; reflexivity.
Qed.

Lemma cart_experience_findings_ids str :
  Subseq (map id (cart_experience_findings str)) cart_experience_ids.
Proof. unfold cart_experience_findings. rules_in_order. Qed.

Lemma checkout_findings_ids js str :
  Subseq (map id (checkout_findings js str)) checkout_ids.
Proof.
  unfold checkout_findings. cbv zeta. rules_in_order.
  destruct (field_match str) as [n |]; [apply (when_id _ (checkout_too_many_fields js n)) |].
  apply Subseq_nil_l.
Qed.

Lemma add_to_cart_diagnosis_id js c f :
  In (id (add_to_cart_diagnosis js c f)) add_to_cart_problem_ids.
Proof.
  unfold add_to_cart_diagnosis.
  repeat match goal with
         | |- context [if ?b then _ else _] => destruct b
         end; cbn; tauto.
Qed.

Lemma add_to_cart_diagnosis_category js c f :
  category (add_to_cart_diagnosis js c f) = critical
  \/ category (add_to_cart_diagnosis js c f) = warning.
Proof.
  unfold add_to_cart_diagnosis.
  repeat match goal with
         | |- context [if ?b then _ else _] => destruct b
         end; cbn; tauto.
Qed.

Lemma add_to_cart_diagnosis_ids js c f :
  Subseq [id (add_to_cart_diagnosis js c f)] add_to_cart_problem_ids.
Proof.
  unfold add_to_cart_diagnosis.
  repeat match goal with
         | |- context [if ?b then _ else _] => destruct b
         end; apply subseqb_sound; reflexivity.
Qed.

Lemma positive_findings_ids {W} js (s : St.t W) filled :
  Subseq (map id (positive_findings js s filled)) positive_ids.
Proof.
  unfold positive_findings, when.
  destruct (St.addToCartSuccess s), (St.timeToAddToCart s) as [n |],
    (St.checkoutReached s), filled;
    try destruct (truthy_number (Some n) && (n <? 30));
    apply subseqb_sound; reflexivity.
Qed.

(* ===================================================================== *)
(** ** What the stages append *)

Section GrowsFacts.

Context {W : Type}.
Implicit Types s : St.t W.

Lemma grows_trans ids1 acts1 ids2 acts2 s0 s1 s2 :
  grows ids1 acts1 s0 s1 -> grows ids2 acts2 s1 s2 ->
  grows (ids1 ++ ids2) (acts1 ++ acts2) s0 s2.
Proof.
  intros (f1 & t1 & F1 & T1 & I1 & A1 & S1) (f2 & t2 & F2 & T2 & I2 & A2 & S2).
  exists (f1 ++ f2)%list, (t1 ++ t2)%list.
  rewrite F2, F1, T2, T1, <- !app_assoc, !map_app.
  split; [reflexivity |]. split; [reflexivity |].
  split; [now apply Subseq_app |]. split; [now apply Subseq_app |].
  apply Forall_app. now split.
Qed.

Lemma grows_weaken (ids ids' acts acts' : list string) s s' :
  Subseq ids ids' -> Subseq acts acts' ->
  grows ids acts s s' -> grows ids' acts' s s'.
Proof.
  intros Hi Ha (fs & tl & F & T & I & A & S).
  exists fs, tl. split; [exact F |]. split; [exact T |].
  split; [eapply Subseq_trans; eauto |]. split; [eapply Subseq_trans; eauto | exact S].
Qed.

Lemma grows_from_empty ids acts s s' :
  St.findings s = [] -> St.timeline s = [] -> grows ids acts s s' ->
  Subseq (map id (St.findings s')) ids
  /\ Subseq (map action (St.timeline s')) acts
  /\ Forall (fun ev => success ev = true) (St.timeline s').
Proof.
  intros F0 T0 (fs & tl & F & T & I & A & S).
  rewrite F, T, F0, T0. cbn [app]. auto.
Qed.

End GrowsFacts.

(** A leaf: the findings and the timeline are those of the start with
    lists appended, which are read off and checked. *)
Ltac ids_ok :=
  first
    [ apply Subseq_nil_l
    | solve [ eauto 4 using Subseq_app_l, Subseq_app_r, homepage_findings_ids,
                product_page_findings_ids, cart_experience_findings_ids,
                checkout_findings_ids, add_to_cart_diagnosis_ids,
                positive_findings_ids ]
    | cbn; apply subseqb_sound; vm_compute; reflexivity ].

Ltac grows_leaf :=
  unfold grows; st_simpl; rewrite <- ?app_assoc;
  eexists; eexists;
  (split; [first [reflexivity | symmetry; apply app_nil_r] |]);
  (split; [first [reflexivity | symmetry; apply app_nil_r] |]);
  (split; [ids_ok |]);
  (split; [first [apply Subseq_nil_l
                 | cbn [map action app]; apply subseqb_sound; vm_compute; reflexivity]
          | cbn [app]; repeat constructor]).

Section StageOrder.

Context {W : Type}.
Variable js : Builtins.
Variable sh : Stagehand W.
Variables storeUrl runId : string.
Implicit Types s : St.t W.

Lemma navigate_grows s :
  wp (navigate sh storeUrl) (fun _ s' => grows [] navigate_actions s s') s.
Proof. unfold navigate. repeat wp_step; grows_leaf. Qed.

Lemma homepage_analysis_grows s :
  wp (homepage_analysis js sh)
     (fun _ s' => grows homepage_ids homepage_actions s s') s.
Proof. unfold homepage_analysis. repeat wp_step; grows_leaf. Qed.

Lemma product_discovery_grows s :
  wp (product_discovery js sh storeUrl)
     (fun _ s' => grows discovery_ids discovery_actions s s') s.
Proof.
  unfold product_discovery, find_product, product_page_analysis, discovery_ids.
  repeat wp_step; grows_leaf.
Qed.

Lemma add_to_cart_grows s :
  wp (add_to_cart js sh)
     (fun _ s' => grows add_to_cart_ids add_to_cart_actions s s') s.
Proof.
  unfold add_to_cart, try_add_to_cart, variant_retries, cart_experience_analysis,
    add_to_cart_ids.
  repeat wp_step; grows_leaf.
Qed.

Lemma checkout_grows s :
  wp (checkout js sh)
     (fun _ s' => grows checkout_stage_ids checkout_actions s s') s.
Proof.
  unfold checkout, reach_checkout, fill_checkout_form, checkout_stage_ids.
  repeat wp_step; grows_leaf.
Qed.

Lemma stages_grows s :
  wp (stages js sh storeUrl)
     (fun _ s' => grows stage_finding_ids stage_actions s s') s.
Proof.
  unfold stages.
  pose proof (grows_weaken (W := W)) as weak.
  apply wp_bind. eapply wp_mono; [apply homepage_analysis_grows |].
  intros r1 s1 G1. cbv beta.
  assert (wp (bind (product_discovery js sh storeUrl)
                (fun _ => bind (add_to_cart js sh) (fun _ => checkout js sh)))
            (fun _ s' => grows (discovery_ids ++ add_to_cart_ids ++ checkout_stage_ids)
                           (discovery_actions ++ add_to_cart_actions ++ checkout_actions)
                           s1 s') s1) as Rest.
  { apply wp_bind. eapply wp_mono; [apply product_discovery_grows |].
    intros r2 s2 G2. cbv beta.
    assert (wp (bind (add_to_cart js sh) (fun _ => checkout js sh))
              (fun _ s' => grows (add_to_cart_ids ++ checkout_stage_ids)
                             (add_to_cart_actions ++ checkout_actions) s2 s') s2) as Rest.
    { apply wp_bind. eapply wp_mono; [apply add_to_cart_grows |].
      intros r3 s3 G3. cbv beta.
      destruct r3 as [e | []].
      - eapply weak; [| | exact G3]; apply Subseq_app_l, Subseq_refl.
      - eapply wp_mono; [apply checkout_grows |].
        intros r4 s4 G4. exact (grows_trans _ _ _ _ _ _ _ G3 G4). }
    destruct r2 as [e | []].
    - eapply weak; [| | exact G2]; apply Subseq_app_l, Subseq_refl.
    - eapply wp_mono; [exact Rest |].
      intros r s' G. exact (grows_trans _ _ _ _ _ _ _ G2 G). }
  destruct r1 as [e | []].
  - eapply weak; [| | exact G1]; apply Subseq_app_l, Subseq_refl.
  - eapply wp_mono; [exact Rest |].
    intros r s' G. exact (grows_trans _ _ _ _ _ _ _ G1 G).
Qed.

Lemma finish_grows s :
  wp (finish js sh storeUrl runId) (fun _ s' => grows positive_ids [] s s') s.
Proof. unfold finish. repeat wp_step; grows_leaf. Qed.

(** The body of the outermost [try], however it ends. *)
Lemma pipeline_grows s :
  wp (pipeline js sh storeUrl runId)
     (fun _ s' => grows (stage_finding_ids ++ positive_ids)
                    timeline_actions_in_order s s') s.
Proof.
  unfold pipeline.
  pose proof (grows_weaken (W := W)) as weak.
  apply wp_bind. eapply wp_mono; [apply navigate_grows |].
  intros r1 s1 G1. cbv beta.
  destruct r1 as [e | []].
  { eapply weak; [| | exact G1]; [apply Subseq_nil_l | apply Subseq_app_l, Subseq_refl]. }
  apply wp_bind. eapply wp_mono; [apply stages_grows |].
  intros r2 s2 G2. cbv beta.
  pose proof (grows_trans _ _ _ _ _ _ _ G1 G2) as G12. cbn [app] in G12.
  destruct r2 as [e | []].
  { eapply weak; [| | exact G12]; [apply Subseq_app_l | ]; apply Subseq_refl. }
  eapply wp_mono; [apply finish_grows |].
  intros r3 s3 G3.
  pose proof (grows_trans _ _ _ _ _ _ _ G12 G3) as G.
  rewrite app_nil_r in G. exact G.
Qed.

End StageOrder.

(* ===================================================================== *)
(** ** A drop-off step is set together with its finding *)

Lemma no_products_blamed e : blames "product_discovery" (no_products e).
Proof. right. left. repeat split. Qed.

Lemma add_to_cart_diagnosis_blamed js c f :
  blames "add_to_cart" (add_to_cart_diagnosis js c f).
Proof.
  right. right. left. split; [reflexivity |].
  split; [apply add_to_cart_diagnosis_id | apply add_to_cart_diagnosis_category].
Qed.

Lemma add_to_cart_failed_blamed e : blames "add_to_cart" (add_to_cart_failed e).
Proof.
  right. right. left. split; [reflexivity |]. split; [cbn; tauto | left; reflexivity].
Qed.

Lemma checkout_failed_blamed e : blames "checkout_navigation" (checkout_failed e).
Proof. right. right. right. repeat split. Qed.

Lemma analysis_failed_blamed e : blames "initialization" (analysis_failed e).
Proof. left. repeat split. Qed.

(** The step a finding is blamed for is one of four. *)
Lemma blames_step step f :
  blames step f ->
  In step ["initialization"; "product_discovery"; "add_to_cart"; "checkout_navigation"].
Proof. intros [H | [H | [H | H]]]; destruct H as [-> _]; cbn; tauto. Qed.

Lemma blames_severe step f :
  blames step f -> category f = critical \/ category f = warning.
Proof. intros [H | [H | [H | H]]]; destruct H as (_ & _ & H); tauto. Qed.

Lemma blames_critical step f :
  blames step f -> step <> "add_to_cart" -> category f = critical.
Proof.
  intros [H | [H | [H | H]]] N; destruct H as (E & _ & H); try exact H.
  contradiction.
Qed.

(** A leaf: the drop-off is the one of the start, with findings appended,
    or a new one whose finding was appended last. *)
Ltac explained_leaf :=
  unfold returns, explained in *; st_simpl;
  first
    [ exact I
    | eexists; split; [apply in_or_app; right; left; reflexivity |];
      split; [first [ apply no_products_blamed | apply add_to_cart_diagnosis_blamed
                    | apply add_to_cart_failed_blamed | apply checkout_failed_blamed ]
             | reflexivity ]
    | match goal with
      | H : exists f, _ |- _ =>
          let f := fresh "f" in
          let Hin := fresh in
          let Hb := fresh in
          let Ha := fresh in
          destruct H as (f & Hin & Hb & Ha);
          exists f; split; [rewrite ?in_app_iff; tauto | split; [exact Hb | exact Ha]]
      end ].

Section StageDropOff.

Context {W : Type}.
Variable js : Builtins.
Variable sh : Stagehand W.
Variables storeUrl runId : string.
Implicit Types s : St.t W.

Lemma wp_conj {A} (m : M A) (Q1 Q2 : Thrown + A -> St.t W -> Prop) s :
  wp m Q1 s -> wp m Q2 s -> wp m (fun r s' => Q1 r s' /\ Q2 r s') s.
Proof. unfold wp. auto. Qed.

Lemma product_discovery_explained s :
  Fresh s ->
  wp (product_discovery js sh storeUrl) (fun _ s' => explained s') s.
Proof.
  intros H. open_state s H. destruct H as (-> & -> & -> & -> & H).
  unfold product_discovery, find_product, product_page_analysis.
  repeat wp_step; explained_leaf.
Qed.

Lemma add_to_cart_explained s :
  Discovered s -> explained s ->
  wp (add_to_cart js sh) (fun _ s' => explained s') s.
Proof.
  intros H X. open_state s H. destruct H as (-> & -> & -> & H & Hd).
  unfold add_to_cart, try_add_to_cart, variant_retries, cart_experience_analysis.
  destruct Hd as [-> | Hd].
  - repeat wp_step; explained_leaf.
  - apply wp_bind, wp_get; cbv beta iota; st_simpl. rewrite Hd.
    repeat wp_step. destruct dos as [step |]; explained_leaf.
Qed.

Lemma checkout_explained s :
  Added s -> explained s ->
  wp (checkout js sh) (fun _ s' => explained s') s.
Proof.
  intros H X. open_state s H. destruct H as (-> & H & Ht & Hd).
  unfold checkout, reach_checkout, fill_checkout_form.
  destruct atc.
  - subst dos. repeat wp_step; explained_leaf.
  - apply wp_bind, wp_get; cbv beta iota. repeat wp_step.
    destruct dos as [step |]; explained_leaf.
Qed.

(** After the stages the drop-off, if any, is explained. *)
Lemma stages_explained s :
  Fresh s ->
  wp (stages js sh storeUrl) (returns (fun s' => Done s' /\ explained s')) s.
Proof.
  intros H. unfold stages.
  apply wp_bind. eapply wp_mono; [apply homepage_analysis_spec, H |].
  intros [e | []] s1; [intros [] | intros [H1 _]].
  apply wp_bind.
  eapply wp_mono;
    [apply wp_conj; [apply product_discovery_spec, H1
                    | apply product_discovery_explained, H1] |].
  intros [e | []] s2; [intros [[] _] | intros [[H2 _] X2]].
  apply wp_bind.
  eapply wp_mono;
    [apply wp_conj; [apply add_to_cart_spec, H2
                    | apply add_to_cart_explained; [exact H2 | exact X2]] |].
  intros [e | []] s3; [intros [[] _] | intros [[H3 _] X3]].
  eapply wp_mono;
    [apply wp_conj; [apply checkout_spec, H3
                    | apply checkout_explained; [exact H3 | exact X3]] |].
  intros [e | []] s4; [intros [[] _] | intros [[H4 _] X4]].
  split; assumption.
Qed.

End StageDropOff.

(* ===================================================================== *)
(** ** Every result of a run *)

Lemma count_category_In c f fs :
  In f fs -> category f = c -> 1 <= count_category c fs.
Proof.
  intros Hin Hc. unfold count_category.
  assert (In f (filter (fun f => Category_eqb (category f) c) fs)) as H.
  { apply filter_In. split; [exact Hin |]. rewrite Hc. now destruct c. }
  destruct (filter _ fs); [destruct H | cbn [List.length]; lia].
Qed.

Lemma has_id_app i fs gs : has_id i (fs ++ gs) = has_id i fs || has_id i gs.
Proof. apply existsb_app. Qed.

Lemma has_id_In i fs : has_id i fs = true <-> In i (map id fs).
Proof.
  unfold has_id. rewrite existsb_exists, in_map_iff.
  split; intros (f & H1 & H2).
  - exists f. split; [now apply String.eqb_eq | exact H1].
  - exists f. split; [exact H2 | now apply String.eqb_eq].
Qed.

Lemma has_id_outside i fs ids :
  Subseq (map id fs) ids -> existsb (String.eqb i) ids = false -> has_id i fs = false.
Proof.
  intros S N. destruct (has_id i fs) eqn:E; [| reflexivity].
  apply has_id_In in E. apply (Subseq_In _ _ _ S) in E.
  assert (existsb (String.eqb i) ids = true) as T; [| congruence].
  apply existsb_exists. exists i. split; [exact E | apply String.eqb_refl].
Qed.

Section EveryResult.

Context {W : Type}.
Variable js : Builtins.
Variable sh : Stagehand W.
Variables storeUrl runId : string.
Implicit Types s : St.t W.

Lemma construct_empty (w : W) r s0 :
  construct sh w = (r, s0) -> St.findings s0 = [] /\ St.timeline s0 = [].
Proof.
  unfold construct, new_Stagehand, call.
  destruct (date_now sh w) as [t w1]. st_simpl.
  destruct (sh_new sh w1) as [r' w2]. intros [= <- <-].
  split; reflexivity.
Qed.

(** What is known of a resolved run: the object of the outermost [catch]
    over an ordered timeline, or the object built after the stages, from
    variables that are ordered and explained. *)
Lemma resolved_inv (w : W) r s' :
  runAnalysis js sh storeUrl runId w = (Resolved r, s') ->
  (exists e s1,
     r = failed_result storeUrl runId e s1
     /\ Subseq (map action (St.timeline s1)) timeline_actions_in_order
     /\ Forall (fun ev => success ev = true) (St.timeline s1))
  \/ (exists s2,
        r = completed_result storeUrl runId (score_at s2)
              (checkoutFormFilled_of (St.timeline s2)) (scored js s2)
        /\ Done s2 /\ explained s2
        /\ Subseq (map id (St.findings s2)) stage_finding_ids
        /\ Subseq (map action (St.timeline s2)) timeline_actions_in_order
        /\ Forall (fun ev => success ev = true) (St.timeline s2)).
Proof.
  intros R. apply runAnalysis_resolved in R.
  destruct R as (s0 & E0 & [(e & s1 & E1 & _ & ->)
                            | (s1 & s2 & EN & ES & _ & D2 & _ & _ & ->)]).
  - left. exists e, s1. split; [reflexivity |].
    destruct (construct_empty _ _ _ E0) as [F0 T0].
    pose proof (wp_run _ _ _ _ _ E1 (pipeline_grows js sh storeUrl runId s0)) as G.
    cbv beta in G. apply (grows_from_empty _ _ _ _ F0 T0) in G.
    split; apply G.
  - right. exists s2. split; [reflexivity |]. split; [exact D2 |].
    destruct (construct_fresh _ _ _ _ E0) as [F0 _].
    destruct (construct_empty _ _ _ E0) as [Fe Te].
    pose proof (wp_run _ _ _ _ _ EN (navigate_spec sh storeUrl s0 F0)) as N.
    cbv beta iota in N. destruct N as (_ & _ & F1).
    pose proof (wp_run _ _ _ _ _ ES (stages_explained js sh storeUrl s1 F1)) as X.
    cbn [returns] in X. destruct X as [_ X].
    split; [exact X |].
    pose proof (wp_run _ _ _ _ _ EN (navigate_grows sh storeUrl s0)) as G1.
    pose proof (wp_run _ _ _ _ _ ES (stages_grows js sh storeUrl s1)) as G2.
    cbv beta in G1, G2.
    pose proof (grows_trans _ _ _ _ _ _ _ G1 G2) as G. cbn [app] in G.
    apply (grows_from_empty _ _ _ _ Fe Te) in G. exact G.
Qed.

Lemma resolved_ids (w : W) r s' :
  runAnalysis js sh storeUrl runId w = (Resolved r, s') ->
  run_id r = runId /\ store_url r = storeUrl.
Proof.
  intros R. apply resolved_inv in R.
  destruct R as [(e & s1 & -> & _) | (s2 & -> & _)]; split; reflexivity.
Qed.

(** After the stages: the flags that go with each drop-off step. *)
Lemma drop_off_flags s step :
  Done s -> explained s -> St.dropOffStep s = Some step ->
  Subseq (map id (St.findings s)) stage_finding_ids ->
  St.checkoutReached s = false
  /\ checkoutFormFilled_of (St.timeline s) = false
  /\ St.addToCartSuccess s = String.eqb step "checkout_navigation"
  /\ In step ["product_discovery"; "add_to_cart"; "checkout_navigation"]
  /\ exists f, In f (St.findings s) /\ blames step f.
Proof.
  intros (_ & D) X E O. unfold explained in X. rewrite E in X.
  destruct X as (f & Hin & Hb & Ha).
  destruct D as [(_ & N & _) | (C & _ & NF)]; [congruence |].
  split; [exact C |]. split; [exact NF |]. split; [exact Ha |].
  split; [| now exists f].
  pose proof (blames_step _ _ Hb) as S. cbn [In] in S |- *.
  destruct S as [<- | S]; [| tauto].
  exfalso. destruct Hb as [(_ & I & _) | [(D & _) | [(D & _) | (D & _)]]];
    try discriminate D.
  assert (In "analysis-failed" (map id (St.findings s))) as Hid.
  { rewrite <- I. now apply in_map. }
  apply (Subseq_In _ _ _ O) in Hid. cbn in Hid.
  repeat (destruct Hid as [Hid | Hid]; [discriminate Hid |]). exact Hid.
Qed.

End EveryResult.

(* ===================================================================== *)
(** ** Properties of every result *)

Lemma score_colour_red n : n < 40 -> score_colour (Some n) = red.
Proof.
  intros H. unfold score_colour.
  destruct (Z.leb_spec 70 n); [lia |]. destruct (Z.leb_spec 40 n); [lia | reflexivity].
Qed.

Lemma score_colour_not_green n : n < 70 -> score_colour (Some n) <> green.
Proof.
  intros H. unfold score_colour.
  destruct (Z.leb_spec 70 n); [lia |]. destruct (Z.leb_spec 40 n); discriminate.
Qed.

Lemma score_colour_not_red n : 40 <= n -> score_colour (Some n) <> red.
Proof.
  intros H. unfold score_colour.
  destruct (Z.leb_spec 70 n); [discriminate |].
  destruct (Z.leb_spec 40 n); [discriminate | lia].
Qed.

(** The score of a run that dropped off, from the finding blamed. *)
Lemma score_dropped atc fs step f :
  In f fs -> blames step f ->
  compute_score atc false false fs
  <= 20 * b2z atc + (if String.eqb step "add_to_cart" then 32 else 25).
Proof.
  intros Hin Hb. rewrite compute_score_spec.
  unfold spec_score, clamp, funnel_component, ux_component.
  pose proof (count_category_nonneg critical fs).
  pose proof (count_category_nonneg warning fs).
  pose proof (count_category_nonneg suggestion fs).
  destruct (String.eqb_spec step "add_to_cart") as [-> | N].
  - destruct (blames_severe _ _ Hb) as [C | C];
      pose proof (count_category_In _ _ _ Hin C); destruct atc; cbn [b2z]; lia.
  - pose proof (count_category_In _ _ _ Hin (blames_critical _ _ Hb N)).
    destruct atc; cbn [b2z]; lia.
Qed.

Section Extras.

Context {W : Type}.
Variable js : Builtins.
Variable sh : Stagehand W.
Variables storeUrl runId : string.
Implicit Types s : St.t W.

(** X1.  The ids of the findings of a result follow one fixed order, that
    of the rule sets in the source (homepage, product page, [no-products],
    cart experience, the add-to-cart problems, checkout, the positive
    findings, [analysis-failed]), with ids left out but none moved; so no
    two findings of a result have the same id. *)
Theorem findings_in_order (w : W) r s' :
  runAnalysis js sh storeUrl runId w = (Resolved r, s') ->
  Subseq (map id (findings r)) finding_ids_in_order
  /\ NoDup (map id (findings r)).
Proof.
  intros R.
  assert (Subseq (map id (findings r)) finding_ids_in_order) as S.
  { apply resolved_inv in R.
    destruct R as [(e & s1 & -> & _) | (s2 & -> & _ & _ & O & _)].
    - apply subseqb_sound. reflexivity.
    - cbn [findings completed_result]. unfold scored. st_simpl.
      rewrite map_app. unfold finding_ids_in_order. rewrite app_assoc.
      apply Subseq_app_l, Subseq_app; [exact O | apply positive_findings_ids]. }
  split; [exact S | exact (Subseq_NoDup _ _ S finding_ids_distinct)].
Qed.

(** X2.  The actions of the timeline of a result, failed or completed,
    follow the order of the steps in the source, from "Navigate to store"
    to "Analyzed checkout page for UX issues", with steps left out but
    none moved or repeated. *)
Theorem timeline_in_order (w : W) r s' :
  runAnalysis js sh storeUrl runId w = (Resolved r, s') ->
  Subseq (map action (timeline r)) timeline_actions_in_order
  /\ NoDup (map action (timeline r)).
Proof.
  intros R.
  assert (Subseq (map action (timeline r)) timeline_actions_in_order) as S.
  { apply resolved_inv in R.
    destruct R as [(e & s1 & -> & O & _) | (s2 & -> & _ & _ & _ & O & _)];
      exact O. }
  split; [exact S | exact (Subseq_NoDup _ _ S timeline_actions_distinct)].
Qed.

(** X3.  No entry of the timeline of a result is marked as failed, not
    even in a failed result: every dot of the activity timeline of the
    run page is green. *)
Theorem timeline_all_successful (w : W) r s' :
  runAnalysis js sh storeUrl runId w = (Resolved r, s') ->
  Forall (fun ev => success ev = true /\ event_colour ev = green) (timeline r).
Proof.
  intros R. apply resolved_inv in R.
  assert (Forall (fun ev => success ev = true) (timeline r)) as F.
  { destruct R as [(e & s1 & -> & _ & F) | (s2 & -> & _ & _ & _ & _ & F)];
      exact F. }
  eapply Forall_impl; [| exact F].
  intros ev H. split; [exact H |]. unfold event_colour. now rewrite H.
Qed.

(** X4.  The funnel of a result is monotone: the checkout form is filled
    only if the checkout was reached, and the checkout is reached only if
    the product was added to the cart. *)
Theorem funnel_monotone (w : W) r s' :
  runAnalysis js sh storeUrl runId w = (Resolved r, s') ->
  (checkout_form_filled (metrics r) = true -> checkout_reached (metrics r) = true)
  /\ (checkout_reached (metrics r) = true -> add_to_cart_success (metrics r) = true).
Proof.
  intros R. apply resolved_inv in R.
  destruct R as [(e & s1 & -> & _) | (s2 & -> & (_ & D) & _)].
  - cbn. split; discriminate.
  - cbn [metrics completed_result checkout_form_filled checkout_reached
         add_to_cart_success]. unfold scored. st_simpl.
    destruct D as [(C & _ & A) | (C & _ & NF)].
    + split; intros _; assumption.
    + unfold no_form_yet in NF. split; congruence.
Qed.

(** X5.  A drop-off step of a result is one of "initialization",
    "product_discovery", "add_to_cart" and "checkout_navigation"; it is
    "initialization" exactly in a failed result; the product is in the
    cart exactly when it is "checkout_navigation"; and the findings of the
    result hold the finding the step is blamed on: [analysis-failed],
    [no-products], one of the four add-to-cart problems, or
    [checkout-failed], critical in each case but for the add-to-cart
    problems, which are critical or warnings. *)
Theorem drop_off_explained (w : W) r s' step :
  runAnalysis js sh storeUrl runId w = (Resolved r, s') ->
  drop_off_step (metrics r) = Some step ->
  In step ["initialization"; "product_discovery"; "add_to_cart"; "checkout_navigation"]
  /\ (step = "initialization" <-> status r = failed)
  /\ add_to_cart_success (metrics r) = String.eqb step "checkout_navigation"
  /\ exists f, In f (findings r) /\ blames step f.
Proof.
  intros R. apply resolved_inv in R.
  destruct R as [(e & s1 & -> & _) | (s2 & -> & D & X & O & _)].
  - cbn. intros [= <-]. split; [tauto |]. split; [tauto |]. split; [reflexivity |].
    exists (analysis_failed e). split; [now left | apply analysis_failed_blamed].
  - cbn [metrics completed_result drop_off_step add_to_cart_success status findings].
    unfold scored. st_simpl. intros E.
    destruct (drop_off_flags _ _ D X E O) as (_ & _ & A & S & f & Hin & Hb).
    split; [cbn [In] in S |- *; tauto |].
    split.
    { split; [| discriminate]. intros ->. cbn [In] in S.
      destruct S as [S | [S | [S | []]]]; discriminate S. }
    split; [exact A |].
    exists f. split; [apply in_or_app; now left | exact Hb].
Qed.

(** X6.  The score of a result is bounded by how far the run went: at
    most 25 after a drop-off at product discovery, 32 at add-to-cart, 45
    at the navigation to the checkout, and 0 in a failed result; at least
    40 with no drop-off, and at least 60 when the form was filled. *)
Theorem score_by_outcome (w : W) r s' :
  runAnalysis js sh storeUrl runId w = (Resolved r, s') ->
  match drop_off_step (metrics r) with
  | Some step =>
      score r <= (if String.eqb step "checkout_navigation" then 45
                  else if String.eqb step "add_to_cart" then 32
                  else if String.eqb step "product_discovery" then 25
                  else 0)
  | None =>
      40 <= score r /\ (checkout_form_filled (metrics r) = true -> 60 <= score r)
  end.
Proof.
  intros R. apply resolved_inv in R.
  destruct R as [(e & s1 & -> & _) | (s2 & -> & D & X & O & _)].
  - cbn. lia.
  - cbn [metrics completed_result drop_off_step checkout_form_filled score].
    unfold scored, score_at. st_simpl.
    destruct (St.dropOffStep s2) as [step |] eqn:E.
    + destruct (drop_off_flags _ _ D X E O) as (C & NF & A & S & f & Hin & Hb).
      rewrite C, NF, A.
      pose proof (score_dropped (String.eqb step "checkout_navigation") _ _ _ Hin Hb) as B.
      cbn [In] in S. destruct S as [<- | [<- | [<- | []]]]; cbn in B |- *; exact B.
    + destruct D as (_ & [(-> & _ & ->) | (_ & Dr & _)]).
      * rewrite compute_score_spec.
        unfold spec_score, clamp, funnel_component, ux_component.
        destruct (checkoutFormFilled_of (St.timeline s2)); cbn [b2z];
          (split; [| intros F; try discriminate F]); lia.
      * unfold dropped in Dr. rewrite E in Dr. discriminate Dr.
Qed.

(** X7.  The colour the run page gives the score tells how far the run
    went: red whenever the product was not added to the cart, never green
    when the run dropped off, never red when the checkout was reached. *)
Theorem score_colour_by_outcome (w : W) r s' :
  runAnalysis js sh storeUrl runId w = (Resolved r, s') ->
  (add_to_cart_success (metrics r) = false -> score_colour (Some (score r)) = red)
  /\ (drop_off_step (metrics r) <> None -> score_colour (Some (score r)) <> green)
  /\ (checkout_reached (metrics r) = true -> score_colour (Some (score r)) <> red).
Proof.
  intros R. apply resolved_inv in R.
  destruct R as [(e & s1 & -> & _) | (s2 & -> & D & X & O & _)].
  - cbn. repeat split; discriminate.
  - cbn [metrics completed_result drop_off_step checkout_reached
         add_to_cart_success score].
    unfold scored, score_at. st_simpl.
    destruct (St.dropOffStep s2) as [step |] eqn:E.
    + destruct (drop_off_flags _ _ D X E O) as (C & NF & A & S & f & Hin & Hb).
      rewrite C, NF, A.
      pose proof (score_dropped (String.eqb step "checkout_navigation") _ _ _ Hin Hb) as B.
      split; [| split; [| discriminate]].
      * intros F. rewrite F in B |- *. apply score_colour_red.
        cbn [b2z] in B. destruct (String.eqb step "add_to_cart"); lia.
      * intros _. apply score_colour_not_green.
        destruct (String.eqb step "checkout_navigation"), (String.eqb step "add_to_cart");
          cbn [b2z] in B; lia.
    + destruct D as (_ & [(-> & _ & ->) | (_ & Dr & _)]).
      * split; [discriminate |]. split; [congruence |]. intros _.
        apply score_colour_not_red. rewrite compute_score_spec.
        unfold spec_score, clamp, funnel_component, ux_component.
        destruct (checkoutFormFilled_of (St.timeline s2)); cbn [b2z]; lia.
      * unfold dropped in Dr. rewrite E in Dr. discriminate Dr.
Qed.

(** X8.  The positive findings of a result mirror its metrics: it holds
    [successful-add-to-cart], [successful-checkout-reach] and
    [successful-form-fill] exactly when the metric of that name is true,
    and [fast-add-to-cart] exactly when the seconds to add-to-cart are
    below 30 and not 0 (a time that rounds to 0 is not reported as
    fast). *)
Theorem positive_findings_mirror_metrics (w : W) r s' :
  runAnalysis js sh storeUrl runId w = (Resolved r, s') ->
  has_id "successful-add-to-cart" (findings r) = add_to_cart_success (metrics r)
  /\ has_id "successful-checkout-reach" (findings r) = checkout_reached (metrics r)
  /\ has_id "successful-form-fill" (findings r) = checkout_form_filled (metrics r)
  /\ has_id "fast-add-to-cart" (findings r)
     = match time_to_add_to_cart_seconds (metrics r) with
       | Some seconds => negb (seconds =? 0) && (seconds <? 30)
       | None => false
       end.
Proof.
  intros R. apply resolved_inv in R.
  destruct R as [(e & s1 & -> & _) | (s2 & -> & (T & _) & _ & O & _)].
  - cbn. repeat split.
  - cbn [metrics completed_result findings add_to_cart_success checkout_reached
         checkout_form_filled time_to_add_to_cart_seconds].
    unfold scored. st_simpl. rewrite !has_id_app.
    rewrite !(has_id_outside _ _ _ O) by reflexivity. cbn [orb].
    unfold timing_ok in T. unfold positive_findings, when.
    destruct (St.addToCartSuccess s2).
    + destruct T as (t & _ & ->). cbn [truthy_number].
      destruct (St.checkoutReached s2), (checkoutFormFilled_of (St.timeline s2)),
        (negb (round_seconds (t - St.startTime s2) =? 0)
         && (round_seconds (t - St.startTime s2) <? 30));
        repeat split.
    + rewrite T.
      destruct (St.checkoutReached s2), (checkoutFormFilled_of (St.timeline s2));
        repeat split.
Qed.

End Extras.

(** X9.  Findings never raise the score: with the same funnel flags, the
    score computed with some findings removed, wherever they stand, is at
    least the score computed with them; and it lies between the funnel
    part, 20 per stage passed, and 40 above it. *)
Theorem score_antitone atc co filled fs gs hs :
  compute_score atc co filled (fs ++ gs ++ hs) <= compute_score atc co filled (fs ++ hs)
  /\ funnel_component atc co filled <= compute_score atc co filled fs
     <= funnel_component atc co filled + 40.
Proof.
  rewrite !compute_score_spec. unfold spec_score, clamp, funnel_component, ux_component.
  rewrite !count_category_app.
  pose proof (count_category_nonneg critical fs).
  pose proof (count_category_nonneg warning fs).
  pose proof (count_category_nonneg suggestion fs).
  pose proof (count_category_nonneg critical gs).
  pose proof (count_category_nonneg warning gs).
  pose proof (count_category_nonneg suggestion gs).
  destruct atc, co, filled; cbn [b2z]; lia.
Qed.

(* ===================================================================== *)
(** ** The registry, the routes and the pages *)

Lemma store_get_set runId v store : store_get (store_set runId v store) runId = Some v.
Proof. unfold store_get, store_set. cbn [find fst snd]. now rewrite String.eqb_refl. Qed.

Lemma store_get_set_other runId other v store :
  other <> runId ->
  store_get (store_set runId v store) other = store_get store other.
Proof.
  intros N. unfold store_get, store_set. cbn [find fst snd].
  destruct (String.eqb_spec runId other) as [E | _]; [congruence |].
  induction store as [| [k x] store IH]; [reflexivity |].
  cbn [filter find fst snd].
  destruct (String.eqb_spec k runId) as [-> | Nk]; cbn [negb find fst snd].
  - destruct (String.eqb_spec runId other) as [E | _]; [congruence | exact IH].
  - destruct (String.eqb k other); [reflexivity | exact IH].
Qed.

Lemma GET_set_other runId other v store :
  other <> runId -> GET other (store_set runId v store) = GET other store.
Proof. intros N. unfold GET. now rewrite store_get_set_other. Qed.

Lemma startsWith_app p s : startsWith (p ++ s) p = true.
Proof.
  induction p as [| a p IH]; [now destruct s |].
  cbn [String.append startsWith]. now rewrite Ascii.eqb_refl, IH.
Qed.

Lemma with_scheme_scheme input :
  startsWith (with_scheme input) "http://" = true
  \/ startsWith (with_scheme input) "https://" = true.
Proof.
  unfold with_scheme.
  destruct (startsWith input "http://") eqn:E1; [now left |].
  destruct (startsWith input "https://") eqn:E2; [now right |].
  right. apply (startsWith_app "https://").
Qed.

Lemma with_scheme_nonempty input : input <> "" -> with_scheme input <> "".
Proof.
  unfold with_scheme. intros N.
  destruct (negb _ && negb _); [discriminate | exact N].
Qed.

(** X10.  The start route refuses or registers, by what it is sent.  A
    body that cannot be read is answered 500; a [store_url] that is
    missing or empty, 400 "Store URL is required"; one that does not parse
    as a URL, 400 "Invalid URL format": in each case the registry is left
    as it was, no run is started, and the home page shows the message.  A
    non-empty [store_url] that parses is answered 200: the run is started
    under the new id, polling that id answers "running", and polling any
    other id answers as before. *)
Theorem POST_refuses_or_registers url_parses uuid store :
  POST url_parses uuid Unreadable store
  = (mkResponse 500 (ErrorBody "Failed to start analysis"), store, None)
  /\ after_response (Some (mkResponse 500 (ErrorBody "Failed to start analysis")))
     = Shown "Failed to start analysis"
  /\ (forall store_url,
        store_url = None \/ store_url = Some "" ->
        POST url_parses uuid (Json store_url) store
        = (mkResponse 400 (ErrorBody "Store URL is required"), store, None))
  /\ after_response (Some (mkResponse 400 (ErrorBody "Store URL is required")))
     = Shown "Store URL is required"
  /\ (forall url,
        url <> "" -> url_parses url = false ->
        POST url_parses uuid (Json (Some url)) store
        = (mkResponse 400 (ErrorBody "Invalid URL format"), store, None))
  /\ after_response (Some (mkResponse 400 (ErrorBody "Invalid URL format")))
     = Shown "Invalid URL format"
  /\ (forall url,
        url <> "" -> url_parses url = true ->
        exists store',
          POST url_parses uuid (Json (Some url)) store
          = (mkResponse 200 (StartedBody uuid url "running"), store',
             Some (mkJob url uuid))
          /\ GET uuid store' = mkResponse 200 (RunningBody uuid "running")
          /\ (forall other, other <> uuid -> GET other store' = GET other store)).
Proof.
  split; [reflexivity |]. split; [reflexivity |].
  split; [intros store_url [-> | ->]; reflexivity |].
  split; [reflexivity |].
  split.
  { intros url N P. unfold POST. cbn [truthy_string].
    destruct (String.eqb_spec url "") as [E | _]; [contradiction |].
    cbn [negb]. now rewrite P. }
  split; [reflexivity |].
  intros url N P. eexists. split.
  - unfold POST. cbn [truthy_string].
    destruct (String.eqb_spec url "") as [E | _]; [contradiction |].
    cbn [negb]. rewrite P. cbn [negb]. reflexivity.
  - split.
    + unfold GET. rewrite store_get_set. reflexivity.
    + intros other No. now apply GET_set_other.
Qed.

(** X11.  Whatever the home page sends is registered by the start route:
    a request goes out only for a non-empty input that, given the scheme
    "https://" unless it starts with "http://" or "https://", parses as a
    URL; the start route, which parses it the same way, answers 200 and
    the page of the new run is opened. *)
Theorem submitted_is_registered url_parses input request uuid store :
  handleSubmit url_parses input = Send request ->
  exists url,
    request = Json (Some url)
    /\ url = with_scheme input
    /\ (startsWith url "http://" = true \/ startsWith url "https://" = true)
    /\ POST url_parses uuid request store
       = (mkResponse 200 (StartedBody uuid url "running"),
          store_set uuid (mkStored "running" None) store,
          Some (mkJob url uuid))
    /\ after_response (Some (mkResponse 200 (StartedBody uuid url "running")))
       = Opened ("/run/" ++ uuid).
Proof.
  unfold handleSubmit.
  destruct (String.eqb_spec input "") as [-> | N]; [discriminate |].
  destruct (url_parses (with_scheme input)) eqn:P; [| discriminate].
  intros [= <-]. exists (with_scheme input).
  split; [reflexivity |]. split; [reflexivity |].
  split; [apply with_scheme_scheme |].
  split; [| reflexivity].
  unfold POST. cbn [truthy_string].
  destruct (String.eqb_spec (with_scheme input) "") as [E | _].
  - now apply with_scheme_nonempty in E.
  - cbn [negb]. rewrite P. reflexivity.
Qed.

(** X12.  Polling an id the registry does not hold answers 404, and the
    run page takes that body for a result: it stops polling and shows
    "Analysis Complete" with a red score, not an error. *)
Theorem unknown_run_is_shown_complete runId store :
  store_get store runId = None ->
  GET runId store = mkResponse 404 (ErrorBody "Run not found")
  /\ keeps_polling (body (GET runId store)) = false
  /\ render (Some (body (GET runId store))) = AnalysisComplete red.
Proof.
  intros H. unfold GET. rewrite H. repeat split.
Qed.

Section Lifecycle.

Context {W : Type}.
Variable js : Builtins.
Variable sh : Stagehand W.
Variable view : ErrorView.

(** X13.  Once a run has resolved and its result is stored, polling its
    id answers with the result, under the status of the result, "failed"
    for a failed one although the registry files it under "completed";
    the other ids answer as before.  The run page then stops polling and
    shows "Analysis Failed" with the message for a failed result whose
    message is not empty, and "Analysis Complete" with the colour of the
    score otherwise. *)
Theorem poll_after_resolved storeUrl runId (w : W) r s' store :
  runAnalysis js sh storeUrl runId w = (Resolved r, s') ->
  let store' := on_settled view (mkJob storeUrl runId) (Resolved r) store in
  let data := body (GET runId store') in
  GET runId store'
  = mkResponse 200 (PolledBody runId (status_text (status r)) (Some r))
  /\ (forall other, other <> runId -> GET other store' = GET other store)
  /\ keeps_polling data = false
  /\ render (Some data)
     = match status r, error r with
       | failed, Some message =>
           if String.eqb message "" then AnalysisComplete red
           else AnalysisFailed message
       | _, _ => AnalysisComplete (score_colour (Some (score r)))
       end.
Proof.
  intros R store' data.
  assert (GET runId store'
          = mkResponse 200 (PolledBody runId (status_text (status r)) (Some r))) as G.
  { unfold store', on_settled, GET. cbn [job_run_id]. rewrite store_get_set.
    cbn [stored_status String.eqb Ascii.eqb Bool.eqb]. unfold polled. cbn [stored_result].
    now rewrite (proj1 (resolved_ids _ _ _ _ _ _ _ R)). }
  split; [exact G |].
  split; [intros other N; now apply GET_set_other |].
  unfold data. rewrite G. cbn [body].
  apply resolved_inv in R.
  destruct R as [(e & s1 & -> & _) | (s2 & -> & _)].
  - cbn [status failed_result error status_text]. split; [reflexivity |].
    unfold render. cbn [body_status body_error body_score error score failed_result
                        truthy_string].
    change (String.eqb "failed" "running") with false.
    change (String.eqb "failed" "failed") with true. cbn [andb].
    destruct (String.eqb (error_message e) ""); reflexivity.
  - cbn [status completed_result error status_text]. split; reflexivity.
Qed.

(** X14.  When the run rejects, which it does when the agent cannot be
    constructed, and the message of what was thrown can be read, the
    registry gets a failed result of its own: polling answers it, with
    score 0, drop-off step "initialization", an empty timeline, no session
    and the one finding [error], and the run page stops polling.  When the
    message cannot be read nothing is stored, and the run page keeps
    polling a run that stays "running". *)
Theorem poll_after_rejected url_parses storeUrl uuid (w : W) e s' store0 :
  runAnalysis js sh storeUrl uuid w = (Rejected e, s') ->
  let store := snd (fst (POST url_parses uuid (Json (Some storeUrl)) store0)) in
  let store' := on_settled view (mkJob storeUrl uuid) (Rejected e) store in
  let data := body (GET uuid store') in
  fst (construct sh w) = inl e
  /\ match read_message view e with
     | Some message =>
         exists r,
           data = PolledBody uuid "failed" (Some r)
           /\ (run_id r, store_url r, status r, score r) = (uuid, storeUrl, failed, 0)
           /\ drop_off_step (metrics r) = Some "initialization"
           /\ map id (findings r) = ["error"]
           /\ timeline r = [] /\ session_url r = None /\ error r = message
           /\ keeps_polling data = false
     | None =>
         store' = store
         /\ (storeUrl <> "" -> url_parses storeUrl = true ->
             keeps_polling data = true
             /\ render (Some data) = AnalysisInProgress)
     end.
Proof.
  intros R store store' data.
  apply runAnalysis_rejected in R. split; [now rewrite R |].
  unfold data, store', on_settled. cbv beta iota.
  destruct (read_message view e) as [message |].
  - eexists. unfold GET. cbn [job_run_id]. rewrite store_get_set.
    cbn [stored_status]. change (String.eqb "failed" "running") with false.
    cbv iota. unfold polled. cbn [stored_result body].
    split; [reflexivity |]. repeat split.
  - split; [reflexivity |]. intros N P.
    unfold store, POST. cbn [truthy_string].
    destruct (String.eqb_spec storeUrl "") as [E | _]; [contradiction |].
    cbn [negb]. rewrite P. cbn [negb fst snd].
    unfold GET. rewrite store_get_set. split; reflexivity.
Qed.

End Lifecycle.

Section Sessions.

Context {W : Type}.
Variable js : Builtins.
Variable sh : Stagehand W.
Variables storeUrl runId : string.

(** X15.  However the run ends, the session is closed when there is one:
    a run that resolves has called [close] once, or twice when the call
    that follows scoring threw, and the result is then a failed one; a
    run that rejects had no agent and has not called it. *)
Theorem session_closed (w : W) outcome s' :
  runAnalysis js sh storeUrl runId w = (outcome, s') ->
  match outcome with
  | Resolved r =>
      St.closes s' = 1%nat \/ (St.closes s' = 2%nat /\ status r = failed)
  | Rejected e =>
      St.closes s' = 0%nat /\ fst (sh_new sh (snd (date_now sh w))) = inl e
  end.
Proof.
  destruct outcome as [r | e]; intros R.
  - destruct (close_calls _ _ _ _ _ _ _ R) as [C | (C & F & _)]; [now left | now right].
  - apply runAnalysis_rejected in R.
    split; [exact (proj2 (construct_fresh _ _ _ _ R)) |].
    revert R. unfold construct, new_Stagehand, call.
    destruct (date_now sh w) as [t w1]. st_simpl. cbn [snd].
    destruct (sh_new sh w1) as [r' w2]. now intros [= -> _].
Qed.

End Sessions.

(* ===================================================================== *)
(** ** The properties on concrete runs *)

Lemma findings_in_order_witness :
  exists r s',
    run smooth_store = (Resolved r, s')
    /\ Subseq (map id (findings r)) finding_ids_in_order
    /\ NoDup (map id (findings r)).
Proof.
  eexists ?[r], ?[s].
  assert (E : run smooth_store = (Resolved ?r, ?s)) by (vm_compute; reflexivity).
  split; [exact E |].
  exact (findings_in_order _ _ _ _ _ _ _ E).
Defined.

Lemma timeline_in_order_witness :
  exists r s',
    run close_fails_store = (Resolved r, s')
    /\ status r = failed
    /\ Subseq (map action (timeline r)) timeline_actions_in_order
    /\ NoDup (map action (timeline r)).
Proof.
  eexists ?[r], ?[s].
  assert (E : run close_fails_store = (Resolved ?r, ?s)) by (vm_compute; reflexivity).
  split; [exact E |]. split; [reflexivity |].
  exact (timeline_in_order _ _ _ _ _ _ _ E).
Defined.

Lemma timeline_all_successful_witness :
  exists r s',
    run form_blocked_store = (Resolved r, s')
    /\ Forall (fun ev => success ev = true /\ event_colour ev = green) (timeline r).
Proof.
  eexists ?[r], ?[s].
  assert (E : run form_blocked_store = (Resolved ?r, ?s)) by (vm_compute; reflexivity).
  split; [exact E |].
  exact (timeline_all_successful _ _ _ _ _ _ _ E).
Defined.

Lemma funnel_monotone_witness :
  exists r s',
    run form_blocked_store = (Resolved r, s')
    /\ checkout_reached (metrics r) = true
    /\ add_to_cart_success (metrics r) = true.
Proof.
  eexists ?[r], ?[s].
  assert (E : run form_blocked_store = (Resolved ?r, ?s)) by (vm_compute; reflexivity).
  split; [exact E |]. split; [reflexivity |].
  destruct (funnel_monotone _ _ _ _ _ _ _ E) as [_ H].
  apply H. reflexivity.
Defined.

Lemma drop_off_explained_witness :
  exists r s',
    run cart_stays_empty_store = (Resolved r, s')
    /\ drop_off_step (metrics r) = Some "add_to_cart"
    /\ add_to_cart_success (metrics r) = false
    /\ exists f, In f (findings r) /\ blames "add_to_cart" f.
Proof.
  eexists ?[r], ?[s].
  assert (E : run cart_stays_empty_store = (Resolved ?r, ?s))
    by (vm_compute; reflexivity).
  split; [exact E |]. split; [reflexivity |].
  destruct (drop_off_explained _ _ _ _ _ _ _ "add_to_cart" E eq_refl)
    as (_ & _ & A & X).
  split; [exact A | exact X].
Defined.

Lemma score_by_outcome_witness :
  exists r s',
    run no_products_store = (Resolved r, s')
    /\ drop_off_step (metrics r) = Some "product_discovery"
    /\ score r <= 25.
Proof.
  eexists ?[r], ?[s].
  assert (E : run no_products_store = (Resolved ?r, ?s)) by (vm_compute; reflexivity).
  split; [exact E |]. split; [reflexivity |].
  exact (score_by_outcome _ _ _ _ _ _ _ E).
Defined.

Lemma score_colour_by_outcome_witness :
  exists r s',
    run cart_stays_empty_store = (Resolved r, s')
    /\ add_to_cart_success (metrics r) = false
    /\ score_colour (Some (score r)) = red.
Proof.
  eexists ?[r], ?[s].
  assert (E : run cart_stays_empty_store = (Resolved ?r, ?s))
    by (vm_compute; reflexivity).
  split; [exact E |]. split; [reflexivity |].
  destruct (score_colour_by_outcome _ _ _ _ _ _ _ E) as [H _].
  apply H. reflexivity.
Defined.

Lemma positive_findings_mirror_metrics_witness :
  exists r s',
    run smooth_store = (Resolved r, s')
    /\ add_to_cart_success (metrics r) = true
    /\ has_id "successful-add-to-cart" (findings r) = true.
Proof.
  eexists ?[r], ?[s].
  assert (E : run smooth_store = (Resolved ?r, ?s)) by (vm_compute; reflexivity).
  split; [exact E |]. split; [reflexivity |].
  destruct (positive_findings_mirror_metrics _ _ _ _ _ _ _ E) as [H _].
  exact H.
Defined.

Lemma POST_refuses_or_registers_witness :
  "https://shop.example" <> ""
  /\ includes "https://shop.example" "." = true
  /\ exists store',
       POST (fun url => includes url ".") "run-1"
         (Json (Some "https://shop.example")) []
       = (mkResponse 200 (StartedBody "run-1" "https://shop.example" "running"),
          store', Some (mkJob "https://shop.example" "run-1"))
       /\ GET "run-1" store' = mkResponse 200 (RunningBody "run-1" "running").
Proof.
  assert (N : "https://shop.example" <> "") by discriminate.
  split; [exact N |]. split; [reflexivity |].
  destruct (POST_refuses_or_registers (fun url => includes url ".") "run-1" [])
    as (_ & _ & _ & _ & _ & _ & H).
  destruct (H "https://shop.example" N eq_refl) as (store' & P & G & _).
  exists store'. split; [exact P | exact G].
Defined.

Lemma submitted_is_registered_witness :
  exists url,
    handleSubmit (fun url => includes url ".") "shop.example" = Send (Json (Some url))
    /\ url = "https://shop.example"
    /\ POST (fun url => includes url ".") "run-1" (Json (Some url)) []
       = (mkResponse 200 (StartedBody "run-1" url "running"),
          [("run-1", mkStored "running" None)],
          Some (mkJob url "run-1")).
Proof.
  destruct (submitted_is_registered (fun url => includes url ".") "shop.example"
              (Json (Some "https://shop.example")) "run-1" [] eq_refl)
    as (url & E & U & _ & P & _).
  injection E as E. subst url.
  exists "https://shop.example". split; [reflexivity |]. split; [reflexivity | exact P].
Defined.

Lemma unknown_run_is_shown_complete_witness :
  store_get [("run-1", mkStored "running" None)] "run-2" = None
  /\ render (Some (body (GET "run-2" [("run-1", mkStored "running" None)])))
     = AnalysisComplete red.
Proof.
  split; [reflexivity |].
  apply (unknown_run_is_shown_complete "run-2" [("run-1", mkStored "running" None)]).
  reflexivity.
Defined.

Lemma poll_after_resolved_witness :
  exists r s',
    run no_session = (Resolved r, s')
    /\ GET "run-1"
         (on_settled plain_view (mkJob "https://shop.example" "run-1") (Resolved r)
            [("run-1", mkStored "running" None)])
       = mkResponse 200 (PolledBody "run-1" "failed" (Some r)).
Proof.
  eexists ?[r], ?[s].
  assert (E : run no_session = (Resolved ?r, ?s)) by (vm_compute; reflexivity).
  split; [exact E |].
  exact (proj1 (poll_after_resolved _ _ plain_view _ _ _ _ _
                  [("run-1", mkStored "running" None)] E)).
Defined.

Lemma poll_after_rejected_witness :
  exists e s',
    run no_agent = (Rejected e, s')
    /\ read_message plain_view e = Some (Some "missing API key")
    /\ fst (construct (scripted no_agent) 0) = inl e.
Proof.
  eexists ?[e], ?[s].
  assert (E : run no_agent = (Rejected ?e, ?s)) by (vm_compute; reflexivity).
  split; [exact E |]. split; [reflexivity |].
  exact (proj1 (poll_after_rejected _ _ plain_view (fun _ => true) _ _ _ _ _ [] E)).
Defined.

Lemma session_closed_witness :
  exists r s',
    run close_fails_store = (Resolved r, s')
    /\ (St.closes s' = 1%nat \/ (St.closes s' = 2%nat /\ status r = failed)).
Proof.
  eexists ?[r], ?[s].
  assert (E : run close_fails_store = (Resolved ?r, ?s)) by (vm_compute; reflexivity).
  split; [exact E |].
  exact (session_closed _ _ _ _ _ _ _ E).
Defined.

(* ===================================================================== *)
(** ** A counting agent runs the same run *)

Section Mirror.

Context {W : Type}.
Variable sh : Stagehand W.

Lemma mirrors_ret {A} (a : A) : mirrors (W := W) (ret a) (ret a).
Proof. intros s. reflexivity. Qed.

Lemma mirrors_throw {A} e : mirrors (W := W) (A := A) (throw e) (throw e).
Proof. intros s. reflexivity. Qed.

Lemma mirrors_bind {A B} m' m (k' : A -> M B) (k : A -> M B) :
  mirrors (W := W) m' m -> (forall a, mirrors (k' a) (k a)) ->
  mirrors (bind m' k') (bind m k).
Proof.
  intros H Hk s. unfold bind. rewrite (H s).
  destruct (m' s) as [[e | a] s1]; cbn [fst snd]; [reflexivity | apply Hk].
Qed.

Lemma mirrors_get_bind {B} (k' : St.t (W * Calls) -> M B) (k : St.t W -> M B) :
  (forall s, mirrors (k' s) (k (erase s))) -> mirrors (bind get k') (bind get k).
Proof. intros Hk s. unfold bind, get. apply Hk. Qed.

Lemma mirrors_try_catch {A} m' m (h' h : Thrown -> M A) :
  mirrors (W := W) m' m -> (forall e, mirrors (h' e) (h e)) ->
  mirrors (try_catch m' h') (try_catch m h).
Proof.
  intros H Hh s. unfold try_catch. rewrite (H s).
  destruct (m' s) as [[e | a] s1]; cbn [fst snd]; [apply Hh | reflexivity].
Qed.

Lemma mirrors_whenM (b : bool) m' m :
  mirrors (W := W) m' m -> mirrors (whenM b m') (whenM b m).
Proof. intros H. destruct b; [exact H | apply mirrors_ret]. Qed.

Lemma mirrors_if {A} (b : bool) m1' m1 m2' (m2 : M A) :
  mirrors (W := W) m1' m1 -> mirrors m2' m2 ->
  mirrors (if b then m1' else m2') (if b then m1 else m2).
Proof. intros H1 H2. destruct b; assumption. Qed.

Lemma mirrors_modify f' (f : St.t W -> St.t W) :
  (forall s, erase (f' s) = f (erase s)) -> mirrors (modify f') (modify f).
Proof. intros H s. unfold modify. cbn [fst snd]. now rewrite H. Qed.

Lemma mirrors_call {A} (f : W -> (Thrown + A) * W) bump :
  mirrors (call (counted bump f)) (call f).
Proof.
  intros s. unfold call, counted. cbn [erase St.world].
  destruct (f (fst (St.world s))) as [r w]. reflexivity.
Qed.

Lemma mirrors_close : mirrors (close (counting sh)) (close sh).
Proof.
  intros s. unfold close. cbn [sh_close counting erase St.world]. unfold counted.
  destruct (sh_close sh (fst (St.world s))) as [r w]. reflexivity.
Qed.

Lemma mirrors_now : mirrors (now (counting sh)) (now sh).
Proof.
  intros s. unfold now. cbn [date_now counting erase St.world].
  destruct (date_now sh (fst (St.world s))) as [t w]. reflexivity.
Qed.

Lemma mirrors_wait ms : mirrors (wait (counting sh) ms) (wait sh ms).
Proof. intros s. reflexivity. Qed.

Lemma mirrors_pageUrl : mirrors (pageUrl (counting sh)) (pageUrl sh).
Proof. intros s. reflexivity. Qed.

Lemma mirrors_currentUrl : mirrors (W := W) currentUrl currentUrl.
Proof. intros s. reflexivity. Qed.

Lemma mirrors_refreshCurrentUrl :
  mirrors (refreshCurrentUrl (counting sh)) (refreshCurrentUrl sh).
Proof. intros s. reflexivity. Qed.

Lemma mirrors_record a url' (url : M string) :
  mirrors url' url -> mirrors (record (counting sh) a url') (record sh a url).
Proof.
  intros H. unfold record.
  apply mirrors_bind; [apply mirrors_now | intros t].
  apply mirrors_bind; [exact H | intros u].
  apply mirrors_modify. reflexivity.
Qed.

Lemma mirrors_report fs : mirrors (W := W) (report fs) (report fs).
Proof. apply mirrors_modify. reflexivity. Qed.

End Mirror.

Ltac mirrors_step :=
  lazymatch goal with
  | |- mirrors (bind get _) _ => apply mirrors_get_bind; intros ?
  | |- mirrors (bind _ _) _ => apply mirrors_bind; [| intros ?]
  | |- mirrors (try_catch _ _) _ => apply mirrors_try_catch; [| intros ?]
  | |- mirrors (whenM _ _) _ => apply mirrors_whenM
  | |- mirrors (ret _) _ => apply mirrors_ret
  | |- mirrors (throw _) _ => apply mirrors_throw
  | |- mirrors (act _ _) _ => apply mirrors_call
  | |- mirrors (extract _ _) _ => apply mirrors_call
  | |- mirrors (init _) _ => apply mirrors_call
  | |- mirrors (first_page _) _ => apply mirrors_call
  | |- mirrors (goto _ _) _ => apply mirrors_call
  | |- mirrors (close _) _ => apply mirrors_close
  | |- mirrors (now _) _ => apply mirrors_now
  | |- mirrors (wait _ _) _ => apply mirrors_wait
  | |- mirrors (refreshCurrentUrl _) _ => apply mirrors_refreshCurrentUrl
  | |- mirrors (record _ _ currentUrl) _ => apply mirrors_record, mirrors_currentUrl
  | |- mirrors (record _ _ (pageUrl _)) _ => apply mirrors_record, mirrors_pageUrl
  | |- mirrors currentUrl _ => apply mirrors_currentUrl
  | |- mirrors (pageUrl _) _ => apply mirrors_pageUrl
  | |- mirrors (report _) _ => apply mirrors_report
  | |- mirrors (modify _) _ => apply mirrors_modify; intros ?; reflexivity
  | |- mirrors (if _ then _ else _) _ => apply mirrors_if
  | |- mirrors (match _ with Some _ => _ | None => _ end) _ =>
      cbn [sh_browserbaseSessionID counting erase St.world];
      lazymatch goal with
      | |- mirrors (match ?o with Some _ => _ | None => _ end) _ => destruct o
      end
  end.

Section SameRun.

Context {W : Type}.
Variable js : Builtins.
Variable sh : Stagehand W.
Variables storeUrl runId : string.

Lemma mirrors_pipeline :
  mirrors (pipeline js (counting sh) storeUrl runId) (pipeline js sh storeUrl runId).
Proof.
  unfold pipeline, navigate, stages, homepage_analysis, product_discovery,
    find_product, product_page_analysis, add_to_cart, try_add_to_cart,
    variant_retries, cart_experience_analysis, checkout, reach_checkout,
    fill_checkout_form, finish.
  repeat mirrors_step.
Qed.

Lemma mirrors_on_failure e :
  mirrors (on_failure (counting sh) storeUrl runId e) (on_failure sh storeUrl runId e).
Proof. unfold on_failure. repeat mirrors_step. Qed.

(** The run on the counting agent ends as the run on the agent does. *)
Lemma runAnalysis_counting (w : W) (c : Calls) :
  runAnalysis js sh storeUrl runId w
  = (fst (runAnalysis js (counting sh) storeUrl runId (w, c)),
     erase (snd (runAnalysis js (counting sh) storeUrl runId (w, c)))).
Proof.
  unfold runAnalysis, construct. cbn [date_now counting fst snd].
  destruct (date_now sh w) as [t w1].
  pose proof (mirrors_call (sh_new sh) (fun c => c) (St.initial (w1, c) t)) as N.
  change (call (sh_new sh)) with (new_Stagehand sh) in N.
  change (call (counted (fun c => c) (sh_new sh))) with (new_Stagehand (counting sh)) in N.
  change (erase (St.initial (w1, c) t)) with (St.initial w1 t) in N.
  rewrite N.
  destruct (new_Stagehand (counting sh) (St.initial (w1, c) t)) as [[e | []] s0];
    cbn [fst snd]; [reflexivity |].
  pose proof (mirrors_try_catch _ _ _ _ mirrors_pipeline mirrors_on_failure s0) as P.
  rewrite P.
  destruct (try_catch (pipeline js (counting sh) storeUrl runId)
              (on_failure (counting sh) storeUrl runId) s0) as [[e | r] s1];
    reflexivity.
Qed.

End SameRun.

(* ===================================================================== *)
(** ** The calls a run makes on the agent *)

Lemma within_refl c : within no_calls c c.
Proof. unfold within, no_calls. cbn. lia. Qed.

Lemma within_trans k1 k2 c0 c1 c2 :
  within k1 c0 c1 -> within k2 c1 c2 -> within (plus k1 k2) c0 c2.
Proof. unfold within, plus. cbn. lia. Qed.

Lemma within_plus_l k1 k2 c c' : within k1 c c' -> within (plus k1 k2) c c'.
Proof. unfold within, plus. cbn. lia. Qed.

Lemma within_larger_l k1 k2 c c' : within k1 c c' -> within (larger k1 k2) c c'.
Proof. unfold within, larger. cbn. lia. Qed.

Lemma within_larger_r k1 k2 c c' : within k2 c c' -> within (larger k1 k2) c c'.
Proof. unfold within, larger. cbn. lia. Qed.

Section Costs.

Context {W : Type}.
Variable sh : Stagehand W.

Lemma costs_ret {A} (a : A) : costs (W := W) (ret a) no_calls.
Proof. intros s. apply within_refl. Qed.

Lemma costs_throw {A} e : costs (W := W) (A := A) (throw e) no_calls.
Proof. intros s. apply within_refl. Qed.

Lemma costs_get : costs (W := W) get no_calls.
Proof. intros s. apply within_refl. Qed.

Lemma costs_bind {A B} (m : M A) (f : A -> M B) k1 k2 :
  costs (W := W) m k1 -> (forall a, costs (f a) k2) -> costs (bind m f) (plus k1 k2).
Proof.
  intros H1 H2 s. specialize (H1 s). unfold bind.
  destruct (m s) as [[e | a] s1]; cbn [snd] in *.
  - now apply within_plus_l.
  - exact (within_trans _ _ _ _ _ H1 (H2 a s1)).
Qed.

Lemma costs_try_catch {A} (m : M A) (h : Thrown -> M A) k1 k2 :
  costs (W := W) m k1 -> (forall e, costs (h e) k2) ->
  costs (try_catch m h) (plus k1 k2).
Proof.
  intros H1 H2 s. specialize (H1 s). unfold try_catch.
  destruct (m s) as [[e | a] s1]; cbn [snd] in *.
  - exact (within_trans _ _ _ _ _ H1 (H2 e s1)).
  - now apply within_plus_l.
Qed.

Lemma costs_whenM (b : bool) (m : M unit) k :
  costs (W := W) m k -> costs (whenM b m) k.
Proof.
  intros H s. destruct b; [apply H |].
  unfold within. cbn. lia.
Qed.

Lemma costs_if {A} (b : bool) (m1 m2 : M A) k1 k2 :
  costs (W := W) m1 k1 -> costs m2 k2 ->
  costs (if b then m1 else m2) (larger k1 k2).
Proof.
  intros H1 H2 s. destruct b; [apply within_larger_l, H1 | apply within_larger_r, H2].
Qed.

(** An assignment to the variables of the run asks nothing of the agent. *)
Lemma costs_modify (f : St.t (W * Calls) -> St.t (W * Calls)) :
  (forall s, St.world (f s) = St.world s) -> costs (modify f) no_calls.
Proof. intros H s. unfold modify. cbn [snd]. rewrite H. apply within_refl. Qed.

Lemma costs_counted {A} (f : W -> (Thrown + A) * W) bump k :
  (forall c, within k c (bump c)) -> costs (call (counted bump f)) k.
Proof.
  intros H s. unfold call, counted.
  destruct (f (fst (St.world s))) as [r w]. st_simpl. cbn [snd]. apply H.
Qed.

Lemma costs_act i : costs (act (counting sh) i) (mkCalls 1 0 0).
Proof.
  apply (costs_counted (sh_act sh i)). intros c. unfold within, one_act. cbn. lia.
Qed.

Lemma costs_extract p : costs (extract (counting sh) p) (mkCalls 0 1 0).
Proof.
  apply (costs_counted (sh_extract sh p)). intros c. unfold within, one_extract. cbn. lia.
Qed.

Lemma costs_new_Stagehand : costs (new_Stagehand (counting sh)) no_calls.
Proof. apply (costs_counted (sh_new sh)). apply within_refl. Qed.

Lemma costs_init : costs (init (counting sh)) no_calls.
Proof. apply (costs_counted (sh_init sh)). apply within_refl. Qed.

Lemma costs_first_page : costs (first_page (counting sh)) no_calls.
Proof. apply (costs_counted (sh_first_page sh)). apply within_refl. Qed.

Lemma costs_goto u : costs (goto (counting sh) u) no_calls.
Proof. apply (costs_counted (page_goto sh u)). apply within_refl. Qed.

Lemma costs_close : costs (close (counting sh)) no_calls.
Proof.
  intros s. unfold close. cbn [sh_close counting]. unfold counted.
  destruct (sh_close sh (fst (St.world (St.count_close s)))) as [r w] eqn:E.
  st_simpl. rewrite E. st_simpl. cbn [snd]. apply within_refl.
Qed.

Lemma costs_now : costs (now (counting sh)) no_calls.
Proof.
  intros s. unfold now. cbn [date_now counting].
  destruct (date_now sh (fst (St.world s))) as [t w]. st_simpl. cbn [snd].
  apply within_refl.
Qed.

Lemma costs_wait ms : costs (wait (counting sh) ms) (mkCalls 0 0 (Z.to_N ms)).
Proof.
  intros s. unfold wait, modify. st_simpl. cbn [snd settle counting].
  unfold within, one_pause. cbn. lia.
Qed.

Lemma costs_pageUrl : costs (pageUrl (counting sh)) no_calls.
Proof. intros s. apply within_refl. Qed.

Lemma costs_currentUrl : costs (W := W) currentUrl no_calls.
Proof. intros s. apply within_refl. Qed.

Lemma costs_refreshCurrentUrl : costs (refreshCurrentUrl (counting sh)) no_calls.
Proof. intros s. apply within_refl. Qed.

Lemma costs_record a (url : M string) :
  costs url no_calls -> costs (record (counting sh) a url) no_calls.
Proof.
  intros H s. unfold record, bind. specialize (H (snd (now (counting sh) s))).
  pose proof (costs_now s) as N.
  destruct (now (counting sh) s) as [[e | t] s1]; cbn [snd] in *; [exact N |].
  destruct (url s1) as [[e | u] s2]; cbn [snd] in *.
  - pose proof (within_trans _ _ _ _ _ N H) as T. exact T.
  - unfold modify. st_simpl. cbn [snd].
    pose proof (within_trans _ _ _ _ _ N H) as T. exact T.
Qed.

Lemma costs_report fs : costs (W := W) (report fs) no_calls.
Proof. apply costs_modify. reflexivity. Qed.

Lemma costs_weaken {A} (m : M A) k k' :
  costs (W := W) m k ->
  (acts k <= acts k')%N -> (extracts k <= extracts k')%N -> (pauses k <= pauses k')%N ->
  costs m k'.
Proof.
  intros H Ha Hx Hp s. specialize (H s). unfold within in *. lia.
Qed.

End Costs.

(** The budget of a computation, read off its text. *)
Ltac costs_step :=
  lazymatch goal with
  | |- costs (bind _ _) _ => eapply costs_bind; [| intros ?]
  | |- costs (try_catch _ _) _ => eapply costs_try_catch; [| intros ?]
  | |- costs (whenM _ _) _ => eapply costs_whenM
  | |- costs (ret _) _ => eapply costs_ret
  | |- costs (throw _) _ => eapply costs_throw
  | |- costs get _ => eapply costs_get
  | |- costs (act _ _) _ => eapply costs_act
  | |- costs (extract _ _) _ => eapply costs_extract
  | |- costs (init _) _ => eapply costs_init
  | |- costs (first_page _) _ => eapply costs_first_page
  | |- costs (goto _ _) _ => eapply costs_goto
  | |- costs (close _) _ => eapply costs_close
  | |- costs (now _) _ => eapply costs_now
  | |- costs (wait _ _) _ => eapply costs_wait
  | |- costs (refreshCurrentUrl _) _ => eapply costs_refreshCurrentUrl
  | |- costs (record _ _ currentUrl) _ => eapply costs_record, costs_currentUrl
  | |- costs (record _ _ (pageUrl _)) _ => eapply costs_record, costs_pageUrl
  | |- costs currentUrl _ => eapply costs_currentUrl
  | |- costs (pageUrl _) _ => eapply costs_pageUrl
  | |- costs (report _) _ => eapply costs_report
  | |- costs (modify _) _ => eapply costs_modify; intros ?; reflexivity
  | |- costs (if _ then _ else _) _ => eapply costs_if
  | |- costs (match ?o with Some _ => _ | None => _ end) _ => destruct o
  end.

Ltac costs_auto := repeat costs_step.

Section Budget.

Context {W : Type}.
Variable js : Builtins.
Variable sh : Stagehand W.
Variables storeUrl runId : string.

Lemma costs_navigate : costs (navigate (counting sh) storeUrl) (mkCalls 0 0 2000).
Proof.
  eapply costs_weaken; [unfold navigate; costs_auto | | |]; vm_compute; intros Hcmp; discriminate Hcmp.
Qed.

Lemma costs_homepage_analysis : costs (homepage_analysis js (counting sh)) (mkCalls 0 1 0).
Proof.
  eapply costs_weaken; [unfold homepage_analysis; costs_auto | | |];
    vm_compute; intros Hcmp; discriminate Hcmp.
Qed.

Lemma costs_product_discovery :
  costs (product_discovery js (counting sh) storeUrl) (mkCalls 4 3 8000).
Proof.
  eapply costs_weaken;
    [unfold product_discovery, find_product, product_page_analysis; costs_auto | | |];
    vm_compute; intros Hcmp; discriminate Hcmp.
Qed.

Lemma costs_add_to_cart : costs (add_to_cart js (counting sh)) (mkCalls 4 4 9000).
Proof.
  eapply costs_weaken;
    [unfold add_to_cart, try_add_to_cart, variant_retries, cart_experience_analysis;
     costs_auto | | |];
    vm_compute; intros Hcmp; discriminate Hcmp.
Qed.

Lemma costs_checkout : costs (checkout js (counting sh)) (mkCalls 9 4 16500).
Proof.
  eapply costs_weaken;
    [unfold checkout, reach_checkout, fill_checkout_form; costs_auto | | |];
    vm_compute; intros Hcmp; discriminate Hcmp.
Qed.

Lemma costs_pipeline :
  costs (pipeline js (counting sh) storeUrl runId) (mkCalls 17 12 35500).
Proof.
  eapply costs_weaken.
  - unfold pipeline, stages.
    eapply costs_bind; [apply costs_navigate | intros _].
    eapply costs_bind; [| intros _; unfold finish; costs_auto].
    eapply costs_bind; [apply costs_homepage_analysis | intros _].
    eapply costs_bind; [apply costs_product_discovery | intros _].
    eapply costs_bind; [apply costs_add_to_cart | intros _].
    apply costs_checkout.
  - vm_compute; intros Hcmp; discriminate Hcmp.
  - vm_compute; intros Hcmp; discriminate Hcmp.
  - vm_compute; intros Hcmp; discriminate Hcmp.
Qed.

Lemma costs_on_failure e : costs (on_failure (counting sh) storeUrl runId e) no_calls.
Proof.
  eapply costs_weaken; [unfold on_failure; costs_auto | | |]; vm_compute; intros Hcmp; discriminate Hcmp.
Qed.

(** X16.  A run asks at most 17 actions and 12 observations of the agent,
    whatever the agent answers, and its fixed pauses add up to at most
    35.5 seconds.  This is measured on the agent with a count kept beside
    its world, from any count [c]; the run on the counting agent ends as
    the run on the agent itself does. *)
Theorem call_budget (w : W) (c : Calls) outcome s' :
  runAnalysis js (counting sh) storeUrl runId (w, c) = (outcome, s') ->
  within (mkCalls 17 12 35500) c (snd (St.world s'))
  /\ runAnalysis js sh storeUrl runId w = (outcome, erase s').
Proof.
  intros R. split; [| now rewrite (runAnalysis_counting js sh storeUrl runId w c), R].
  revert R.
  unfold runAnalysis, construct. cbn [date_now counting fst snd].
  destruct (date_now sh w) as [t w1].
  pose proof (costs_new_Stagehand sh (St.initial (w1, c) t)) as N.
  destruct (new_Stagehand (counting sh) (St.initial (w1, c) t)) as [[e | []] s0];
    cbn [snd St.initial St.world] in N.
  - intros [= _ <-]. unfold within in *. cbn in *. lia.
  - pose proof (costs_try_catch _ _ _ _ costs_pipeline costs_on_failure s0) as P.
    destruct (try_catch (pipeline js (counting sh) storeUrl runId)
                (on_failure (counting sh) storeUrl runId) s0) as [[e | r] s1];
      cbn [snd] in P; intros [= _ <-]; unfold within in *; cbn in *; lia.
Qed.

End Budget.

Lemma call_budget_witness :
  exists outcome s',
    runAnalysis ascii_builtins (counting (scripted busy_store))
      "https://shop.example" "run-1" (0, no_calls) = (outcome, s')
    /\ snd (St.world s') = mkCalls 17 12 35500
    /\ within (mkCalls 17 12 35500) no_calls (snd (St.world s'))
    /\ run busy_store = (outcome, erase s').
Proof.
  eexists ?[o], ?[s].
  assert (E : runAnalysis ascii_builtins (counting (scripted busy_store))
                "https://shop.example" "run-1" (0, no_calls) = (?o, ?s))
    by (vm_compute; reflexivity).
  split; [exact E |]. split; [vm_compute; reflexivity |].
  exact (call_budget _ _ _ _ _ _ _ _ E).
Defined.

(* ===================================================================== *)
(** ** The first version of the run *)

Section V1Logic.

Context {W : Type}.
Variable ag : V1.Agent W.
Implicit Types s : St.t W.

Lemma V1_wp_close (Q : Thrown + unit -> St.t W -> Prop) s :
  (forall r w, Q r (St.with_world w (St.count_close s))) -> wp (V1.close ag) Q s.
Proof.
  unfold wp, V1.close. destruct (V1.ag_close ag (St.world s)) as [r w].
  intros H. apply H.
Qed.

Lemma V1_wp_now (Q : Thrown + Z -> St.t W -> Prop) s :
  (forall t w, Q (inr t) (St.with_world w s)) -> wp (V1.now ag) Q s.
Proof.
  unfold wp, V1.now. destruct (V1.ag_date_now ag (St.world s)) as [t w].
  intros H. apply H.
Qed.

Lemma V1_wp_record storeUrl a (Q : Thrown + unit -> St.t W -> Prop) s :
  (forall t w, Q (inr tt) (St.push_timeline (mkEvent t a storeUrl true)
                             (St.with_world w s))) ->
  wp (V1.record ag storeUrl a) Q s.
Proof.
  intros H. unfold V1.record. apply wp_bind, V1_wp_now. intros t w. apply H.
Qed.

End V1Logic.

Ltac v1_step :=
  lazymatch goal with
  | |- wp (bind _ _) _ _ => apply wp_bind
  | |- wp (ret _) _ _ => apply wp_ret
  | |- wp get _ _ => apply wp_get
  | |- wp (modify _) _ _ => apply wp_modify
  | |- wp (report _) _ _ => apply wp_modify
  | |- wp (try_catch _ _) _ _ => apply wp_try_catch
  | |- wp (whenM _ _) _ _ =>
      st_simpl; cbn [truthy_string negb andb];
      apply wp_whenM; (let H := fresh in intros H; try discriminate H)
  | |- wp (V1.init _) _ _ => apply wp_call; intros [? | []] ?
  | |- wp (V1.act _ _) _ _ => apply wp_call; intros [? | []] ?
  | |- wp (V1.extract _) _ _ => apply wp_call; intros [? | ?] ?
  | |- wp (V1.close _) _ _ => apply V1_wp_close; intros [? | []] ?
  | |- wp (V1.now _) _ _ => apply V1_wp_now; intros ? ?
  | |- wp (V1.record _ _ _) _ _ => apply V1_wp_record; intros ? ?
  | |- wp (if ?b then _ else _) _ _ => destruct b eqn:?
  | |- wp (match _ with Some _ => _ | None => _ end) _ _ =>
      st_simpl; cbv iota;
      try lazymatch goal with
          | |- wp (match ?o with Some _ => _ | None => _ end) _ _ => destruct o eqn:?
          end
  end; cbv beta iota.

Section V1Run.

Context {W : Type}.
Variable js : Builtins.
Variable ag : V1.Agent W.
Variables storeUrl runId : string.
Implicit Types s : St.t W.

(** What [finish] returns, from variables that are in the table. *)
Lemma V1_finish_spec s :
  In (V1.row_of s) V1.rows ->
  wp (V1.finish js ag storeUrl runId)
     (fun r s' =>
        St.timeline s' = St.timeline s
        /\ St.closes s' = S (St.closes s)
        /\ match r with
           | inr res =>
               V1.status res = completed /\ V1.error res = None
               /\ V1.run_id res = runId /\ V1.store_url res = storeUrl
               /\ V1.timeline res = St.timeline s
               /\ V1.classified js res
           | inl _ => True
           end) s.
Proof.
  intros R. unfold V1.finish.
  apply wp_bind, wp_get. cbv beta iota.
  apply wp_bind.
  destruct (St.timeToAddToCart s) as [seconds |] eqn:T.
  - apply wp_whenM; intros C.
    + repeat v1_step; st_simpl; (split; [reflexivity |]); (split; [reflexivity |]);
        try exact I.
      repeat (split; [reflexivity |]).
      exists (St.findings s). unfold V1.row_of in R.
      cbn [V1.metrics V1.completed_result V1.drop_off_step V1.add_to_cart_success
           V1.checkout_reached V1.score V1.findings V1.time_to_add_to_cart_seconds].
      st_simpl. rewrite T, C. split; [exact R | reflexivity].
    + repeat v1_step; st_simpl; (split; [reflexivity |]); (split; [reflexivity |]);
        try exact I.
      repeat (split; [reflexivity |]).
      exists (St.findings s). unfold V1.row_of in R.
      cbn [V1.metrics V1.completed_result V1.drop_off_step V1.add_to_cart_success
           V1.checkout_reached V1.score V1.findings V1.time_to_add_to_cart_seconds].
      st_simpl. rewrite T, C. cbn [when]. rewrite app_nil_r.
      split; [exact R | reflexivity].
  - repeat v1_step; st_simpl; (split; [reflexivity |]); (split; [reflexivity |]);
      try exact I.
    repeat (split; [reflexivity |]).
    exists (St.findings s). unfold V1.row_of in R.
    cbn [V1.metrics V1.completed_result V1.drop_off_step V1.add_to_cart_success
         V1.checkout_reached V1.score V1.findings V1.time_to_add_to_cart_seconds].
    st_simpl. rewrite T. rewrite app_nil_r. split; [exact R | reflexivity].
Qed.

(** The body of the outermost [try], from the variables as declared: it
    returns a result of the table with the session closed, or throws with
    the session closed at most once. *)
Lemma V1_pipeline_spec w start :
  wp (V1.pipeline js ag storeUrl runId)
     (fun r s' =>
        V1.timeline_ok storeUrl (St.timeline s')
        /\ match r with
           | inr res =>
               St.closes s' = 1%nat
               /\ V1.status res = completed /\ V1.error res = None
               /\ V1.run_id res = runId /\ V1.store_url res = storeUrl
               /\ V1.timeline res = St.timeline s'
               /\ V1.classified js res
           | inl _ => (St.closes s' <= 1)%nat
           end) (St.initial w start).
Proof.
  unfold V1.pipeline, V1.navigate, V1.product_discovery, V1.add_to_cart, V1.checkout.
  repeat v1_step;
    lazymatch goal with
    | |- wp (V1.finish _ _ _ _) _ _ =>
        eapply wp_mono;
          [ apply V1_finish_spec; unfold V1.row_of; st_simpl; cbn;
            repeat first [left; reflexivity | right]
          | let T := fresh "T" in
            let C := fresh "C" in
            let G := fresh "G" in
            intros ? ? (T & C & G); rewrite T, C; st_simpl;
            unfold V1.timeline_ok; cbn [app map action];
            (split; [split; [apply subseqb_sound; vm_compute; reflexivity
                            | repeat constructor] |]);
            match goal with
            | |- match ?r with inl _ => _ | inr _ => _ end =>
                destruct r; [lia | split; [reflexivity | exact G]]
            end ]
    | |- _ =>
        st_simpl; unfold V1.timeline_ok; cbn [app map action];
        (split; [split; [apply subseqb_sound; vm_compute; reflexivity
                        | repeat constructor] | lia])
    end.
Qed.

Lemma V1_on_failure_spec e s :
  wp (V1.on_failure ag storeUrl runId e)
     (fun r s' =>
        St.closes s' = S (St.closes s)
        /\ St.timeline s' = St.timeline s
        /\ r = inr (V1.failed_result storeUrl runId e s')) s.
Proof.
  unfold V1.on_failure. repeat v1_step; st_simpl; repeat split.
Qed.

(** How a run of the first version ends. *)
Lemma V1_runAnalysis_inv (w : W) outcome s' :
  V1.runAnalysis js ag storeUrl runId w = (outcome, s') ->
  match outcome with
  | V1.Rejected e =>
      fst (V1.ag_new ag (snd (V1.ag_date_now ag w))) = inl e
      /\ St.closes s' = 0%nat
  | V1.Resolved r =>
      V1.timeline_ok storeUrl (V1.timeline r)
      /\ ((exists e s1,
             r = V1.failed_result storeUrl runId e s1
             /\ (St.closes s' = 1%nat \/ St.closes s' = 2%nat))
          \/ (V1.status r = completed /\ V1.error r = None
              /\ V1.run_id r = runId /\ V1.store_url r = storeUrl
              /\ V1.classified js r /\ St.closes s' = 1%nat))
  end.
Proof.
  unfold V1.runAnalysis.
  destruct (V1.ag_date_now ag w) as [start w1]. cbn [snd].
  unfold V1.new_Stagehand at 1. unfold call. st_simpl.
  destruct (V1.ag_new ag w1) as [[e | []] w2]; cbn [fst].
  - intros [= <- <-]. split; reflexivity.
  - change (St.with_world w2 (St.initial w1 start)) with (St.initial w2 start).
    pose proof (V1_pipeline_spec w2 start) as P. unfold wp in P. unfold try_catch.
    destruct (V1.pipeline js ag storeUrl runId (St.initial w2 start)) as [[e | res] s1];
      cbn [fst snd] in P.
    + destruct P as [T C].
      pose proof (V1_on_failure_spec e s1) as F. unfold wp in F.
      destruct (V1.on_failure ag storeUrl runId e s1) as [r s2]; cbn [fst snd] in F.
      destruct F as (C2 & T2 & ->). intros [= <- <-].
      split; [cbn [V1.timeline V1.failed_result]; now rewrite T2 |].
      left. exists e, s2. split; [reflexivity | lia].
    + destruct P as (T & C & St & E & I & U & TL & K). intros [= <- <-].
      split; [now rewrite TL |]. right. tauto.
Qed.

(** X17.  The first version of the run knows five results.  A run that
    resolves returns the failed result (score 0, drop-off step
    "initialization", the one finding [analysis-failed]) or a completed
    result of this table: a drop-off at "product_discovery" or at
    "add_to_cart" with score 35 and the one problem [no-products] or
    [add-to-cart-failed]; a drop-off at "checkout_navigation" with the
    product in the cart and score 70 for [checkout-nav-unclear], 60 for
    [checkout-failed]; or no drop-off, the checkout reached, no problem
    and score 100.  The only other finding is [fast-add-to-cart], which
    comes after scoring. *)
Theorem V1_results_classified (w : W) r s' :
  V1.runAnalysis js ag storeUrl runId w = (V1.Resolved r, s') ->
  In (V1.score r) [0; 35; 60; 70; 100]
  /\ V1.run_id r = runId /\ V1.store_url r = storeUrl
  /\ ((exists e,
         V1.status r = failed /\ V1.score r = 0
         /\ V1.metrics r = V1.mkMetrics false None false (Some "initialization")
         /\ V1.findings r = [analysis_failed e]
         /\ V1.error r = Some (error_message e))
      \/ (V1.status r = completed /\ V1.error r = None /\ V1.classified js r)).
Proof.
  intros R. apply V1_runAnalysis_inv in R.
  destruct R as (_ & [(e & s1 & -> & _) | (S & E & I & U & K & _)]).
  - split; [cbn; tauto |]. split; [reflexivity |]. split; [reflexivity |].
    left. exists e. repeat split.
  - split; [| split; [exact I | split; [exact U | right; tauto]]].
    destruct K as (problems & Row & _). unfold V1.rows in Row. cbn [In] in Row.
    destruct Row as [Row | [Row | [Row | [Row | [Row | []]]]]];
      injection Row as _ _ _ <- _; cbn; tauto.
Qed.

(** X18.  The timeline of a result of the first version, failed or
    completed, follows the order of the steps in the source, from
    "Navigate to store" to "Reached checkout/cart page"; every entry
    carries the URL of the store, whatever page the run is on, and is
    marked successful. *)
Theorem V1_timeline_in_order (w : W) r s' :
  V1.runAnalysis js ag storeUrl runId w = (V1.Resolved r, s') ->
  Subseq (map action (V1.timeline r)) V1.timeline_actions_in_order
  /\ Forall (fun ev => url ev = storeUrl /\ success ev = true) (V1.timeline r).
Proof.
  intros R. apply V1_runAnalysis_inv in R. exact (proj1 R).
Qed.

(** X19.  The first version closes the session as the current one does:
    once when the run resolves, or twice when the call that follows
    scoring threw, in which case the run that had completed returns the
    failed result; a run rejects only when the agent cannot be
    constructed, and has then not called [close]. *)
Theorem V1_session_closed (w : W) outcome s' :
  V1.runAnalysis js ag storeUrl runId w = (outcome, s') ->
  match outcome with
  | V1.Resolved r =>
      St.closes s' = 1%nat \/ (St.closes s' = 2%nat /\ V1.status r = failed)
  | V1.Rejected e =>
      St.closes s' = 0%nat
      /\ fst (V1.ag_new ag (snd (V1.ag_date_now ag w))) = inl e
  end.
Proof.
  intros R. apply V1_runAnalysis_inv in R. destruct outcome as [r | e].
  - destruct R as (_ & [(e & s1 & -> & [C | C]) | (_ & _ & _ & _ & _ & C)]).
    + now left.
    + right. split; [exact C | reflexivity].
    + now left.
  - split; apply R.
Qed.

End V1Run.

Lemma V1_results_classified_witness :
  exists r s',
    run1 V1.lost_store = (V1.Resolved r, s')
    /\ V1.score r = 70
    /\ V1.drop_off_step (V1.metrics r) = Some "checkout_navigation"
    /\ In (V1.score r) [0; 35; 60; 70; 100].
Proof.
  eexists ?[r], ?[s].
  assert (E : run1 V1.lost_store = (V1.Resolved ?r, ?s)) by (vm_compute; reflexivity).
  split; [exact E |]. split; [reflexivity |]. split; [reflexivity |].
  exact (proj1 (V1_results_classified _ _ _ _ _ _ _ E)).
Defined.

Lemma V1_timeline_in_order_witness :
  exists r s',
    run1 V1.smooth_store = (V1.Resolved r, s')
    /\ List.length (V1.timeline r) = 7%nat
    /\ Forall (fun ev => url ev = "https://shop.example" /\ success ev = true)
         (V1.timeline r).
Proof.
  eexists ?[r], ?[s].
  assert (E : run1 V1.smooth_store = (V1.Resolved ?r, ?s)) by (vm_compute; reflexivity).
  split; [exact E |]. split; [reflexivity |].
  exact (proj2 (V1_timeline_in_order _ _ _ _ _ _ _ E)).
Defined.

Lemma V1_session_closed_witness :
  exists r s',
    run1 V1.close_fails_store = (V1.Resolved r, s')
    /\ St.closes s' = 2%nat
    /\ (St.closes s' = 1%nat \/ (St.closes s' = 2%nat /\ V1.status r = failed)).
Proof.
  eexists ?[r], ?[s].
  assert (E : run1 V1.close_fails_store = (V1.Resolved ?r, ?s))
    by (vm_compute; reflexivity).
  split; [exact E |]. split; [reflexivity |].
  exact (V1_session_closed _ _ _ _ _ _ _ E).
Defined.
